(** * CleanTrack: the checklist execution engine of the web client

    A shallow embedding of the checklist pages of the Next.js client
    ([src/app/checklists/[id]/page.tsx], the checklist list page, the
    today-tasks page, the review page and the room requirement inputs),
    together with the properties the specification states about them.

    Conventions of the embedding:
    - an optional field [f?: T] of a TypeScript interface is an [option T];
    - identifiers are [string]s, compared with [===] ([String.eqb]);
    - JavaScript numbers that the code only uses as integers are [Z]; where
      [parseInt] can produce a [NaN] the number is a [Num];
    - React state objects used as dictionaries ([Record<string, T>]) are
      [gmap string T];
    - a handler is a computation over a world made of the page state, the
      state of the backend and the log of the API calls issued so far; an
      awaited call either returns or throws. A handler runs to its end
      without another event of the page in between. The definitions come
      first, the properties follow. *)

From Stdlib Require Import ZArith List Bool Lia Ascii String DecimalString.
From Stdlib Require DecimalPos.
From stdpp Require Import base option list strings gmap.

Import ListNotations.
Local Open Scope Z_scope.

(** ** Domain model ([src/lib/api.ts]) *)

Inductive Role : Type := admin | property_owner | housekeeper.

(** The status ['completed'] is [completed_st]; [completed] is the flag of
    an item. *)
Inductive Status : Type := pending | in_progress | completed_st | reviewed.

#[global] Instance Role_eq_dec : EqDecision Role.
Proof. solve_decision. Defined.

#[global] Instance Status_eq_dec : EqDecision Status.
Proof. solve_decision. Defined.

Record Photo : Type := mkPhoto {
  path : string;
  uploaded_at : string
}.

(** [Room.pivot]: the per-property configuration of a room. *)
Record Pivot : Type := mkPivot {
  pv_property_id : option string;
  requires_photo : option bool;
  photos_required_count : option Z
}.

Record Room : Type := mkRoom {
  r_id : string;
  r_name : string;
  pivot : option Pivot
}.

Record ChecklistItem : Type := mkItem {
  it_id : string;
  room_id : string;
  completed : bool;
  it_notes : option string;
  photos : option (list Photo);
  task_title : option string
}.

Record Property : Type := mkProperty {
  rooms : option (list Room)
}.

Record Checklist : Type := mkChecklist {
  cl_id : string;
  status : Status;
  rating : option Z;
  cl_notes : option string;
  property : option Property;
  items : option (list ChecklistItem)
}.

Record User : Type := mkUser {
  role : Role
}.

(** A reading of the geolocation service. The page forwards the two
    numbers untouched, so their representation plays no part. *)
Record Coords : Type := mkCoords {
  latitude : Z;
  longitude : Z
}.

(** ** JavaScript idioms used by the pages *)

Module JS.

(** Truthiness of a string: every string but the empty one. *)
Definition truthy (s : string) : bool := negb (String.eqb s "").

(** [a || b] where [a] is a [string | undefined] and [b] the fallback. *)
Definition or_str (a b : option string) : option string :=
  match a with
  | Some s => if truthy s then Some s else b
  | None => b
  end.

(** [a || b] where [a] is an object or [undefined]: objects are truthy. *)
Definition or_obj {A : Type} (a b : option A) : option A :=
  match a with
  | Some x => Some x
  | None => b
  end.

(** [xs || []]. *)
Definition or_nil {A : Type} (xs : option (list A)) : list A :=
  match xs with
  | Some l => l
  | None => []
  end.

(** [n || 0] on a [number | undefined] ([0] is falsy). *)
Definition or_zero (n : option Z) : Z :=
  match n with
  | Some k => k
  | None => 0
  end.

(** [Array.prototype.some]. *)
Definition some {A : Type} (p : A -> bool) (xs : list A) : bool := existsb p xs.

(** [Array.prototype.flatMap]. *)
Definition flatMap {A B : Type} (f : A -> list B) (xs : list A) : list B :=
  flat_map f xs.

End JS.

(** ** Room sequencer ([fetchChecklist] and [handleSubmit], details page) *)

(** [data.property?.rooms || []]. *)
Definition orderedRooms (data : Checklist) : list Room :=
  match property data with
  | Some p => JS.or_nil (rooms p)
  | None => []
  end.

(** [data.items || []]. *)
Definition itemsOf (data : Checklist) : list ChecklistItem :=
  JS.or_nil (items data).

(** The callback of [items.some]: [it.room_id === r.id && !it.completed]. *)
Definition pendingIn (r : Room) (it : ChecklistItem) : bool :=
  String.eqb (room_id it) (r_id r) && negb (completed it).

(** [orderedRooms.find((r) => items.some(...))]. *)
Definition firstPending (rs : list Room) (its : list ChecklistItem) : option Room :=
  List.find (fun r => JS.some (pendingIn r) its) rs.

(** [firstPending?.id || orderedRooms[0]?.id || null]. *)
Definition currentRoomIdOf (rs : list Room) (its : list ChecklistItem) : option string :=
  JS.or_str (r_id <$> firstPending rs its)
            (JS.or_str (r_id <$> head rs) None).

(** [firstPending || orderedRooms[0]]: the room object whose photo progress
    [fetchChecklist] computes. *)
Definition currentRoomOf (rs : list Room) (its : list ChecklistItem) : option Room :=
  JS.or_obj (firstPending rs its) (head rs).

(** The sequencer in the words of the specification: a room is incomplete
    when one of its items is not completed; the current room is the first
    incomplete room in order, else the first room, else nothing. *)
Definition incomplete (its : list ChecklistItem) (r : Room) : Prop :=
  exists it, In it its /\ room_id it = r_id r /\ completed it = false.

Inductive CurrentRoomSpec (rs : list Room) (its : list ChecklistItem) : option Room -> Prop :=
  | CR_first_incomplete pre r post :
      rs = pre ++ r :: post ->
      (forall q, In q pre -> ~ incomplete its q) ->
      incomplete its r ->
      CurrentRoomSpec rs its (Some r)
  | CR_fallback_first r rest :
      rs = r :: rest ->
      (forall q, In q rs -> ~ incomplete its q) ->
      CurrentRoomSpec rs its (Some r)
  | CR_no_room :
      rs = [] ->
      CurrentRoomSpec rs its None.


Definition kitchen : Room := mkRoom "kitchen" "Kitchen" None.
Definition bath : Room := mkRoom "bath" "Bath" None.

Definition scenarioA_items : list ChecklistItem :=
  [ mkItem "i2" "bath" true None None None;
    mkItem "i1" "kitchen" false None None None ].

(** ** Photo progress of the current room *)

Record Progress : Type := mkProgress {
  required : Z;
  total : Z
}.

(** [items.filter(it => it.room_id === id).flatMap(it => it.photos || [])]. *)
Definition roomPhotos (id : string) (its : list ChecklistItem) : list Photo :=
  JS.flatMap (fun it => JS.or_nil (photos it))
             (List.filter (fun it => String.eqb (room_id it) id) its).

(** [room?.pivot?.photos_required_count]. *)
Definition pivotCount (r : option Room) : option Z :=
  match r with
  | Some room =>
      match pivot room with
      | Some p => photos_required_count p
      | None => None
      end
  | None => None
  end.

(** [Math.max(0, Number(room?.pivot?.photos_required_count || 0))]. *)
Definition requiredOf (r : option Room) : Z :=
  Z.max 0 (JS.or_zero (pivotCount r)).

(** The progress computed by [fetchChecklist] from the room object. *)
Definition fetchProgress (rs : list Room) (its : list ChecklistItem) : Progress :=
  match currentRoomOf rs its with
  | Some current =>
      {| required := requiredOf (Some current);
         total := Z.of_nat (length (roomPhotos (r_id current) its)) |}
  | None => {| required := 0; total := 0 |}
  end.

(** The progress recomputed by [handleSubmit] from the new current id; the
    room is looked up again with [orderedRooms.find(r => r.id === id)]. *)
Definition submitProgress (rs : list Room) (its : list ChecklistItem) : Progress :=
  match currentRoomIdOf rs its with
  | Some newCurrentId =>
      if JS.truthy newCurrentId then
        {| required :=
             requiredOf (List.find (fun r => String.eqb (r_id r) newCurrentId) rs);
           total := Z.of_nat (length (roomPhotos newCurrentId its)) |}
      else {| required := 0; total := 0 |}
  | None => {| required := 0; total := 0 |}
  end.

(** The photo pool of a room in the words of the specification: the photos
    of every item of the room, whatever its task. *)
Definition photosPersistedInRoom (r : Room) (its : list ChecklistItem) : nat :=
  list_sum (map (fun it => if String.eqb (room_id it) (r_id r)
                           then length (JS.or_nil (photos it)) else 0%nat) its).

(** ** Details page: state ([useState] cells of [ChecklistDetailsPage]) *)

(** A staged [File], named by its file name. *)
Definition File : Type := string.

Record PageState : Type := mkPage {
  checklist : option Checklist;
  loading : bool;
  error : option string;
  updating : option string;
  success : option string;
  selectedPhotosMap : gmap string (list File);
  photoPreviewsMap : gmap string (list string);
  itemNotesMap : gmap string string;
  currentRoomId : option string;
  roomPhotoProgress : Progress
}.

Definition initialPage : PageState :=
  {| checklist := None; loading := true; error := None; updating := None;
     success := None; selectedPhotosMap := ∅; photoPreviewsMap := ∅;
     itemNotesMap := ∅; currentRoomId := None;
     roomPhotoProgress := {| required := 0; total := 0 |} |}.

Definition setChecklist (v : option Checklist) (p : PageState) : PageState :=
  mkPage v (loading p) (error p) (updating p) (success p) (selectedPhotosMap p)
         (photoPreviewsMap p) (itemNotesMap p) (currentRoomId p) (roomPhotoProgress p).

Definition setLoading (v : bool) (p : PageState) : PageState :=
  mkPage (checklist p) v (error p) (updating p) (success p) (selectedPhotosMap p)
         (photoPreviewsMap p) (itemNotesMap p) (currentRoomId p) (roomPhotoProgress p).

Definition setError (v : option string) (p : PageState) : PageState :=
  mkPage (checklist p) (loading p) v (updating p) (success p) (selectedPhotosMap p)
         (photoPreviewsMap p) (itemNotesMap p) (currentRoomId p) (roomPhotoProgress p).

Definition setUpdating (v : option string) (p : PageState) : PageState :=
  mkPage (checklist p) (loading p) (error p) v (success p) (selectedPhotosMap p)
         (photoPreviewsMap p) (itemNotesMap p) (currentRoomId p) (roomPhotoProgress p).

Definition setSuccess (v : option string) (p : PageState) : PageState :=
  mkPage (checklist p) (loading p) (error p) (updating p) v (selectedPhotosMap p)
         (photoPreviewsMap p) (itemNotesMap p) (currentRoomId p) (roomPhotoProgress p).

(** The three dictionaries are updated functionally ([prev => ...]). *)
Definition setSelectedPhotosMap
    (f : gmap string (list File) -> gmap string (list File)) (p : PageState) : PageState :=
  mkPage (checklist p) (loading p) (error p) (updating p) (success p)
         (f (selectedPhotosMap p))
         (photoPreviewsMap p) (itemNotesMap p) (currentRoomId p) (roomPhotoProgress p).

Definition setPhotoPreviewsMap
    (f : gmap string (list string) -> gmap string (list string)) (p : PageState) : PageState :=
  mkPage (checklist p) (loading p) (error p) (updating p) (success p) (selectedPhotosMap p)
         (f (photoPreviewsMap p))
         (itemNotesMap p) (currentRoomId p) (roomPhotoProgress p).

Definition setItemNotesMap
    (f : gmap string string -> gmap string string) (p : PageState) : PageState :=
  mkPage (checklist p) (loading p) (error p) (updating p) (success p) (selectedPhotosMap p)
         (photoPreviewsMap p)
         (f (itemNotesMap p))
         (currentRoomId p) (roomPhotoProgress p).

Definition setCurrentRoomId (v : option string) (p : PageState) : PageState :=
  mkPage (checklist p) (loading p) (error p) (updating p) (success p) (selectedPhotosMap p)
         (photoPreviewsMap p) (itemNotesMap p) v (roomPhotoProgress p).

Definition setRoomPhotoProgress (v : Progress) (p : PageState) : PageState :=
  mkPage (checklist p) (loading p) (error p) (updating p) (success p) (selectedPhotosMap p)
         (photoPreviewsMap p) (itemNotesMap p) (currentRoomId p) v.

(** ** The API service ([src/lib/api.ts]) as the pages see it *)

(** Body of [updateChecklistItem]. *)
Record ItemUpdate : Type := mkItemUpdate {
  upd_completed : bool;
  upd_notes : string;
  upd_photos : list File
}.

(** Body of [reviewChecklist]. *)
Record ReviewData : Type := mkReviewData {
  rd_rating : option Z;
  rd_notes : option string
}.

(** A JavaScript number as the requirement inputs produce it: an integer,
    or the [NaN] of a failed [parseInt]. *)
Inductive Num : Type :=
  | NaN
  | Int (z : Z).

(** [err.data] of a rejected start: the diagnostics of the geofence
    authority. The distance is carried already rounded. *)
Record Diagnostics : Type := mkDiagnostics {
  distance_meters : option Z;
  allowed_meters : option Z
}.

(** The error object thrown by [ApiService.request]. *)
Record ApiError : Type := mkApiError {
  message : option string;
  data : option Diagnostics
}.

Inductive ApiCall : Type :=
  | CallGetChecklist (id : string)
  | CallGetChecklists (filter : option string)
  | CallGetTodayTasks
  | CallUpdateChecklistItem (checklistId itemId : string) (d : ItemUpdate)
  | CallStartChecklist (checklistId : string) (coords : option Coords)
  | CallCompleteChecklist (checklistId : string)
  | CallReviewChecklist (checklistId : string) (d : ReviewData)
  | CallUpdateRoomRequirements (propertyId : option string) (roomId : string)
      (requiresPhoto : bool) (photosRequiredCount : Num).

(** What awaiting a promise gives: its value, or the error it rejects with. *)
Inductive Outcome (A : Type) : Type :=
  | Returned (a : A)
  | Thrown (e : ApiError).

Arguments Returned {A} a.
Arguments Thrown {A} e.

(** The backend behind [apiService], with a state of its own. *)
Class ApiService (S : Type) : Type := {
  getChecklist : string -> S -> Outcome Checklist * S;
  getChecklists : option string -> S -> Outcome (list Checklist) * S;
  getTodayTasks : S -> Outcome (list Checklist) * S;
  updateChecklistItem : string -> string -> ItemUpdate -> S -> Outcome unit * S;
  startChecklist : string -> option Coords -> S -> Outcome unit * S;
  completeChecklist : string -> S -> Outcome unit * S;
  reviewChecklist : string -> ReviewData -> S -> Outcome unit * S;
  updateRoomRequirements : option string -> string -> bool -> Num -> S -> Outcome unit * S
}.

(** ** Handlers as computations *)

Record World (P S : Type) : Type := mkWorld {
  page : P;
  server : S;
  calls : list ApiCall
}.

Arguments mkWorld {P S} page server calls.
Arguments page {P S} w.
Arguments server {P S} w.
Arguments calls {P S} w.

Definition M (P S A : Type) : Type := World P S -> Outcome A * World P S.

Definition ret {P S A : Type} (a : A) : M P S A :=
  fun w => (Returned a, w).

Definition bind {P S A B : Type} (m : M P S A) (k : A -> M P S B) : M P S B :=
  fun w =>
    match m w with
    | (Returned a, w') => k a w'
    | (Thrown e, w') => (Thrown e, w')
    end.

(** [try { body } catch (err) { handler }]. *)
Definition try_catch {P S A : Type} (body : M P S A) (handler : ApiError -> M P S A)
  : M P S A :=
  fun w =>
    match body w with
    | (Returned a, w') => (Returned a, w')
    | (Thrown e, w') => handler e w'
    end.

(** [... finally { fin }]. *)
Definition finally {P S A : Type} (body : M P S A) (fin : M P S unit) : M P S A :=
  fun w =>
    match body w with
    | (o, w') =>
        match fin w' with
        | (Returned _, w'') => (o, w'')
        | (Thrown e, w'') => (Thrown e, w'')
        end
    end.

(** A state setter. *)
Definition modify {P S : Type} (f : P -> P) : M P S unit :=
  fun w => (Returned tt, mkWorld (f (page w)) (server w) (calls w)).

(** [await apiService.method(...)]: the call is logged, the backend answers. *)
Definition await {P S A : Type} (c : ApiCall) (method : S -> Outcome A * S) : M P S A :=
  fun w =>
    match method (server w) with
    | (o, s') => (o, mkWorld (page w) s' (calls w ++ [c]))
    end.

Notation "'let!' x := m 'in' k" := (bind m (fun x => k))
  (at level 10, x name, m at level 100, k at level 200).
Notation "m ;> k" := (bind m (fun _ => k))
  (at level 100, k at level 200, right associativity).

(** Running a handler on a page, against a backend in state [s]. *)
Definition run {P S A : Type} (h : M P S A) (p : P) (s : S) : Outcome A * World P S :=
  h (mkWorld p s []).

Definition dquote : string := String (Ascii.ascii_of_nat 34) EmptyString.

Definition Z_to_string (z : Z) : string := NilZero.string_of_int (Z.to_int z).

(** ** Details page ([src/app/checklists/[id]/page.tsx]) *)

Module Details.

Section Handlers.

Context {S : Type} `{ApiService S}.

(** [params.id]. *)
Variable checklistId : string.

(** [fetchChecklist], run by the effect of the page. *)
Definition fetchChecklist : M PageState S unit :=
  finally
    (try_catch
       (modify (setLoading true) ;>
        let! data := await (CallGetChecklist checklistId) (getChecklist checklistId) in
        modify (setChecklist (Some data)) ;>
        modify (setCurrentRoomId (currentRoomIdOf (orderedRooms data) (itemsOf data))) ;>
        modify (setRoomPhotoProgress (fetchProgress (orderedRooms data) (itemsOf data))))
       (fun err =>
          modify (setError (JS.or_str (message err)
                                      (Some "Failed to load checklist details.")))))
    (modify (setLoading false)).

(** [handlePhotoChange]: the chosen files are appended to the photos staged
    for the item; [preview] is the data URL the reader produces. *)
Definition handlePhotoChange (preview : File -> string) (files : list File)
    (itemId : string) (p : PageState) : PageState :=
  setPhotoPreviewsMap
    (fun prev => <[itemId := default [] (prev !! itemId) ++ map preview files]> prev)
    (setSelectedPhotosMap
       (fun prev => <[itemId := default [] (prev !! itemId) ++ files]> prev) p).

(** [handleSubmit]. The constants [photos], [notes] and [checklist] are
    read from the render [st] the handler closes over. *)
Definition handleSubmit (st : PageState) (item : ChecklistItem) : M PageState S unit :=
  let photos := default [] (selectedPhotosMap st !! it_id item) in
  let notes := default "" (itemNotesMap st !! it_id item) in
  match checklist st with
  | None => ret tt
  | Some cl =>
      if completed item then
        modify (setError (Some "Cannot modify a completed task."))
      else
        finally
          (try_catch
             (modify (setUpdating (Some (it_id item))) ;>
              modify (setError None) ;>
              await (CallUpdateChecklistItem (cl_id cl) (it_id item)
                       (mkItemUpdate true notes photos))
                    (updateChecklistItem (cl_id cl) (it_id item)
                       (mkItemUpdate true notes photos)) ;>
              let! data := await (CallGetChecklist checklistId) (getChecklist checklistId) in
              modify (setChecklist (Some data)) ;>
              modify (setCurrentRoomId (currentRoomIdOf (orderedRooms data) (itemsOf data))) ;>
              modify (setRoomPhotoProgress (submitProgress (orderedRooms data) (itemsOf data))) ;>
              modify (setSelectedPhotosMap (fun prev => <[it_id item := []]> prev)) ;>
              modify (setPhotoPreviewsMap (fun prev => <[it_id item := []]> prev)) ;>
              modify (setItemNotesMap (fun prev => <[it_id item := ""]> prev)) ;>
              modify (setSuccess
                        (Some ("Task updated successfully for " +:+ dquote
                               +:+ default "undefined" (task_title item)
                               +:+ dquote +:+ "!"))))
             (fun err =>
                modify (setError (JS.or_str (message err) (Some "Failed to update task.")))))
          (modify (setUpdating None))
  end.

(** What [navigator.geolocation] gives the page: the service is missing,
    the position request fails (permission denied, timeout), or a fix. *)
Inductive Geolocation : Type :=
  | GeoUnsupported
  | GeoFailed
  | GeoPosition (coords : Coords).

(** The diagnostics appended to the message of a rejected start. *)
Definition startErrorExtra (err : ApiError) : string :=
  match data err with
  | Some d =>
      match distance_meters d with
      | Some dist =>
          " (You are ~" +:+ Z_to_string dist +:+ "m away; allowed "
          +:+ match allowed_meters d with
              | Some a => Z_to_string a
              | None => "undefined"
              end +:+ "m)"
      | None => ""
      end
  | None => ""
  end.

(** [handleStartChecklist]. *)
Definition handleStartChecklist (st : PageState) (nav : Geolocation) : M PageState S unit :=
  match checklist st with
  | None => ret tt
  | Some cl =>
      try_catch
        (match nav with
         | GeoUnsupported =>
             modify (setError (Some "Location permission is required to start this checklist."))
         | GeoFailed =>
             modify (setError (Some
               "Unable to get your location. Please enable location services and try again."))
         | GeoPosition coords =>
             await (CallStartChecklist (cl_id cl) (Some coords))
                   (startChecklist (cl_id cl) (Some coords)) ;>
             let! data := await (CallGetChecklist checklistId) (getChecklist checklistId) in
             modify (setChecklist (Some data))
         end)
        (fun err =>
           modify (setError
             (Some (default "Failed to start checklist."
                            (JS.or_str (message err) None)
                    +:+ startErrorExtra err))))
  end.

(** [handleCompleteChecklist]. *)
Definition handleCompleteChecklist (st : PageState) : M PageState S unit :=
  match checklist st with
  | None => ret tt
  | Some cl =>
      try_catch
        (await (CallCompleteChecklist (cl_id cl)) (completeChecklist (cl_id cl)) ;>
         let! data := await (CallGetChecklist checklistId) (getChecklist checklistId) in
         modify (setChecklist (Some data)))
        (fun err =>
           modify (setError (JS.or_str (message err) (Some "Failed to complete checklist."))))
  end.

End Handlers.

(** *** What the page renders *)

(** [checklist?.items?.filter(item => item.completed).length || 0]. *)
Definition completedTasks (cl : option Checklist) : nat :=
  match cl with
  | Some c =>
      match items c with
      | Some its => length (List.filter completed its)
      | None => 0%nat
      end
  | None => 0%nat
  end.

(** [checklist?.items?.length || 0]. *)
Definition totalTasks (cl : option Checklist) : nat :=
  match cl with
  | Some c =>
      match items c with
      | Some its => length its
      | None => 0%nat
      end
  | None => 0%nat
  end.

(** [checklist?.status === s]. *)
Definition statusIs (s : Status) (cl : option Checklist) : bool :=
  match cl with
  | Some c => bool_decide (status c = s)
  | None => false
  end.

(** [user?.role === r]. *)
Definition roleIs (r : Role) (user : option User) : bool :=
  match user with
  | Some u => bool_decide (role u = r)
  | None => false
  end.

Definition canStart (cl : option Checklist) : bool := statusIs pending cl.

Definition canComplete (cl : option Checklist) : bool :=
  statusIs in_progress cl && Nat.eqb (completedTasks cl) (totalTasks cl).

Definition canUpdate (cl : option Checklist) (user : option User) : bool :=
  statusIs in_progress cl && roleIs housekeeper user.

(** [!checklist.rating]: no rating, or the falsy rating [0]. *)
Definition noRating (c : Checklist) : bool :=
  match rating c with
  | Some k => Z.eqb k 0
  | None => true
  end.

(** The early returns of the component. *)
Inductive View : Type :=
  | ViewLoading
  | ViewError
  | ViewNotFound
  | ViewMain (c : Checklist).

Definition view (p : PageState) : View :=
  if loading p then ViewLoading
  else
    match checklist p with
    | None =>
        match JS.or_str (error p) None with
        | Some _ => ViewError
        | None => ViewNotFound
        end
    | Some c => ViewMain c
    end.

(** The three header buttons. *)
Definition startOffered (p : PageState) (user : option User) : bool :=
  match view p with
  | ViewMain c => canStart (Some c) && roleIs housekeeper user
  | _ => false
  end.

Definition completeOffered (p : PageState) (user : option User) : bool :=
  match view p with
  | ViewMain c => canComplete (Some c) && roleIs housekeeper user
  | _ => false
  end.

Definition reviewOffered (p : PageState) (user : option User) : bool :=
  match view p with
  | ViewMain c =>
      bool_decide (status c = completed_st) && noRating c
      && (roleIs admin user || roleIs property_owner user)
  | _ => false
  end.

(** The filter of the task list: [!currentRoomId || it.room_id === currentRoomId]. *)
Definition itemListed (p : PageState) (it : ChecklistItem) : bool :=
  match JS.or_str (currentRoomId p) None with
  | Some cur => String.eqb (room_id it) cur
  | None => true
  end.

(** The update form of an item: [canUpdate && !item.completed]. *)
Definition updateFormShown (p : PageState) (user : option User) (it : ChecklistItem) : bool :=
  match view p with
  | ViewMain c => itemListed p it && canUpdate (Some c) user && negb (completed it)
  | _ => false
  end.

(** [selectedPhotosMap[item.id]?.length || 0]. *)
Definition stagedCount (p : PageState) (it : ChecklistItem) : Z :=
  Z.of_nat (length (default [] (selectedPhotosMap p !! it_id it))).

(** The photo condition of the [disabled] attribute of the submit button. *)
Definition photoGateBlocks (p : PageState) (it : ChecklistItem) : bool :=
  (0 <? required (roomPhotoProgress p))
  && (total (roomPhotoProgress p) + stagedCount p it <? required (roomPhotoProgress p)).

(** The [disabled] attribute of the submit button. *)
Definition submitDisabled (p : PageState) (it : ChecklistItem) : bool :=
  bool_decide (updating p = Some (it_id it)) || photoGateBlocks p it.

End Details.

(** ** Checklist list page ([ChecklistsPage]) *)

Module ChecklistsList.

Record ListState : Type := mkList {
  lp_checklists : list Checklist;
  lp_loading : bool;
  lp_error : option string;
  lp_activeFilter : string
}.

Definition setChecklists (v : list Checklist) (p : ListState) : ListState :=
  mkList v (lp_loading p) (lp_error p) (lp_activeFilter p).

Definition setLoading (v : bool) (p : ListState) : ListState :=
  mkList (lp_checklists p) v (lp_error p) (lp_activeFilter p).

Definition setError (v : option string) (p : ListState) : ListState :=
  mkList (lp_checklists p) (lp_loading p) v (lp_activeFilter p).

Section Handlers.

Context {S : Type} `{ApiService S}.

(** [filter && filter !== 'all'] selects [getChecklistsByStatus]. *)
Definition statusFilter (filter : string) : option string :=
  if JS.truthy filter && negb (String.eqb filter "all") then Some filter else None.

(** [fetchChecklists(filter)]. *)
Definition fetchChecklists (filter : string) : M ListState S unit :=
  finally
    (try_catch
       (modify (setLoading true) ;>
        modify (setError None) ;>
        let! response := await (CallGetChecklists (statusFilter filter))
                               (getChecklists (statusFilter filter)) in
        modify (setChecklists response))
       (fun err =>
          modify (setError (JS.or_str (message err) (Some "Failed to load checklists.")))))
    (modify (setLoading false)).

(** [handleStartChecklist(checklistId)] of the list page. *)
Definition handleStartChecklist (st : ListState) (checklistId : string) : M ListState S unit :=
  try_catch
    (await (CallStartChecklist checklistId None) (startChecklist checklistId None) ;>
     fetchChecklists (lp_activeFilter st))
    (fun err =>
       modify (setError (JS.or_str (message err) (Some "Failed to start checklist.")))).

(** [handleCompleteChecklist(checklistId)] of the list page. *)
Definition handleCompleteChecklist (st : ListState) (checklistId : string)
  : M ListState S unit :=
  try_catch
    (await (CallCompleteChecklist checklistId) (completeChecklist checklistId) ;>
     fetchChecklists (lp_activeFilter st))
    (fun err =>
       modify (setError (JS.or_str (message err) (Some "Failed to complete checklist.")))).

End Handlers.

(** The grid is rendered when [!loading && checklists.length > 0], one
    card per checklist; each card carries the buttons below. *)
Definition cardsShown (p : ListState) : list Checklist :=
  if lp_loading p then [] else lp_checklists p.

Definition getCompletedTasksCount (c : Checklist) : nat :=
  Details.completedTasks (Some c).

Definition getTotalTasksCount (c : Checklist) : nat :=
  Details.totalTasks (Some c).

(** [checklist.status === 'pending']: the Start button of a card. *)
Definition startOffered (user : option User) (c : Checklist) : bool :=
  bool_decide (status c = pending).

(** The Complete button of a card. *)
Definition completeOffered (user : option User) (c : Checklist) : bool :=
  bool_decide (status c = in_progress)
  && Nat.eqb (getCompletedTasksCount c) (getTotalTasksCount c).

(** The Review link of a card. *)
Definition reviewOffered (user : option User) (c : Checklist) : bool :=
  bool_decide (status c = completed_st) && Details.noRating c
  && (Details.roleIs admin user || Details.roleIs property_owner user).

End ChecklistsList.

(** ** Today-tasks page ([src/app/today-tasks/page.tsx]) *)

Module TodayTasks.

Record TodayState : Type := mkToday {
  tp_todayTasks : list Checklist;
  tp_loading : bool;
  tp_error : option string
}.

Definition setTodayTasks (v : list Checklist) (p : TodayState) : TodayState :=
  mkToday v (tp_loading p) (tp_error p).

Definition setLoading (v : bool) (p : TodayState) : TodayState :=
  mkToday (tp_todayTasks p) v (tp_error p).

Definition setError (v : option string) (p : TodayState) : TodayState :=
  mkToday (tp_todayTasks p) (tp_loading p) v.

Section Handlers.

Context {S : Type} `{ApiService S}.

(** [fetchTodayTasks]. *)
Definition fetchTodayTasks : M TodayState S unit :=
  finally
    (try_catch
       (modify (setLoading true) ;>
        modify (setError None) ;>
        let! response := await CallGetTodayTasks getTodayTasks in
        modify (setTodayTasks response))
       (fun err =>
          modify (setError (JS.or_str (message err) (Some "Failed to load today's tasks.")))))
    (modify (setLoading false)).

(** [handleStartChecklist(checklistId)] of the today-tasks page. *)
Definition handleStartChecklist (nav : Details.Geolocation) (checklistId : string)
  : M TodayState S unit :=
  try_catch
    (match nav with
     | Details.GeoUnsupported =>
         modify (setError (Some "Location permission is required to start a checklist."))
     | Details.GeoFailed =>
         modify (setError (Some
           "Unable to get your location. Please enable location services and try again."))
     | Details.GeoPosition coords =>
         await (CallStartChecklist checklistId (Some coords))
               (startChecklist checklistId (Some coords)) ;>
         fetchTodayTasks
     end)
    (fun err =>
       modify (setError
         (Some (default "Failed to start checklist." (JS.or_str (message err) None)
                +:+ Details.startErrorExtra err)))).

End Handlers.

(** The page is wrapped in [<ProtectedRoute roles={['housekeeper']}>]. *)
Definition routeRoles : list Role := [housekeeper].

(** The Start button of a card: [checklist.status === 'pending']. *)
Definition startOffered (c : Checklist) : bool := bool_decide (status c = pending).

(** The Complete button of a card (it has no click handler). *)
Definition completeOffered (c : Checklist) : bool :=
  bool_decide (status c = in_progress)
  && Nat.eqb (Details.completedTasks (Some c)) (Details.totalTasks (Some c))
  && Nat.ltb 0 (Details.totalTasks (Some c)).

End TodayTasks.

(** ** Review page ([ReviewChecklistPage]) *)

Module Review.

Record ReviewState : Type := mkReview {
  rp_checklist : option Checklist;
  rp_loading : bool;
  rp_submitting : bool;
  rp_error : option string;
  rp_success : option string;
  rp_selectedRating : Z;
  rp_formRating : option Z;
  rp_formNotes : option string
}.

Definition setChecklist (v : option Checklist) (p : ReviewState) : ReviewState :=
  mkReview v (rp_loading p) (rp_submitting p) (rp_error p) (rp_success p)
           (rp_selectedRating p) (rp_formRating p) (rp_formNotes p).

Definition setLoading (v : bool) (p : ReviewState) : ReviewState :=
  mkReview (rp_checklist p) v (rp_submitting p) (rp_error p) (rp_success p)
           (rp_selectedRating p) (rp_formRating p) (rp_formNotes p).

Definition setSubmitting (v : bool) (p : ReviewState) : ReviewState :=
  mkReview (rp_checklist p) (rp_loading p) v (rp_error p) (rp_success p)
           (rp_selectedRating p) (rp_formRating p) (rp_formNotes p).

Definition setError (v : option string) (p : ReviewState) : ReviewState :=
  mkReview (rp_checklist p) (rp_loading p) (rp_submitting p) v (rp_success p)
           (rp_selectedRating p) (rp_formRating p) (rp_formNotes p).

Definition setSuccess (v : option string) (p : ReviewState) : ReviewState :=
  mkReview (rp_checklist p) (rp_loading p) (rp_submitting p) (rp_error p) v
           (rp_selectedRating p) (rp_formRating p) (rp_formNotes p).

(** [setSelectedRating(r); setValue('rating', r)]. *)
Definition handleRatingClick (r : Z) (p : ReviewState) : ReviewState :=
  mkReview (rp_checklist p) (rp_loading p) (rp_submitting p) (rp_error p) (rp_success p)
           r (Some r) (rp_formNotes p).

(** [setValue('notes', v)]. *)
Definition setFormNotes (v : option string) (p : ReviewState) : ReviewState :=
  mkReview (rp_checklist p) (rp_loading p) (rp_submitting p) (rp_error p) (rp_success p)
           (rp_selectedRating p) (rp_formRating p) v.

(** The route lets in [roles={['admin', 'property_owner']}]. *)
Definition routeRoles : list Role := [admin; property_owner].

Section Handlers.

Context {S : Type} `{ApiService S}.

Variable checklistId : string.

(** [fetchChecklist] of the review page; a checklist that already carries a
    (truthy) rating populates the form. *)
Definition fetchChecklist : M ReviewState S unit :=
  finally
    (try_catch
       (modify (setLoading true) ;>
        let! data := await (CallGetChecklist checklistId) (getChecklist checklistId) in
        modify (setChecklist (Some data)) ;>
        if Details.noRating data then ret tt
        else
          modify (handleRatingClick (JS.or_zero (rating data))) ;>
          modify (setFormNotes (Some (default "" (JS.or_str (cl_notes data) None)))))
       (fun err =>
          modify (setError (JS.or_str (message err)
                                      (Some "Failed to load checklist details.")))))
    (modify (setLoading false)).

(** [onSubmit(data)]. *)
Definition onSubmit (st : ReviewState) (d : ReviewData) : M ReviewState S unit :=
  match rp_checklist st with
  | None => ret tt
  | Some cl =>
      finally
        (try_catch
           (modify (setSubmitting true) ;>
            modify (setError None) ;>
            await (CallReviewChecklist (cl_id cl) d) (reviewChecklist (cl_id cl) d) ;>
            modify (setSuccess (Some "Review submitted successfully! Redirecting...")))
           (fun err =>
              modify (setError (JS.or_str (message err) (Some "Failed to submit review.")))))
        (modify (setSubmitting false))
  end.

End Handlers.

(** The early returns of the component. *)
Inductive View : Type :=
  | ViewLoading
  | ViewError
  | ViewNotFound
  | ViewNotReady
  | ViewForm (title : string) (submitDisabled : bool).

Definition view (p : ReviewState) : View :=
  if rp_loading p then ViewLoading
  else
    match rp_checklist p with
    | None =>
        match JS.or_str (rp_error p) None with
        | Some _ => ViewError
        | None => ViewNotFound
        end
    | Some c =>
        if bool_decide (status c = completed_st) then
          ViewForm (if Details.noRating c then "Submit Review" else "Update Review")
                   (rp_submitting p || Z.eqb (rp_selectedRating p) 0)
        else ViewNotReady
    end.

(** The schema of the form: [z.number().min(1).max(5)]. *)
Definition reviewSchema (r : option Z) : bool :=
  match r with
  | Some k => (1 <=? k) && (k <=? 5)
  | None => false
  end.

Section Submit.

Context {S : Type} `{ApiService S}.

(** Pressing the submit button: there is a form only in [ViewForm], the
    button must be enabled, and [handleSubmit(onSubmit)] calls [onSubmit]
    only with values that pass the schema. *)
Definition submitForm (st : ReviewState) : M ReviewState S unit :=
  match view st with
  | ViewForm _ false =>
      if reviewSchema (rp_formRating st)
      then onSubmit st (mkReviewData (rp_formRating st) (rp_formNotes st))
      else ret tt
  | _ => ret tt
  end.

End Submit.

End Review.

(** ** Entering [photos_required_count] *)

Module Requirements.

(** The white space [parseInt] skips, among the characters of one byte. *)
Definition isWhiteSpace (c : ascii) : bool :=
  let n := nat_of_ascii c in
  Nat.eqb n 9 || Nat.eqb n 10 || Nat.eqb n 11 || Nat.eqb n 12 || Nat.eqb n 13
  || Nat.eqb n 32.

Fixpoint trimStart (s : string) : string :=
  match s with
  | String c rest => if isWhiteSpace c then trimStart rest else s
  | EmptyString => s
  end.

Definition digitValue (c : ascii) : option Z :=
  let n := Z.of_nat (nat_of_ascii c) in
  if (48 <=? n) && (n <=? 57) then Some (n - 48) else None.

(** The value of the longest prefix of decimal digits, from [acc]. *)
Fixpoint digitsFrom (s : string) (acc : Z) : Z :=
  match s with
  | String c rest =>
      match digitValue c with
      | Some d => digitsFrom rest (10 * acc + d)
      | None => acc
      end
  | EmptyString => acc
  end.

Definition parseDigits (s : string) : Num :=
  match s with
  | String c _ =>
      match digitValue c with
      | Some _ => Int (digitsFrom s 0)
      | None => NaN
      end
  | EmptyString => NaN
  end.

Definition negate (n : Num) : Num :=
  match n with
  | Int z => Int (- z)
  | NaN => NaN
  end.

(** [parseInt(raw, 10)]. *)
Definition parseInt (raw : string) : Num :=
  match trimStart raw with
  | String c rest =>
      if Ascii.eqb c "-" then negate (parseDigits rest)
      else if Ascii.eqb c "+" then parseDigits rest
      else parseDigits (String c rest)
  | EmptyString => NaN
  end.

(** [Math.min(a, n)] and [Math.max(a, n)] with an integer [a]. *)
Definition math_min (a : Z) (n : Num) : Num :=
  match n with
  | Int z => Int (Z.min a z)
  | NaN => NaN
  end.

Definition math_max (a : Z) (n : Num) : Num :=
  match n with
  | Int z => Int (Z.max a z)
  | NaN => NaN
  end.

(** [Number.isFinite(num) ? num : undefined]. *)
Definition finiteOrUndefined (n : Num) : option Z :=
  match n with
  | Int z => Some z
  | NaN => None
  end.

(** *** Room management dialog ([room-management-dialog.tsx]; the same
    component is repeated verbatim in [tag-input.tsx]) *)

Inductive Mode : Type := create | edit | view_mode.

Record DialogState : Type := mkDialog {
  mode : Mode;
  requiresPhoto : bool;
  photosRequiredCount : option Z
}.

(** [onChange] of the count input: the new [photosRequiredCount]. *)
Definition dialogCountOnChange (raw : string) : option Z :=
  if String.eqb raw "" then None
  else finiteOrUndefined (math_max 1 (math_min 10 (parseInt raw))).

(** [disabled={mode === 'view' || !requiresPhoto}]. *)
Definition dialogCountDisabled (d : DialogState) : bool :=
  match mode d with
  | view_mode => true
  | _ => negb (requiresPhoto d)
  end.

(** Typing [raw] in the count input of the dialog. *)
Definition dialogTypeCount (raw : string) (d : DialogState) : DialogState :=
  if dialogCountDisabled d then d
  else mkDialog (mode d) (requiresPhoto d) (dialogCountOnChange raw).

(** [onCheckedChange] of the switch. *)
Definition dialogSetRequires (checked : bool) (d : DialogState) : DialogState :=
  mkDialog (mode d) checked (if checked then photosRequiredCount d else None).

(** Opening the dialog on a room: [raw && Number(raw) > 0 ? Number(raw) : undefined]. *)
Definition dialogOpen (m : Mode) (room : option Room) : DialogState :=
  match m, room with
  | create, _ | _, None => mkDialog m false None
  | _, Some r =>
      mkDialog m
        (match pivot r with
         | Some p => default false (requires_photo p)
         | None => false
         end)
        (match pivotCount (Some r) with
         | Some k => if 0 <? k then Some k else None
         | None => None
         end)
  end.

(** The arguments [(!!requiresPhoto, photosRequiredCount || 0)] that saving
    the dialog passes to [updateRoomRequirements]. *)
Definition dialogSaved (d : DialogState) : bool * Z :=
  (requiresPhoto d, JS.or_zero (photosRequiredCount d)).

(** *** Room selection card ([room-selection-card.tsx]) *)

(** [room.pivot = { ...(room.pivot || {}), photos_required_count: v }]. A
    [NaN] count is falsy for every reader of the field and is kept as an
    absent count. *)
Definition setPivotCount (v : option Z) (room : Room) : Room :=
  mkRoom (r_id room) (r_name room)
    (Some match pivot room with
          | Some p => mkPivot (pv_property_id p) (requires_photo p) v
          | None => mkPivot None None v
          end).

(** [room.pivot?.requires_photo ?? false]. *)
Definition pivotRequires (room : Room) : bool :=
  match pivot room with
  | Some p => default false (requires_photo p)
  | None => false
  end.

(** [room.pivot?.property_id]. *)
Definition pivotProperty (room : Room) : option string :=
  match pivot room with
  | Some p => pv_property_id p
  | None => None
  end.

(** The count the card computes from a non-empty input. *)
Definition cardCount (raw : string) : Num :=
  math_max 0 (math_min 10 (parseInt raw)).

Section Card.

Context {S : Type} `{ApiService S}.

(** [onChange] of the count input of a room card. *)
Definition cardCountOnChange (room : Room) (raw : string) : M Room S unit :=
  if String.eqb raw "" then
    try_catch
      (await (CallUpdateRoomRequirements (pivotProperty room) (r_id room)
                (pivotRequires room) (Int 0))
             (updateRoomRequirements (pivotProperty room) (r_id room)
                (pivotRequires room) (Int 0)) ;>
       modify (setPivotCount None))
      (fun _ => ret tt)
  else
    try_catch
      (await (CallUpdateRoomRequirements (pivotProperty room) (r_id room)
                (pivotRequires room) (cardCount raw))
             (updateRoomRequirements (pivotProperty room) (r_id room)
                (pivotRequires room) (cardCount raw)) ;>
       modify (setPivotCount (finiteOrUndefined (cardCount raw))))
      (fun _ => ret tt).

End Card.

End Requirements.

(** ** The backend of the engine *)

Module SpecBackend.

(** Modelled from the spec: the error kinds of section 7. The backend that
    commits the transitions is a collaborator outside the client sources. *)
Inductive EngineError : Type :=
  | IllegalTransition
  | ItemLocked
  | IncompleteChecklist
  | InsufficientPhotos
  | LocationUnavailable
  | OutOfRange (distance allowed : Z)
  | InvalidRating.

(** Modelled from the spec: the typed error as the client receives it. *)
Definition toApiError (e : EngineError) : ApiError :=
  match e with
  | IllegalTransition => mkApiError (Some "IllegalTransition") None
  | ItemLocked => mkApiError (Some "ItemLocked") None
  | IncompleteChecklist => mkApiError (Some "IncompleteChecklist") None
  | InsufficientPhotos => mkApiError (Some "InsufficientPhotos") None
  | LocationUnavailable => mkApiError (Some "LocationUnavailable") None
  | OutOfRange d a =>
      mkApiError (Some "OutOfRange") (Some (mkDiagnostics (Some d) (Some a)))
  | InvalidRating => mkApiError (Some "InvalidRating") None
  end.

Definition withStatus (s : Status) (c : Checklist) : Checklist :=
  mkChecklist (cl_id c) s (rating c) (cl_notes c) (property c) (items c).

(** Modelled from the spec: [start(checklist)] of section 4.3, with the
    verdict of the geofence authority as a parameter ([None] is in range). *)
Definition start (authority : Coords -> option (Z * Z)) (coords : option Coords)
    (c : Checklist) : EngineError + Checklist :=
  match status c with
  | pending =>
      match coords with
      | None => inl LocationUnavailable
      | Some fix_ =>
          match authority fix_ with
          | Some (d, a) => inl (OutOfRange d a)
          | None => inr (withStatus in_progress c)
          end
      end
  | _ => inl IllegalTransition
  end.

(** Modelled from the spec: [complete(checklist)] of section 4.3. *)
Definition complete (c : Checklist) : EngineError + Checklist :=
  match status c with
  | in_progress =>
      if forallb completed (itemsOf c) then inr (withStatus completed_st c)
      else inl IncompleteChecklist
  | _ => inl IllegalTransition
  end.

(** Modelled from the spec: [review(checklist, rating, notes)] of section
    4.3; a reviewed checklist takes the call as an update. *)
Definition review (d : ReviewData) (c : Checklist) : EngineError + Checklist :=
  match status c with
  | completed_st | reviewed =>
      match rd_rating d with
      | Some r =>
          if (1 <=? r) && (r <=? 5)
          then inr (mkChecklist (cl_id c) reviewed (Some r) (rd_notes d)
                                (property c) (items c))
          else inl InvalidRating
      | None => inl InvalidRating
      end
  | _ => inl IllegalTransition
  end.

(** Modelled from the spec: the photo requirement gate of section 4.2. *)
Definition canSubmit (requires : bool) (count : option Z) (persisted staged : Z) : bool :=
  if negb requires then true
  else
    match count with
    | None => true
    | Some k => if k =? 0 then true else k <=? persisted + staged
    end.

(** Modelled from the spec: the stored form of a submitted item; the photo
    upload collaborator turns each file into a storage reference. *)
Definition completeItem (d : ItemUpdate) (it : ChecklistItem) : ChecklistItem :=
  mkItem (it_id it) (room_id it) true (Some (upd_notes d))
         (Some (JS.or_nil (photos it) ++ map (fun f => mkPhoto f "") (upd_photos d)))
         (task_title it).

(** Modelled from the spec: [submitItem] of section 4.3. *)
Definition submitItem (itemId : string) (d : ItemUpdate) (c : Checklist)
  : EngineError + Checklist :=
  match List.find (fun it => String.eqb (it_id it) itemId) (itemsOf c) with
  | None => inl IllegalTransition
  | Some it =>
      if completed it then inl ItemLocked
      else
        match status c with
        | in_progress =>
            let room := List.find (fun r => String.eqb (r_id r) (room_id it))
                                  (orderedRooms c) in
            let requires :=
              match room with
              | Some r => Requirements.pivotRequires r
              | None => false
              end in
            if canSubmit requires (pivotCount room)
                 (Z.of_nat (length (roomPhotos (room_id it) (itemsOf c))))
                 (Z.of_nat (length (upd_photos d)))
            then
              inr (mkChecklist (cl_id c) (status c) (rating c) (cl_notes c) (property c)
                     (Some (map (fun x => if String.eqb (it_id x) itemId
                                          then completeItem d x else x)
                                (itemsOf c))))
            else inl InsufficientPhotos
        | _ => inl IllegalTransition
        end
  end.

(** A transition as an API answer over the one aggregate the backend holds. *)
Definition commit (t : Checklist -> EngineError + Checklist) (c : Checklist)
  : Outcome unit * Checklist :=
  match t c with
  | inr c' => (Returned tt, c')
  | inl e => (Thrown (toApiError e), c)
  end.

(** Modelled from the spec: the backend as an [ApiService] holding one
    checklist. *)
Definition service (authority : Coords -> option (Z * Z)) : ApiService Checklist :=
  {| getChecklist := fun _ c => (Returned c, c);
     getChecklists := fun _ c => (Returned [c], c);
     getTodayTasks := fun c => (Returned [c], c);
     updateChecklistItem := fun _ itemId d => commit (submitItem itemId d);
     startChecklist := fun _ coords => commit (start authority coords);
     completeChecklist := fun _ => commit complete;
     reviewChecklist := fun _ d => commit (review d);
     updateRoomRequirements := fun _ _ _ _ c => (Returned tt, c) |}.

End SpecBackend.

(** ** Vocabulary of the statements *)

(** The geolocation service gave no fix. *)
Definition noFix (nav : Details.Geolocation) : Prop :=
  match nav with
  | Details.GeoPosition _ => False
  | _ => True
  end.

(** The location error shown by a page; the two pages word the first
    message with a different article. *)
Definition locationError (article : string) (nav : Details.Geolocation) : option string :=
  match nav with
  | Details.GeoUnsupported =>
      Some ("Location permission is required to start " +:+ article +:+ " checklist.")
  | _ => Some "Unable to get your location. Please enable location services and try again."
  end.

(** ** Concrete pages used by the examples *)

Module Scenario.

(** A backend whose geofence authority finds every fix in range. *)
Definition backend : ApiService Checklist := SpecBackend.service (fun _ => None).

(** The page after its effect has loaded the checklist held by the backend. *)
Definition loaded (c : Checklist) : PageState :=
  page (snd (run (Details.fetchChecklist (H := backend) (cl_id c)) initialPage c)).

Definition mirror : ChecklistItem := mkItem "i1" "bath" false None None (Some "Mirror").
Definition floor : ChecklistItem := mkItem "i2" "bath" false None None (Some "Floor").

(** Scenario B: the bath requires two photos. *)
Definition bathB : Room :=
  mkRoom "bath" "Bath" (Some (mkPivot (Some "p1") (Some true) (Some 2))).

Definition checklistB : Checklist :=
  mkChecklist "c1" in_progress None None (Some (mkProperty (Some [bathB])))
              (Some [mirror; floor]).

Definition pageB (files : list File) : PageState :=
  Details.handlePhotoChange (fun f => "data:" +:+ f) files "i1" (loaded checklistB).

(** The same room with the requirement switched off but a count left. *)
Definition bathOff : Room :=
  mkRoom "bath" "Bath" (Some (mkPivot (Some "p1") (Some false) (Some 2))).

Definition checklistOff : Checklist :=
  mkChecklist "c1" in_progress None None (Some (mkProperty (Some [bathOff])))
              (Some [mirror; floor]).

(** A checklist whose only item is completed. *)
Definition mirrorDone : ChecklistItem :=
  mkItem "i1" "bath" true (Some "done") (Some [mkPhoto "a.jpg" "t0"]) (Some "Mirror").

Definition checklistDone (s : Status) (r : option Z) : Checklist :=
  mkChecklist "c1" s r None (Some (mkProperty (Some [bathB]))) (Some [mirrorDone]).

Definition anAdmin : option User := Some (mkUser admin).
Definition aHousekeeper : option User := Some (mkUser housekeeper).

(** The review page opened on a checklist. *)
Definition reviewInitial : Review.ReviewState :=
  Review.mkReview None true false None None 0 None None.

Definition reviewLoaded (c : Checklist) : Review.ReviewState :=
  page (snd (run (Review.fetchChecklist (H := backend) (cl_id c)) reviewInitial c)).

End Scenario.

(** ** Details page: removing a staged photo *)

Module StagedPhotos.

(** [xs.filter((_, i) => keep(i))], the indices counted from [i]. *)
Fixpoint filterIndexed {A : Type} (keep : nat -> bool) (i : nat) (xs : list A) : list A :=
  match xs with
  | [] => []
  | x :: rest =>
      if keep i then x :: filterIndexed keep (S i) rest
      else filterIndexed keep (S i) rest
  end.

(** [prev[item.id]?.filter((_, i) => i !== index) || []]. *)
Definition withoutIndex {A : Type} (index : nat) (entry : option (list A)) : list A :=
  match entry with
  | Some xs => filterIndexed (fun i => negb (Nat.eqb i index)) 0 xs
  | None => []
  end.

(** The click handler of the remove button on the preview number [index]
    of an item. *)
Definition removeStagedPhoto (itemId : string) (index : nat) (p : PageState) : PageState :=
  setPhotoPreviewsMap
    (fun prev => <[itemId := withoutIndex index (prev !! itemId)]> prev)
    (setSelectedPhotosMap
       (fun prev => <[itemId := withoutIndex index (prev !! itemId)]> prev) p).

End StagedPhotos.

(** ** Tag input ([TagInput] of [src/components/ui/tag-input.tsx]) *)

Module TagInput.

Record TagInputOption : Type := mkOption {
  id : string;
  title : string;
  description : option string
}.

(** [s.startsWith(q)]. *)
Definition startsWith (s q : string) : bool := String.prefix q s.

(** [s.includes(q)]. *)
Fixpoint includes (s q : string) : bool :=
  String.prefix q s
  || match s with
     | String _ rest => includes rest q
     | EmptyString => false
     end.

(** [maxTags && value.length >= maxTags]: a limit of [0] is falsy and is
    no limit. *)
Definition atLimit (maxTags : option nat) (value : list TagInputOption) : bool :=
  match maxTags with
  | Some m => negb (Nat.eqb m 0) && Nat.leb m (length value)
  | None => false
  end.

(** [!maxTags || value.length < maxTags]. *)
Definition canAddMore (maxTags : option nat) (value : list TagInputOption) : bool :=
  match maxTags with
  | Some m => Nat.eqb m 0 || Nat.ltb (length value) m
  | None => true
  end.

(** [value.some(tag => tag.id === option.id)]. *)
Definition isSelected (value : list TagInputOption) (o : TagInputOption) : bool :=
  JS.some (fun tag => String.eqb (id tag) (id o)) value.

(** What a handler does: the new value it passes to [onChange], if it calls
    it, and the text it leaves in the input. *)
Record Effect : Type := mkEffect {
  changed : option (list TagInputOption);
  input : string
}.

(** The value the parent holds after the handler ran. *)
Definition valueAfter (value : list TagInputOption) (e : Effect) : list TagInputOption :=
  default value (changed e).

(** [handleAddTag(option)]. *)
Definition handleAddTag (maxTags : option nat) (value : list TagInputOption)
    (inputValue : string) (o : TagInputOption) : Effect :=
  if atLimit maxTags value then mkEffect None inputValue
  else if isSelected value o then mkEffect None ""
  else mkEffect (Some (value ++ [o])) "".

(** [handleRemoveTag(tagId)]. *)
Definition handleRemoveTag (value : list TagInputOption) (tagId : string)
  : list TagInputOption :=
  List.filter (fun tag => negb (String.eqb (id tag) tagId)) value.

Inductive Key : Type := Enter | Tab | ArrowRight | Backspace | OtherKey.

Section Widget.

(** [String.prototype.toLowerCase] and [String.prototype.trim], which
    depend on Unicode tables, are parameters of the widget. *)
Variable toLowerCase : string -> string.
Variable trim : string -> string.

(** [bestOption]: an option whose title starts with the query, else one
    whose title contains it. *)
Definition bestOption (inputValue : string) (options : list TagInputOption)
  : option TagInputOption :=
  let q := toLowerCase (trim inputValue) in
  if String.eqb q "" then None
  else
    JS.or_obj
      (List.find (fun o => startsWith (toLowerCase (title o)) q) options)
      (List.find (fun o => includes (toLowerCase (title o)) q) options).

(** [handleInputKeyDown(e)]. *)
Definition handleInputKeyDown (maxTags : option nat) (showGhostSuggestion : bool)
    (options value : list TagInputOption) (inputValue : string) (key : Key) : Effect :=
  match key with
  | Enter =>
      if JS.truthy (trim inputValue) then
        match List.find (fun opt => String.eqb (toLowerCase (title opt))
                                              (toLowerCase (trim inputValue))) options with
        | Some exactMatch => handleAddTag maxTags value inputValue exactMatch
        | None =>
            match bestOption inputValue options with
            | Some best => handleAddTag maxTags value inputValue best
            | None => mkEffect None inputValue
            end
        end
      else mkEffect None inputValue
  | Tab | ArrowRight =>
      match showGhostSuggestion, bestOption inputValue options with
      | true, Some best => mkEffect None (title best)
      | _, _ =>
          mkEffect None inputValue
      end
  | Backspace =>
      if negb (JS.truthy inputValue) then
        match last value with
        | Some lastTag => mkEffect (Some (handleRemoveTag value (id lastTag))) inputValue
        | None => mkEffect None inputValue
        end
      else mkEffect None inputValue
  | OtherKey => mkEffect None inputValue
  end.

End Widget.

(** [next.splice(from, 1)] then [next.splice(to, 0, moved)]. *)
Definition moveTag (from to : nat) (value : list TagInputOption) : list TagInputOption :=
  match value !! from with
  | Some moved =>
      let next := delete from value in
      take to next ++ moved :: drop to next
  | None => value
  end.

(** [onDrop] on the tag at position [to]; [data] is what the drag stored. *)
Definition onDrop (enableSort : bool) (value : list TagInputOption)
    (data : string) (to : nat) : option (list TagInputOption) :=
  if negb enableSort then None
  else
    match Requirements.parseInt (default "-1" (JS.or_str (Some data) None)) with
    | NaN => None
    | Int from =>
        if (from =? Z.of_nat to) || (from <? 0) || (Z.of_nat (length value) <=? from)
        then None
        else Some (moveTag (Z.to_nat from) to value)
    end.

End TagInput.

(** ** Selecting rooms ([RoomSelectionCard]) *)

Module RoomSelection.

(** A room of the list, with the two flags the card reads. *)
Record ListedRoom : Type := mkListed {
  lr_id : string;
  is_default : option bool;
  is_system_default : option bool
}.

(** [room?.is_default || room?.is_system_default]. *)
Definition isDefaultRoom (room : option ListedRoom) : bool :=
  match room with
  | Some r => default false (is_default r) || default false (is_system_default r)
  | None => false
  end.

(** [selectedRoomIds.includes(roomId)]. *)
Definition includesId (selected : list string) (roomId : string) : bool :=
  JS.some (String.eqb roomId) selected.

(** [handleRoomToggle(roomId)]: the list passed to [onRoomSelectionChange],
    if the handler calls it. *)
Definition handleRoomToggle (lockDefaultRooms : bool) (rooms : list ListedRoom)
    (selected : list string) (roomId : string) : option (list string) :=
  let room := List.find (fun r => String.eqb (lr_id r) roomId) rooms in
  if lockDefaultRooms && isDefaultRoom room then None
  else
    Some (if includesId selected roomId
          then List.filter (fun i => negb (String.eqb i roomId)) selected
          else selected ++ [roomId]).

(** [handleSelectAll()]. *)
Definition handleSelectAll (rooms : list ListedRoom) (selected : list string) : list string :=
  let allRoomIds := map lr_id rooms in
  if Nat.eqb (length selected) (length allRoomIds) then [] else allRoomIds.

Definition isAllSelected (rooms : list ListedRoom) (selected : list string) : bool :=
  Nat.ltb 0 (length rooms) && Nat.eqb (length selected) (length rooms).

Definition isIndeterminate (rooms : list ListedRoom) (selected : list string) : bool :=
  Nat.ltb 0 (length selected) && Nat.ltb (length selected) (length rooms).

(** The default rooms [fetchRooms] selects on the first load. *)
Definition defaultRoomIds (rooms : list ListedRoom) : list string :=
  map lr_id (List.filter (fun r => isDefaultRoom (Some r)) rooms).

End RoomSelection.

(** ** Pagination ([usePagination] and [Pagination]) *)

Module Paging.

Record PaginationState : Type := mkPagination {
  currentPage : Z;
  totalPages : Z;
  hasNextPage : bool;
  hasPrevPage : bool;
  totalItems : Z;
  perPage : Z
}.

(** The page fields of a paginated response. *)
Record PageData : Type := mkPageData {
  current_page : Z;
  last_page : Z;
  pd_total : Z;
  per_page : Z
}.

(** The state of the hook and the value of the page parameter of the URL. *)
Record Hook : Type := mkHook {
  pagination : PaginationState;
  pageParam : option string
}.

Definition initial (defaultPage perPage_ : Z) : PaginationState :=
  mkPagination defaultPage 1 false false 0 perPage_.

Definition setCurrentPage (page : Z) (s : PaginationState) : PaginationState :=
  mkPagination page (totalPages s) (hasNextPage s) (hasPrevPage s) (totalItems s) (perPage s).

(** The effect that reads the URL: [parseInt(searchParams.get(pageParam) || '1', 10)]. *)
Definition initFromUrl (h : Hook) : Hook :=
  match Requirements.parseInt (default "1" (JS.or_str (pageParam h) None)) with
  | Int page =>
      if 0 <? page then mkHook (setCurrentPage page (pagination h)) (pageParam h) else h
  | NaN => h
  end.

(** [updatePagination(data)]. *)
Definition updatePagination (d : PageData) (h : Hook) : Hook :=
  mkHook (mkPagination (current_page d) (last_page d)
            (current_page d <? last_page d) (1 <? current_page d)
            (pd_total d) (per_page d))
         (pageParam h).

(** [changePage(page)]. *)
Definition changePage (page : Z) (h : Hook) : Hook :=
  if (page <? 1) || (totalPages (pagination h) <? page) then h
  else mkHook (setCurrentPage page (pagination h))
              (if page =? 1 then None else Some (Z_to_string page)).

(** [resetPagination()]. *)
Definition resetPagination (h : Hook) : Hook :=
  mkHook (setCurrentPage 1 (pagination h)) None.

(** The [Pagination] component renders nothing when [totalPages <= 1]. *)
Definition rendered (s : PaginationState) : bool := 1 <? totalPages s.

(** [handlePrevious] and [handleNext]: the page passed to [onPageChange]. *)
Definition handlePrevious (isLoading : bool) (s : PaginationState) : option Z :=
  if hasPrevPage s && negb isLoading then Some (currentPage s - 1) else None.

Definition handleNext (isLoading : bool) (s : PaginationState) : option Z :=
  if hasNextPage s && negb isLoading then Some (currentPage s + 1) else None.

(** Pressing a button of the component wired to [changePage]. *)
Definition press (target : option Z) (h : Hook) : Hook :=
  match target with
  | Some page => changePage page h
  | None => h
  end.

End Paging.

(** ** The request of the API service and the stored token *)

Module Http.

Definition TOKEN_KEY : string := "auth_token".
Definition USER_KEY : string := "user_data".

(** The browser as [request] uses it: [window] may be missing (server
    rendering), the local storage, and the address of the page. *)
Record Browser : Type := mkBrowser {
  hasWindow : bool;
  localStorage : gmap string string;
  location : string
}.

Definition setAuthToken (token : string) (b : Browser) : Browser :=
  if hasWindow b
  then mkBrowser true (<[TOKEN_KEY := token]> (localStorage b)) (location b)
  else b.

Definition getAuthToken (b : Browser) : option string :=
  if hasWindow b then localStorage b !! TOKEN_KEY else None.

Definition removeAuthToken (b : Browser) : Browser :=
  if hasWindow b
  then mkBrowser true (delete USER_KEY (delete TOKEN_KEY (localStorage b))) (location b)
  else b.

(** [!!getAuthToken()]. *)
Definition isAuthenticated (b : Browser) : bool :=
  match JS.or_str (getAuthToken b) None with
  | Some _ => true
  | None => false
  end.

(** [getAuthHeaders()]. *)
Definition getAuthHeaders (b : Browser) : gmap string string :=
  let base := <["Accept" := "application/json"]>
                (<["Content-Type" := "application/json"]> ∅) in
  match JS.or_str (getAuthToken b) None with
  | Some token => <["Authorization" := "Bearer " +:+ token]> base
  | None => base
  end.

(** A parsed JSON body: the fields the client reads. *)
Record Body (D : Type) : Type := mkBody {
  b_message : option string;
  b_data : option D;
  b_distance_meters : option Z;
  b_allowed_meters : option Z
}.

Arguments mkBody {D} b_message b_data b_distance_meters b_allowed_meters.
Arguments b_message {D} b.
Arguments b_data {D} b.
Arguments b_distance_meters {D} b.
Arguments b_allowed_meters {D} b.

(** A response of [fetch]; [r_json] is the object [response.json()]
    resolves to, [None] when it rejects (or resolves to [null]). *)
Record Response (D : Type) : Type := mkResponse {
  r_status : Z;
  r_contentType : option string;
  r_json : option (Body D)
}.

Arguments mkResponse {D} r_status r_contentType r_json.
Arguments r_status {D} r.
Arguments r_contentType {D} r.
Arguments r_json {D} r.

(** [response.ok]: a status in the range 200..299. *)
Definition ok {D : Type} (r : Response D) : bool :=
  (200 <=? r_status r) && (r_status r <=? 299).

Inductive FetchResult (D : Type) : Type :=
  | Rejected (reason : string)
  | Fetched (r : Response D).

Arguments Rejected {D} reason.
Arguments Fetched {D} r.

(** The error [request] throws. *)
Record RequestError (D : Type) : Type := mkRequestError {
  e_message : string;
  e_status : option Z;
  e_data : option (Body D)
}.

Arguments mkRequestError {D} e_message e_status e_data.
Arguments e_message {D} r.
Arguments e_status {D} r.
Arguments e_data {D} r.

(** [body?.data || body]. *)
Inductive ResponseData (D : Type) : Type :=
  | DataField (d : D)
  | WholeBody (b : Body D)
  | NoBody.

Arguments DataField {D} d.
Arguments WholeBody {D} b.
Arguments NoBody {D}.

Record ApiResponse (D : Type) : Type := mkApiResponse {
  a_data : ResponseData D;
  a_message : option string;
  a_status : Z
}.

Arguments mkApiResponse {D} a_data a_message a_status.
Arguments a_data {D} a.
Arguments a_message {D} a.
Arguments a_status {D} a.

(** [contentType?.includes('application/json')]. *)
Definition isJson {D : Type} (r : Response D) : bool :=
  match r_contentType r with
  | Some ct => TagInput.includes ct "application/json"
  | None => false
  end.

(** [isJson ? await response.json().catch(() => null) : null]. *)
Definition bodyOf {D : Type} (r : Response D) : option (Body D) :=
  if isJson r then r_json r else None.

(** [body?.data || body]: a [data] field that is falsy ([0], [''], [false],
    [null]) gives way to the whole body, like a missing one. [truthy] is the
    truthiness of the values of the payload type. *)
Definition dataOrBody {D : Type} (truthy : D -> bool) (body : option (Body D))
  : ResponseData D :=
  match body with
  | Some bd =>
      match b_data bd with
      | Some d => if truthy d then DataField d else WholeBody bd
      | None => WholeBody bd
      end
  | None => NoBody
  end.

(** [request(endpoint, options)], from the answer of [fetch] on. *)
Definition request {D : Type} (truthy : D -> bool) (f : FetchResult D) (b : Browser)
  : (RequestError D + ApiResponse D) * Browser :=
  match f with
  | Rejected reason => (inl (mkRequestError reason None None), b)
  | Fetched r =>
      let body := bodyOf r in
      let b' :=
        if (r_status r =? 401) && hasWindow b
        then mkBrowser true (localStorage (removeAuthToken b)) "/login"
        else b in
      if negb (ok r) then
        (inl (mkRequestError
                (default ("HTTP error! status: " +:+ Z_to_string (r_status r))
                         (JS.or_str (body ≫= b_message) None))
                (Some (r_status r)) body),
         b')
      else
        (inr (mkApiResponse (dataOrBody truthy body) (body ≫= b_message) (r_status r)),
         b')
  end.

(** The error as the pages read it: [err.message] and the diagnostics of
    [err.data]. *)
Definition toApiError {D : Type} (e : RequestError D) : ApiError :=
  mkApiError (Some (e_message e))
    (match e_data e with
     | Some bd => Some (mkDiagnostics (b_distance_meters bd) (b_allowed_meters bd))
     | None => None
     end).

End Http.

(** ** More concrete pages for the examples *)

Module Scenario2.

(** A backend whose geofence authority finds every fix 120 m away, with 50 m
    allowed. *)
Definition farBackend : ApiService Checklist := SpecBackend.service (fun _ => Some (120, 50)).

Definition pendingB : Checklist := SpecBackend.withStatus pending Scenario.checklistB.

(** The refusal of the start as the request of the API service throws it. *)
Definition outOfRange : Http.RequestError Checklist :=
  Http.mkRequestError "OutOfRange" (Some 403)
    (Some (Http.mkBody (Some "OutOfRange") None (Some 120) (Some 50))).

Definition here : Coords := mkCoords 10 20.

(** A backend that refuses every request. *)
Definition down : ApiError := mkApiError (Some "Service unavailable") None.

Definition failing : ApiService unit :=
  {| getChecklist := fun _ s => (Thrown down, s);
     getChecklists := fun _ s => (Thrown down, s);
     getTodayTasks := fun s => (Thrown down, s);
     updateChecklistItem := fun _ _ _ s => (Thrown down, s);
     startChecklist := fun _ _ s => (Thrown down, s);
     completeChecklist := fun _ s => (Thrown down, s);
     reviewChecklist := fun _ _ s => (Thrown down, s);
     updateRoomRequirements := fun _ _ _ _ s => (Thrown down, s) |}.

Definition todayInitial : TodayTasks.TodayState := TodayTasks.mkToday [] false None.

(** A backend that commits transitions like [Scenario.backend] but refuses
    every read of the checklist: the refresh after a committed submission
    fails. *)
Definition refreshDown : ApiService Checklist :=
  {| getChecklist := fun _ c => (Thrown down, c);
     getChecklists := fun _ c => (Thrown down, c);
     getTodayTasks := fun c => (Thrown down, c);
     updateChecklistItem := fun _ itemId d =>
       SpecBackend.commit (SpecBackend.submitItem itemId d);
     startChecklist := fun _ coords =>
       SpecBackend.commit (SpecBackend.start (fun _ => None) coords);
     completeChecklist := fun _ => SpecBackend.commit SpecBackend.complete;
     reviewChecklist := fun _ d => SpecBackend.commit (SpecBackend.review d);
     updateRoomRequirements := fun _ _ _ _ c => (Returned tt, c) |}.

(** A property with two rooms. The kitchen, first in order, still has an
    open task; the bath requires two photos, holds a finished task with two
    photos and an open one. *)
Definition counter : ChecklistItem :=
  mkItem "k1" "kitchen" false None None (Some "Counter").

Definition bathMirrorDone : ChecklistItem :=
  mkItem "b1" "bath" true (Some "done")
         (Some [mkPhoto "a.jpg" "t0"; mkPhoto "b.jpg" "t0"]) (Some "Mirror").

Definition bathFloor : ChecklistItem :=
  mkItem "b2" "bath" false None None (Some "Floor").

Definition checklistTwoRooms : Checklist :=
  mkChecklist "c2" in_progress None None
              (Some (mkProperty (Some [kitchen; Scenario.bathB])))
              (Some [counter; bathMirrorDone; bathFloor]).

End Scenario2.

(** ** The key and paste filters of the count inputs *)

Module CountInput.

(** [/^[0-9]$/.test(e.key)], on the one character of the key. *)
Definition isDigit (c : ascii) : bool :=
  match Requirements.digitValue c with
  | Some _ => true
  | None => false
  end.

(** [/^\d*$/.test(txt)], the test of [onPaste]. *)
Fixpoint allDigits (txt : string) : bool :=
  match txt with
  | EmptyString => true
  | String c rest => isDigit c && allDigits rest
  end.

End CountInput.

(** * Properties *)

(** ** Room sequencer *)

Lemma some_pendingIn_iff (its : list ChecklistItem) (r : Room) :
  JS.some (pendingIn r) its = true <-> incomplete its r.
Proof.
  unfold JS.some, incomplete, pendingIn. rewrite existsb_exists. split.
  - intros (it & Hin & Hp). apply andb_prop in Hp as [He Hc].
    apply String.eqb_eq in He. apply negb_true_iff in Hc. eauto.
  - intros (it & Hin & He & Hc). exists it. split; [exact Hin|].
    rewrite He, String.eqb_refl, Hc. reflexivity.
Qed.

Lemma firstPending_Some (rs : list Room) (its : list ChecklistItem) (r : Room) :
  firstPending rs its = Some r ->
  exists pre post, rs = pre ++ r :: post
    /\ (forall q, In q pre -> ~ incomplete its q) /\ incomplete its r.
Proof.
  unfold firstPending. induction rs as [|a rs IH]; simpl; [discriminate|].
  destruct (JS.some (pendingIn a) its) eqn:Ha.
  - intros [= ->]. exists [], rs. split; [reflexivity|]. split.
    + intros q [].
    + apply some_pendingIn_iff, Ha.
  - intros H. destruct (IH H) as (pre & post & -> & Hpre & Hr).
    exists (a :: pre), post. split; [reflexivity|]. split; [|exact Hr].
    intros q [<-|Hq]; [|auto].
    rewrite <- some_pendingIn_iff, Ha. discriminate.
Qed.

Lemma firstPending_None (rs : list Room) (its : list ChecklistItem) :
  firstPending rs its = None -> forall q, In q rs -> ~ incomplete its q.
Proof.
  unfold firstPending. intros H q Hq Hinc.
  apply (find_none _ _ H) in Hq. apply some_pendingIn_iff in Hinc. congruence.
Qed.

Lemma currentRoomOf_spec (rs : list Room) (its : list ChecklistItem) :
  CurrentRoomSpec rs its (currentRoomOf rs its).
Proof.
  unfold currentRoomOf. destruct (firstPending rs its) as [r|] eqn:Hf; simpl.
  - destruct (firstPending_Some _ _ _ Hf) as (pre & post & E & Hpre & Hr).
    eapply CR_first_incomplete; eauto.
  - destruct rs as [|r rest]; simpl.
    + apply CR_no_room. reflexivity.
    + eapply CR_fallback_first; [reflexivity|]. apply firstPending_None, Hf.
Qed.

Lemma truthy_nonempty (s : string) : s <> "" -> JS.truthy s = true.
Proof.
  intros H. unfold JS.truthy. apply negb_true_iff. apply String.eqb_neq, H.
Qed.

(** With non-empty identifiers the stored id is the id of the room object. *)
Lemma currentRoomIdOf_currentRoomOf (rs : list Room) (its : list ChecklistItem) :
  Forall (fun r => r_id r <> "") rs ->
  currentRoomIdOf rs its = r_id <$> currentRoomOf rs its.
Proof.
  intros Hids. unfold currentRoomIdOf, currentRoomOf.
  destruct (firstPending rs its) as [r|] eqn:Hf; simpl.
  - destruct (firstPending_Some _ _ _ Hf) as (pre & post & -> & _ & _).
    apply Forall_app in Hids as [_ Hids]. apply Forall_cons_1 in Hids as [Hr _].
    rewrite (truthy_nonempty _ Hr). reflexivity.
  - destruct rs as [|r rest]; simpl; [reflexivity|].
    apply Forall_cons_1 in Hids as [Hr _].
    rewrite (truthy_nonempty _ Hr). reflexivity.
Qed.

(** C1. For every ordered room list (rooms carry non-empty identifiers) and
    every list of checklist items, the current-room computation returns the
    identifier of the first room, in the property's order, that has an item
    with [completed = false]; when no room has one it returns the first room
    of the list, and [null] when the list is empty. *)
Theorem currentRoomId_sequencer (rs : list Room) (its : list ChecklistItem) :
  Forall (fun r => r_id r <> "") rs ->
  exists cur, CurrentRoomSpec rs its cur /\ currentRoomIdOf rs its = r_id <$> cur.
Proof.
  intros Hids. exists (currentRoomOf rs its). split.
  - apply currentRoomOf_spec.
  - apply currentRoomIdOf_currentRoomOf, Hids.
Qed.

(** The specification determines the current room: the three cases of
    [CurrentRoomSpec] exclude each other and the first incomplete room of a
    list is unique. *)
Lemma first_incomplete_unique (its : list ChecklistItem)
    (pre1 pre2 post1 post2 : list Room) (r1 r2 : Room) :
  pre1 ++ r1 :: post1 = pre2 ++ r2 :: post2 ->
  (forall q, In q pre1 -> ~ incomplete its q) -> incomplete its r1 ->
  (forall q, In q pre2 -> ~ incomplete its q) -> incomplete its r2 ->
  r1 = r2.
Proof.
  revert pre2. induction pre1 as [|a pre1 IH]; intros [|b pre2] E H1 Hr1 H2 Hr2;
    simpl in E; injection E as -> E.
  - reflexivity.
  - exfalso. apply (H2 b); [left; reflexivity | exact Hr1].
  - exfalso. apply (H1 r2); [left; reflexivity | exact Hr2].
  - apply (IH pre2 E); auto; intros q Hq; [apply H1 | apply H2]; right; exact Hq.
Qed.

Lemma CurrentRoomSpec_functional (rs : list Room) (its : list ChecklistItem)
    (c1 c2 : option Room) :
  CurrentRoomSpec rs its c1 -> CurrentRoomSpec rs its c2 -> c1 = c2.
Proof.
  intros [pre1 r1 post1 E1 Hp1 Hr1 | r1 rest1 E1 Hn1 | E1]
         [pre2 r2 post2 E2 Hp2 Hr2 | r2 rest2 E2 Hn2 | E2].
  - f_equal. rewrite E1 in E2. eapply first_incomplete_unique; eauto.
  - exfalso. apply (Hn2 r1); [|exact Hr1]. rewrite E1. apply in_elt.
  - rewrite E1 in E2. destruct pre1; discriminate.
  - exfalso. apply (Hn1 r2); [|exact Hr2]. rewrite E2. apply in_elt.
  - congruence.
  - congruence.
  - rewrite E1 in E2. destruct pre2; discriminate.
  - congruence.
  - reflexivity.
Qed.

(** The pointer does not depend on the order in which the items are listed. *)
Lemma currentRoomIdOf_items_order (rs : list Room) (its its' : list ChecklistItem) :
  Permutation its its' -> currentRoomIdOf rs its = currentRoomIdOf rs its'.
Proof.
  intros HP. unfold currentRoomIdOf, firstPending.
  replace (List.find (fun r => JS.some (pendingIn r) its') rs)
     with (List.find (fun r => JS.some (pendingIn r) its) rs); [reflexivity|].
  induction rs as [|a rs IH]; simpl; [reflexivity|].
  assert (JS.some (pendingIn a) its = JS.some (pendingIn a) its') as ->.
  { apply eq_true_iff_eq. rewrite !some_pendingIn_iff. unfold incomplete.
    split; intros (it & Hin & H); exists it; split; try exact H.
    - eapply Permutation_in; eauto.
    - eapply Permutation_in; [symmetry|]; eauto. }
  rewrite IH. reflexivity.
Qed.

(** Scenario A of the specification. *)


Example scenarioA : currentRoomIdOf [kitchen; bath] scenarioA_items = Some "kitchen".
Proof. reflexivity. Qed.

Lemma currentRoomId_sequencer_witness :
  exists cur, CurrentRoomSpec [kitchen; bath] scenarioA_items cur
    /\ currentRoomIdOf [kitchen; bath] scenarioA_items = r_id <$> cur.
Proof.
  apply (currentRoomId_sequencer [kitchen; bath] scenarioA_items).
  repeat constructor; discriminate.
Defined.

(** A room whose identifier is the empty string is falsy for [||]: the
    pointer then falls through to the first room of the list. *)
Example currentRoomId_empty_identifier :
  currentRoomIdOf [kitchen; mkRoom "" "Hall" None] [mkItem "i1" "" false None None None]
  = Some "kitchen".
Proof. reflexivity. Qed.

(** ** Photo requirement gate *)

Lemma length_flat_map_sum {A B : Type} (f : A -> list B) (l : list A) :
  length (flat_map f l) = list_sum (map (fun x => length (f x)) l).
Proof.
  induction l as [|a l IH]; simpl; [reflexivity|].
  rewrite length_app, IH. reflexivity.
Qed.

(** The total shown for a room is the number of photos on all its items. *)
Lemma roomPhotos_pool (r : Room) (its : list ChecklistItem) :
  length (roomPhotos (r_id r) its) = photosPersistedInRoom r its.
Proof.
  unfold roomPhotos, photosPersistedInRoom, JS.flatMap.
  rewrite length_flat_map_sum.
  induction its as [|it its IH]; simpl; [reflexivity|].
  destruct (String.eqb (room_id it) (r_id r)); simpl; rewrite IH; reflexivity.
Qed.

(** A photo on any item of the room raises the room total by one. *)
Lemma photosPersistedInRoom_add (r : Room) (pre post : list ChecklistItem)
    (it : ChecklistItem) (ph : Photo) :
  room_id it = r_id r ->
  photosPersistedInRoom r
    (pre ++ mkItem (it_id it) (room_id it) (completed it) (it_notes it)
              (Some (JS.or_nil (photos it) ++ [ph])) (task_title it) :: post)
  = S (photosPersistedInRoom r (pre ++ it :: post)).
Proof.
  intros Hr. unfold photosPersistedInRoom.
  rewrite !map_app, !list_sum_app. simpl. rewrite Hr, String.eqb_refl. simpl.
  rewrite length_app. simpl. lia.
Qed.

Lemma fetchProgress_of_current (rs : list Room) (its : list ChecklistItem) (r : Room) :
  currentRoomOf rs its = Some r ->
  fetchProgress rs its
  = {| required := requiredOf (Some r);
       total := Z.of_nat (photosPersistedInRoom r its) |}.
Proof.
  intros Hc. unfold fetchProgress. rewrite Hc, roomPhotos_pool. reflexivity.
Qed.

(** The lookup of [handleSubmit] finds a room configured like the room
    object [fetchChecklist] uses: rooms are told apart by identifier only. *)
Lemma find_same_id_first (rs : list Room) (its : list ChecklistItem) (r : Room) :
  currentRoomOf rs its = Some r ->
  exists r', List.find (fun q => String.eqb (r_id q) (r_id r)) rs = Some r'
             /\ r_id r' = r_id r
             /\ (List.NoDup (map r_id rs) -> r' = r).
Proof.
  intros Hc.
  assert (In r rs) as Hin.
  { unfold currentRoomOf in Hc. destruct (firstPending rs its) eqn:Hf; simpl in Hc.
    - injection Hc as ->. apply find_some in Hf. tauto.
    - destruct rs; simpl in Hc; [discriminate|]. injection Hc as ->. left. reflexivity. }
  clear Hc. induction rs as [|a rs IH]; [destruct Hin|]. simpl.
  destruct (String.eqb (r_id a) (r_id r)) eqn:Ea.
  - exists a. apply String.eqb_eq in Ea. repeat split; [exact Ea|].
    intros Hnd. destruct Hin as [->|Hin]; [reflexivity|].
    simpl in Hnd. apply NoDup_cons_iff in Hnd as [Hna _]. exfalso. apply Hna.
    rewrite Ea. apply in_map, Hin.
  - destruct Hin as [->|Hin]; [rewrite String.eqb_refl in Ea; discriminate|].
    destruct (IH Hin) as (r' & Hf & Hid & Hnd). exists r'. repeat split; auto.
    intros Hnd'. simpl in Hnd'. apply NoDup_cons_iff in Hnd' as [_ Hnd']. auto.
Qed.

(** With distinct, non-empty room identifiers, [handleSubmit] recomputes the
    progress [fetchChecklist] computes. *)
Lemma submitProgress_fetchProgress (rs : list Room) (its : list ChecklistItem) :
  Forall (fun r => r_id r <> "") rs -> List.NoDup (map r_id rs) ->
  submitProgress rs its = fetchProgress rs its.
Proof.
  intros Hids Hnd. unfold submitProgress, fetchProgress.
  rewrite (currentRoomIdOf_currentRoomOf _ _ Hids).
  destruct (currentRoomOf rs its) as [r|] eqn:Hc; simpl; [|reflexivity].
  assert (r_id r <> "") as Hr.
  { destruct (find_same_id_first _ _ _ Hc) as (r' & Hf & _ & _).
    apply find_some in Hf as [Hin He]. apply String.eqb_eq in He.
    rewrite Forall_forall in Hids. rewrite <- He. apply Hids.
    apply list_elem_of_In, Hin. }
  rewrite (truthy_nonempty _ Hr).
  destruct (find_same_id_first _ _ _ Hc) as (r' & -> & _ & Heq).
  rewrite (Heq Hnd). reflexivity.
Qed.

(** A count of zero, or no count, never blocks the submit button. *)
Lemma photoGate_no_requirement (p : PageState) (it : ChecklistItem) :
  required (roomPhotoProgress p) = 0 -> Details.photoGateBlocks p it = false.
Proof.
  intros H0. unfold Details.photoGateBlocks. rewrite H0. reflexivity.
Qed.

Lemma requiredOf_zero_or_absent (r : Room) :
  pivotCount (Some r) = None \/ pivotCount (Some r) = Some 0 ->
  requiredOf (Some r) = 0.
Proof.
  unfold requiredOf. intros [-> | ->]; reflexivity.
Qed.

Lemma currentRoomOf_In (rs : list Room) (its : list ChecklistItem) (r : Room) :
  currentRoomOf rs its = Some r -> In r rs.
Proof.
  unfold currentRoomOf. destruct (firstPending rs its) as [q|] eqn:Hf; simpl.
  - intros [= ->]. apply find_some in Hf. tauto.
  - destruct rs as [|q rest]; simpl; [discriminate|]. intros [= ->]. left. reflexivity.
Qed.

(** Rooms with distinct identifiers are told apart by their identifier. *)
Lemma room_by_id (rs : list Room) (a b : Room) :
  List.NoDup (map r_id rs) -> In a rs -> In b rs -> r_id a = r_id b -> a = b.
Proof.
  induction rs as [|x rs IH]; simpl; [intros _ []|].
  intros Hnd Ha Hb E. apply NoDup_cons_iff in Hnd as [Hx Hnd].
  destruct Ha as [->|Ha], Hb as [->|Hb]; auto.
  - exfalso. apply Hx. rewrite E. apply in_map, Hb.
  - exfalso. apply Hx. rewrite <- E. apply in_map, Ha.
Qed.

(** The task list shows the items of a room of the property exactly when
    that room is the current room. *)
Lemma itemListed_current (rs : list Room) (its : list ChecklistItem) (p : PageState)
    (r : Room) (it : ChecklistItem) :
  Forall (fun q => r_id q <> "") rs ->
  List.NoDup (map r_id rs) ->
  In r rs ->
  room_id it = r_id r ->
  currentRoomId p = currentRoomIdOf rs its ->
  Details.itemListed p it = true <-> currentRoomOf rs its = Some r.
Proof.
  intros Hids Hnd Hin Hroom Hcur. unfold Details.itemListed.
  rewrite Hcur, (currentRoomIdOf_currentRoomOf _ _ Hids).
  destruct (currentRoomOf rs its) as [cur|] eqn:Hc; simpl.
  - pose proof (currentRoomOf_In _ _ _ Hc) as Hcin.
    assert (r_id cur <> "") as Hne.
    { rewrite Forall_forall in Hids. apply Hids, list_elem_of_In, Hcin. }
    rewrite (truthy_nonempty _ Hne). rewrite Hroom. split.
    + intros He. apply String.eqb_eq in He. f_equal.
      apply (room_by_id rs); auto.
    + intros [= ->]. apply String.eqb_refl.
  - exfalso. unfold currentRoomOf in Hc.
    destruct (firstPending rs its); simpl in Hc; [discriminate|].
    destruct rs; [destruct Hin | discriminate].
Qed.

(** C2 (amended). Take any room of the property (rooms told apart by
    distinct, non-empty identifiers) whose pivot has [requires_photo = true]
    and a count [C >= 1], and any item of that room. The item is listed on
    the details page if and only if the room is the current room. When it
    is, the submit button of the item is enabled (no submission of that item
    being in flight) if and only if the photos persisted on the items of the
    room, whatever their task, plus the photos staged for the item reach
    [C]: exactly [C] photos enable it, [C - 1] photos disable it. When the
    room is not the current room, no submission form is rendered for the
    item, for any user and whatever the photo counts. *)
Theorem photo_gate_threshold (data : Checklist) (p : PageState) (r : Room)
    (pv : Pivot) (C : Z) (it : ChecklistItem) :
  Forall (fun q => r_id q <> "") (orderedRooms data) ->
  List.NoDup (map r_id (orderedRooms data)) ->
  In r (orderedRooms data) ->
  pivot r = Some pv ->
  requires_photo pv = Some true ->
  photos_required_count pv = Some C ->
  1 <= C ->
  room_id it = r_id r ->
  currentRoomId p = currentRoomIdOf (orderedRooms data) (itemsOf data) ->
  roomPhotoProgress p = fetchProgress (orderedRooms data) (itemsOf data) ->
  updating p <> Some (it_id it) ->
  let persisted := Z.of_nat (photosPersistedInRoom r (itemsOf data)) in
  let staged := Z.of_nat (length (default [] (selectedPhotosMap p !! it_id it))) in
  let current := currentRoomOf (orderedRooms data) (itemsOf data) in
  (Details.itemListed p it = true <-> current = Some r)
  /\ (current = Some r ->
        (Details.submitDisabled p it = false <-> C <= persisted + staged)
        /\ (persisted + staged = C -> Details.submitDisabled p it = false)
        /\ (persisted + staged = C - 1 -> Details.submitDisabled p it = true))
  /\ (current <> Some r ->
        forall user : option User, Details.updateFormShown p user it = false).
Proof.
  intros Hids Hnd Hin Hpv _ Hcount HC Hroom Hcur Hprog Hupd persisted staged current.
  assert (Details.itemListed p it = true <-> current = Some r) as Hlisted.
  { apply itemListed_current; assumption. }
  split; [exact Hlisted|]. split.
  - intros Hc.
    assert (Details.submitDisabled p it = (persisted + staged <? C)) as Hd.
    { unfold Details.submitDisabled, Details.photoGateBlocks, Details.stagedCount.
      rewrite bool_decide_eq_false_2 by exact Hupd.
      rewrite Hprog, (fetchProgress_of_current _ _ _ Hc). simpl.
      unfold requiredOf, pivotCount. rewrite Hpv, Hcount. simpl.
      rewrite Z.max_r by lia.
      replace (0 <? C) with true by (symmetry; apply Z.ltb_lt; lia).
      reflexivity. }
    rewrite Hd. split; [split|split].
    + intros H. apply Z.ltb_ge in H. exact H.
    + intros H. apply Z.ltb_ge. exact H.
    + intros H. apply Z.ltb_ge. lia.
    + intros H. apply Z.ltb_lt. lia.
  - intros Hc user. unfold Details.updateFormShown.
    destruct (Details.itemListed p it) eqn:Hl.
    + exfalso. apply Hc, Hlisted. reflexivity.
    + destruct (Details.view p); reflexivity.
Qed.

Lemma photo_gate_threshold_witness :
  (Details.itemListed (Scenario.pageB ["a.jpg"; "b.jpg"]) Scenario.mirror = true
   <-> currentRoomOf (orderedRooms Scenario.checklistB) (itemsOf Scenario.checklistB)
       = Some Scenario.bathB)
  /\ (currentRoomOf (orderedRooms Scenario.checklistB) (itemsOf Scenario.checklistB)
      = Some Scenario.bathB ->
        (Details.submitDisabled (Scenario.pageB ["a.jpg"; "b.jpg"]) Scenario.mirror = false
         <-> 2 <= Z.of_nat (photosPersistedInRoom Scenario.bathB (itemsOf Scenario.checklistB))
                  + Z.of_nat (length (default []
                       (selectedPhotosMap (Scenario.pageB ["a.jpg"; "b.jpg"]) !! "i1"))))
        /\ (Z.of_nat (photosPersistedInRoom Scenario.bathB (itemsOf Scenario.checklistB))
            + Z.of_nat (length (default []
                 (selectedPhotosMap (Scenario.pageB ["a.jpg"; "b.jpg"]) !! "i1"))) = 2
            -> Details.submitDisabled (Scenario.pageB ["a.jpg"; "b.jpg"]) Scenario.mirror
               = false)
        /\ (Z.of_nat (photosPersistedInRoom Scenario.bathB (itemsOf Scenario.checklistB))
            + Z.of_nat (length (default []
                 (selectedPhotosMap (Scenario.pageB ["a.jpg"; "b.jpg"]) !! "i1"))) = 2 - 1
            -> Details.submitDisabled (Scenario.pageB ["a.jpg"; "b.jpg"]) Scenario.mirror
               = true))
  /\ (currentRoomOf (orderedRooms Scenario.checklistB) (itemsOf Scenario.checklistB)
      <> Some Scenario.bathB ->
        forall user : option User,
          Details.updateFormShown (Scenario.pageB ["a.jpg"; "b.jpg"]) user Scenario.mirror
          = false).
Proof.
  apply (photo_gate_threshold Scenario.checklistB (Scenario.pageB ["a.jpg"; "b.jpg"])
           Scenario.bathB (mkPivot (Some "p1") (Some true) (Some 2)) 2 Scenario.mirror).
  - repeat constructor. discriminate.
  - repeat constructor. simpl. tauto.
  - left. reflexivity.
  - reflexivity.
  - reflexivity.
  - reflexivity.
  - lia.
  - reflexivity.
  - vm_compute. reflexivity.
  - vm_compute. reflexivity.
  - vm_compute. discriminate.
Defined.

(** C2 (as stated, refuted). The bath requires two photos and two photos
    are persisted on its items, so the threshold of the room is reached; but
    the kitchen, earlier in the order, still has an open task and is the
    current room: the open task of the bath is not listed and no submission
    form is rendered for it, even for a housekeeper on a checklist in
    progress. *)
Lemma photo_gate_other_room_not_offered :
  In Scenario.bathB (orderedRooms Scenario2.checklistTwoRooms)
  /\ (pivot Scenario.bathB ≫= requires_photo) = Some true
  /\ pivotCount (Some Scenario.bathB) = Some 2
  /\ In Scenario2.bathFloor (itemsOf Scenario2.checklistTwoRooms)
  /\ room_id Scenario2.bathFloor = r_id Scenario.bathB
  /\ completed Scenario2.bathFloor = false
  /\ photosPersistedInRoom Scenario.bathB (itemsOf Scenario2.checklistTwoRooms) = 2%nat
  /\ currentRoomId (Scenario.loaded Scenario2.checklistTwoRooms) = Some "kitchen"
  /\ Details.canUpdate (checklist (Scenario.loaded Scenario2.checklistTwoRooms))
       Scenario.aHousekeeper = true
  /\ Details.itemListed (Scenario.loaded Scenario2.checklistTwoRooms) Scenario2.bathFloor
     = false
  /\ Details.updateFormShown (Scenario.loaded Scenario2.checklistTwoRooms)
       Scenario.aHousekeeper Scenario2.bathFloor = false
  /\ Details.updateFormShown (Scenario.loaded Scenario2.checklistTwoRooms)
       Scenario.aHousekeeper Scenario2.counter = true.
Proof.
  split; [right; left; reflexivity|].
  split; [reflexivity|]. split; [reflexivity|].
  split; [right; right; left; reflexivity|].
  repeat split; vm_compute; reflexivity.
Qed.

(** Scenario B of the specification: one staged photo is not enough for a
    room that requires two, two are. *)
Example scenarioB :
  Details.submitDisabled (Scenario.pageB ["a.jpg"]) Scenario.mirror = true
  /\ Details.submitDisabled (Scenario.pageB ["a.jpg"; "b.jpg"]) Scenario.mirror = false.
Proof. split; vm_compute; reflexivity. Qed.

(** C3 (the code departs from the claim). The gate reads only
    [photos_required_count]: a room whose pivot has [requires_photo = false]
    and a count of 2 blocks the submission of its items until two photos are
    there, exactly like a room that requires photos. *)
Theorem photo_gate_ignores_requires_photo :
  (pivot Scenario.bathOff ≫= requires_photo) = Some false
  /\ currentRoomOf (orderedRooms Scenario.checklistOff) (itemsOf Scenario.checklistOff)
     = Some Scenario.bathOff
  /\ roomPhotoProgress (Scenario.loaded Scenario.checklistOff)
     = {| required := 2; total := 0 |}
  /\ Details.updateFormShown (Scenario.loaded Scenario.checklistOff)
       Scenario.aHousekeeper Scenario.mirror = true
  /\ Details.submitDisabled (Scenario.loaded Scenario.checklistOff) Scenario.mirror = true.
Proof. repeat split; vm_compute; reflexivity. Qed.

(** The gate does not depend on the flag at all. *)
Lemma fetchProgress_flag_irrelevant (rs : list Room) (its : list ChecklistItem)
    (flip : Room -> Room) :
  (forall r, r_id (flip r) = r_id r) ->
  (forall r, pivotCount (Some (flip r)) = pivotCount (Some r)) ->
  fetchProgress (map flip rs) its = fetchProgress rs its.
Proof.
  intros Hid Hcount. unfold fetchProgress, currentRoomOf, firstPending.
  assert (forall r, JS.some (pendingIn (flip r)) its = JS.some (pendingIn r) its) as Hp.
  { intros r. unfold JS.some, pendingIn. rewrite Hid. reflexivity. }
  assert (List.find (fun r => JS.some (pendingIn r) its) (map flip rs)
          = flip <$> List.find (fun r => JS.some (pendingIn r) its) rs) as ->.
  { induction rs as [|a rs IH]; simpl; [reflexivity|].
    rewrite Hp. destruct (JS.some (pendingIn a) its); [reflexivity | exact IH]. }
  destruct (List.find _ rs) as [r|]; simpl.
  - unfold requiredOf. rewrite Hcount, Hid. reflexivity.
  - destruct rs as [|a rs]; simpl; [reflexivity|].
    unfold requiredOf. rewrite Hcount, Hid. reflexivity.
Qed.

(** ** Item submission ([handleSubmit]) *)

Ltac step_handler :=
  unfold run, bind, try_catch, finally, await, modify, ret; simpl.

(** Loading the page stores the pointer and the progress of the sequencer
    and of the gate for the checklist the backend returned. *)
Lemma fetchChecklist_loaded {S : Type} `{ApiService S} (checklistId : string)
    (p : PageState) (s s1 : S) (data : Checklist) :
  getChecklist checklistId s = (Returned data, s1) ->
  let p' := page (snd (run (Details.fetchChecklist checklistId) p s)) in
  checklist p' = Some data
  /\ currentRoomId p' = currentRoomIdOf (orderedRooms data) (itemsOf data)
  /\ roomPhotoProgress p' = fetchProgress (orderedRooms data) (itemsOf data)
  /\ loading p' = false.
Proof.
  intros Hg. unfold Details.fetchChecklist. step_handler. rewrite Hg. simpl.
  repeat split.
Qed.

(** A successful submission recomputes both from the refreshed checklist. *)
Lemma handleSubmit_recomputes_room {S : Type} `{ApiService S} (checklistId : string)
    (p : PageState) (cl : Checklist) (it : ChecklistItem) (s s1 s2 : S)
    (u : unit) (data : Checklist) :
  checklist p = Some cl ->
  completed it = false ->
  updateChecklistItem (cl_id cl) (it_id it)
    (mkItemUpdate true (default "" (itemNotesMap p !! it_id it))
                       (default [] (selectedPhotosMap p !! it_id it))) s
  = (Returned u, s1) ->
  getChecklist checklistId s1 = (Returned data, s2) ->
  let p' := page (snd (run (Details.handleSubmit checklistId p it) p s)) in
  currentRoomId p' = currentRoomIdOf (orderedRooms data) (itemsOf data)
  /\ roomPhotoProgress p' = submitProgress (orderedRooms data) (itemsOf data).
Proof.
  intros Hcl Hopen Hu Hg. unfold Details.handleSubmit. rewrite Hcl, Hopen.
  step_handler. rewrite Hu. simpl. rewrite Hg. simpl. split; reflexivity.
Qed.

(** C4. Submitting an item whose [completed] flag is already true is
    rejected with the explicit error "Cannot modify a completed task.": the
    handler issues no API call, leaves the backend as it is, and changes
    nothing on the page but the error message, whatever the status of the
    checklist. *)
Theorem submit_completed_item_rejected {S : Type} `{ApiService S}
    (checklistId : string) (p : PageState) (cl : Checklist) (it : ChecklistItem)
    (w : World PageState S) :
  checklist p = Some cl ->
  completed it = true ->
  Details.handleSubmit checklistId p it w
  = (Returned tt,
     mkWorld (setError (Some "Cannot modify a completed task.") (page w))
             (server w) (calls w)).
Proof.
  intros Hcl Hdone. unfold Details.handleSubmit. rewrite Hcl, Hdone. reflexivity.
Qed.

Lemma submit_completed_item_rejected_witness :
  Details.handleSubmit (H := Scenario.backend) "c1"
    (Scenario.loaded (Scenario.checklistDone reviewed (Some 4))) Scenario.mirrorDone
    (mkWorld (Scenario.loaded (Scenario.checklistDone reviewed (Some 4)))
             (Scenario.checklistDone reviewed (Some 4)) [])
  = (Returned tt,
     mkWorld (setError (Some "Cannot modify a completed task.")
                (Scenario.loaded (Scenario.checklistDone reviewed (Some 4))))
             (Scenario.checklistDone reviewed (Some 4)) []).
Proof.
  apply (submit_completed_item_rejected (H := Scenario.backend) "c1"
           (Scenario.loaded (Scenario.checklistDone reviewed (Some 4)))
           (Scenario.checklistDone reviewed (Some 4)) Scenario.mirrorDone).
  - reflexivity.
  - reflexivity.
Defined.

(** The rejection leaves the item, the checklist and the form state alone. *)
Corollary submit_completed_item_frame {S : Type} `{ApiService S}
    (checklistId : string) (p : PageState) (cl : Checklist) (it : ChecklistItem) (s : S) :
  checklist p = Some cl ->
  completed it = true ->
  let w' := snd (run (Details.handleSubmit checklistId p it) p s) in
  calls w' = [] /\ server w' = s
  /\ checklist (page w') = Some cl
  /\ selectedPhotosMap (page w') = selectedPhotosMap p
  /\ photoPreviewsMap (page w') = photoPreviewsMap p
  /\ itemNotesMap (page w') = itemNotesMap p
  /\ error (page w') = Some "Cannot modify a completed task.".
Proof.
  intros Hcl Hdone. unfold Details.handleSubmit, run. rewrite Hcl, Hdone. simpl.
  repeat split. exact Hcl.
Qed.

(** C10 (amended). A submission fails when the update call throws, and
    also when the update returns but the refresh of the checklist that
    follows it throws. In both cases the staged photos, their previews and
    the draft notes of the item are left as they were: the page differs from
    the page before only by the error message (the updating marker is back
    to none). The form state of the item is cleared in the one remaining
    case, when both the update and the refresh return. *)
Theorem submit_failure_keeps_form_state {S : Type} `{ApiService S}
    (checklistId : string) (p : PageState) (cl : Checklist) (it : ChecklistItem) (s : S) :
  checklist p = Some cl ->
  completed it = false ->
  let sent := CallUpdateChecklistItem (cl_id cl) (it_id it)
                (mkItemUpdate true (default "" (itemNotesMap p !! it_id it))
                                   (default [] (selectedPhotosMap p !! it_id it))) in
  let upd := updateChecklistItem (cl_id cl) (it_id it)
               (mkItemUpdate true (default "" (itemNotesMap p !! it_id it))
                                  (default [] (selectedPhotosMap p !! it_id it))) s in
  let w' := snd (run (Details.handleSubmit checklistId p it) p s) in
  (forall e s1, upd = (Thrown e, s1) ->
     w' = mkWorld (setUpdating None
                     (setError (JS.or_str (message e) (Some "Failed to update task.")) p))
                  s1 [sent])
  /\ (forall u s1 e s2, upd = (Returned u, s1) ->
        getChecklist checklistId s1 = (Thrown e, s2) ->
        w' = mkWorld (setUpdating None
                        (setError (JS.or_str (message e) (Some "Failed to update task.")) p))
                     s2 [sent; CallGetChecklist checklistId])
  /\ (forall u s1 data s2, upd = (Returned u, s1) ->
        getChecklist checklistId s1 = (Returned data, s2) ->
        selectedPhotosMap (page w') = <[it_id it := []]> (selectedPhotosMap p)
        /\ photoPreviewsMap (page w') = <[it_id it := []]> (photoPreviewsMap p)
        /\ itemNotesMap (page w') = <[it_id it := ""]> (itemNotesMap p)
        /\ error (page w') = None
        /\ updating (page w') = None
        /\ checklist (page w') = Some data
        /\ server w' = s2
        /\ calls w' = [sent; CallGetChecklist checklistId]).
Proof.
  intros Hcl Hopen sent upd w'. subst sent upd w'.
  unfold Details.handleSubmit. rewrite Hcl, Hopen. split; [|split].
  - intros e s1 Hu. step_handler. rewrite Hu. reflexivity.
  - intros u s1 e s2 Hu Hg. step_handler. rewrite Hu. simpl. rewrite Hg. reflexivity.
  - intros u s1 data s2 Hu Hg. step_handler. rewrite Hu. simpl. rewrite Hg. simpl.
    repeat split.
Qed.

(** The three cases on the page of scenario B with two photos staged: a
    backend that refuses the update, one that commits it and refuses the
    refresh, and one that answers both. *)
Lemma submit_failure_keeps_form_state_witness :
  (snd (run (Details.handleSubmit (H := Scenario2.failing) "c1"
               (Scenario.pageB ["a.jpg"; "b.jpg"]) Scenario.mirror)
            (Scenario.pageB ["a.jpg"; "b.jpg"]) tt)
   = mkWorld (setUpdating None
                (setError (JS.or_str (message Scenario2.down) (Some "Failed to update task."))
                          (Scenario.pageB ["a.jpg"; "b.jpg"])))
             tt
             [CallUpdateChecklistItem (cl_id Scenario.checklistB) (it_id Scenario.mirror)
                (mkItemUpdate true
                   (default "" (itemNotesMap (Scenario.pageB ["a.jpg"; "b.jpg"])
                                  !! it_id Scenario.mirror))
                   (default [] (selectedPhotosMap (Scenario.pageB ["a.jpg"; "b.jpg"])
                                  !! it_id Scenario.mirror)))])
  /\ (snd (run (Details.handleSubmit (H := Scenario2.refreshDown) "c1"
                  (Scenario.pageB ["a.jpg"; "b.jpg"]) Scenario.mirror)
               (Scenario.pageB ["a.jpg"; "b.jpg"]) Scenario.checklistB)
      = mkWorld (setUpdating None
                   (setError (JS.or_str (message Scenario2.down)
                                        (Some "Failed to update task."))
                             (Scenario.pageB ["a.jpg"; "b.jpg"])))
                (mkChecklist "c1" in_progress None None
                   (Some (mkProperty (Some [Scenario.bathB])))
                   (Some [mkItem "i1" "bath" true (Some "")
                            (Some [mkPhoto "a.jpg" ""; mkPhoto "b.jpg" ""]) (Some "Mirror");
                          Scenario.floor]))
                [CallUpdateChecklistItem (cl_id Scenario.checklistB) (it_id Scenario.mirror)
                   (mkItemUpdate true
                      (default "" (itemNotesMap (Scenario.pageB ["a.jpg"; "b.jpg"])
                                     !! it_id Scenario.mirror))
                      (default [] (selectedPhotosMap (Scenario.pageB ["a.jpg"; "b.jpg"])
                                     !! it_id Scenario.mirror)));
                 CallGetChecklist "c1"])
  /\ (selectedPhotosMap
        (page (snd (run (Details.handleSubmit (H := Scenario.backend) "c1"
                           (Scenario.pageB ["a.jpg"; "b.jpg"]) Scenario.mirror)
                        (Scenario.pageB ["a.jpg"; "b.jpg"]) Scenario.checklistB)))
      = <[it_id Scenario.mirror := []]> (selectedPhotosMap (Scenario.pageB ["a.jpg"; "b.jpg"]))
      /\ checklist
           (page (snd (run (Details.handleSubmit (H := Scenario.backend) "c1"
                              (Scenario.pageB ["a.jpg"; "b.jpg"]) Scenario.mirror)
                           (Scenario.pageB ["a.jpg"; "b.jpg"]) Scenario.checklistB)))
         = Some (mkChecklist "c1" in_progress None None
                   (Some (mkProperty (Some [Scenario.bathB])))
                   (Some [mkItem "i1" "bath" true (Some "")
                            (Some [mkPhoto "a.jpg" ""; mkPhoto "b.jpg" ""]) (Some "Mirror");
                          Scenario.floor]))).
Proof.
  split; [|split].
  - refine (proj1 (submit_failure_keeps_form_state (H := Scenario2.failing) "c1"
              (Scenario.pageB ["a.jpg"; "b.jpg"]) Scenario.checklistB Scenario.mirror
              tt _ _) Scenario2.down tt _); reflexivity.
  - refine (proj1 (proj2 (submit_failure_keeps_form_state (H := Scenario2.refreshDown) "c1"
              (Scenario.pageB ["a.jpg"; "b.jpg"]) Scenario.checklistB Scenario.mirror
              Scenario.checklistB _ _)) tt _ Scenario2.down _ _ _).
    + reflexivity.
    + reflexivity.
    + vm_compute. reflexivity.
    + vm_compute. reflexivity.
  - pose proof (proj2 (proj2 (submit_failure_keeps_form_state (H := Scenario.backend) "c1"
              (Scenario.pageB ["a.jpg"; "b.jpg"]) Scenario.checklistB Scenario.mirror
              Scenario.checklistB eq_refl eq_refl))
              tt
              (mkChecklist "c1" in_progress None None
                 (Some (mkProperty (Some [Scenario.bathB])))
                 (Some [mkItem "i1" "bath" true (Some "")
                          (Some [mkPhoto "a.jpg" ""; mkPhoto "b.jpg" ""]) (Some "Mirror");
                        Scenario.floor]))
              (mkChecklist "c1" in_progress None None
                 (Some (mkProperty (Some [Scenario.bathB])))
                 (Some [mkItem "i1" "bath" true (Some "")
                          (Some [mkPhoto "a.jpg" ""; mkPhoto "b.jpg" ""]) (Some "Mirror");
                        Scenario.floor]))
              (mkChecklist "c1" in_progress None None
                 (Some (mkProperty (Some [Scenario.bathB])))
                 (Some [mkItem "i1" "bath" true (Some "")
                          (Some [mkPhoto "a.jpg" ""; mkPhoto "b.jpg" ""]) (Some "Mirror");
                        Scenario.floor]))
              eq_refl eq_refl) as (Hs & _ & _ & _ & _ & Hc & _).
    split; [exact Hs | exact Hc].
Defined.

(** C10 (as stated, refuted). The update call returns: the backend holds the
    item completed with the two photos. The refresh that follows throws, and
    the page keeps the two staged photos, their previews and its stale
    checklist, and shows the error of the refresh. *)
Lemma submit_accepted_refresh_fails_keeps_form :
  updateChecklistItem (ApiService := Scenario2.refreshDown) "c1" "i1"
    (mkItemUpdate true "" ["a.jpg"; "b.jpg"]) Scenario.checklistB
  = (Returned tt,
     mkChecklist "c1" in_progress None None
       (Some (mkProperty (Some [Scenario.bathB])))
       (Some [mkItem "i1" "bath" true (Some "")
                (Some [mkPhoto "a.jpg" ""; mkPhoto "b.jpg" ""]) (Some "Mirror");
              Scenario.floor]))
  /\ server (snd (run (Details.handleSubmit (H := Scenario2.refreshDown) "c1"
                         (Scenario.pageB ["a.jpg"; "b.jpg"]) Scenario.mirror)
                      (Scenario.pageB ["a.jpg"; "b.jpg"]) Scenario.checklistB))
     = mkChecklist "c1" in_progress None None
         (Some (mkProperty (Some [Scenario.bathB])))
         (Some [mkItem "i1" "bath" true (Some "")
                  (Some [mkPhoto "a.jpg" ""; mkPhoto "b.jpg" ""]) (Some "Mirror");
                Scenario.floor])
  /\ selectedPhotosMap
       (page (snd (run (Details.handleSubmit (H := Scenario2.refreshDown) "c1"
                          (Scenario.pageB ["a.jpg"; "b.jpg"]) Scenario.mirror)
                       (Scenario.pageB ["a.jpg"; "b.jpg"]) Scenario.checklistB))) !! "i1"
     = Some ["a.jpg"; "b.jpg"]
  /\ photoPreviewsMap
       (page (snd (run (Details.handleSubmit (H := Scenario2.refreshDown) "c1"
                          (Scenario.pageB ["a.jpg"; "b.jpg"]) Scenario.mirror)
                       (Scenario.pageB ["a.jpg"; "b.jpg"]) Scenario.checklistB))) !! "i1"
     = Some ["data:a.jpg"; "data:b.jpg"]
  /\ error
       (page (snd (run (Details.handleSubmit (H := Scenario2.refreshDown) "c1"
                          (Scenario.pageB ["a.jpg"; "b.jpg"]) Scenario.mirror)
                       (Scenario.pageB ["a.jpg"; "b.jpg"]) Scenario.checklistB)))
     = Some "Service unavailable"
  /\ checklist
       (page (snd (run (Details.handleSubmit (H := Scenario2.refreshDown) "c1"
                          (Scenario.pageB ["a.jpg"; "b.jpg"]) Scenario.mirror)
                       (Scenario.pageB ["a.jpg"; "b.jpg"]) Scenario.checklistB)))
     = Some Scenario.checklistB.
Proof. vm_compute. repeat split. Qed.

(** A submission the backend refuses (here: the checklist was never
    started) keeps the two staged photos and shows the error. *)
Example submit_refused_keeps_photos :
  let p := setChecklist (Some (SpecBackend.withStatus pending Scenario.checklistB))
             (Scenario.pageB ["a.jpg"; "b.jpg"]) in
  let w' := snd (run (Details.handleSubmit (H := Scenario.backend) "c1" p Scenario.mirror)
                     p (SpecBackend.withStatus pending Scenario.checklistB)) in
  selectedPhotosMap (page w') !! "i1" = Some ["a.jpg"; "b.jpg"]
  /\ error (page w') = Some "IllegalTransition"
  /\ updating (page w') = None
  /\ server w' = SpecBackend.withStatus pending Scenario.checklistB.
Proof. vm_compute. repeat split. Qed.

(** ** Completing a checklist *)

Lemma filter_length_all (its : list ChecklistItem) :
  Nat.eqb (length (List.filter completed its)) (length its) = true
  <-> Forall (fun it => completed it = true) its.
Proof.
  rewrite Nat.eqb_eq. induction its as [|a its IH]; simpl.
  - split; [constructor | reflexivity].
  - destruct (completed a) eqn:Ha; simpl.
    + split.
      * intros E. constructor; [exact Ha|]. apply IH. lia.
      * intros HF. apply Forall_cons_1 in HF as [_ HF]. apply IH in HF. lia.
    + split.
      * intros E. pose proof (List.filter_length_le completed its). lia.
      * intros HF. apply Forall_cons_1 in HF as [Hc _]. congruence.
Qed.

Lemma canComplete_iff (cl : Checklist) :
  Details.canComplete (Some cl) = true
  <-> status cl = in_progress /\ Forall (fun it => completed it = true) (itemsOf cl).
Proof.
  unfold Details.canComplete, Details.statusIs, Details.completedTasks,
    Details.totalTasks, itemsOf.
  rewrite andb_true_iff, bool_decide_eq_true.
  destruct (items cl) as [its|]; simpl.
  - rewrite filter_length_all. reflexivity.
  - split; intros [Hs _]; split; auto.
Qed.

Lemma forallb_completed (its : list ChecklistItem) :
  forallb completed its = true <-> Forall (fun it => completed it = true) its.
Proof.
  rewrite forallb_forall, Forall_forall. 
  split; intros Hall x Hx; apply Hall; apply list_elem_of_In; exact Hx.
Qed.

(** C5. The complete transition is offered only when the status is
    [in_progress] and every item is completed: [canComplete] is exactly that
    condition, every page that shows the button requires it, an incomplete
    item withholds the button and makes the transition fail, an empty item
    list satisfies the condition, and a successful completion leaves the
    page on a checklist whose status is [completed]. *)
Theorem complete_requires_all_items_completed (cl : Checklist) :
  (Details.canComplete (Some cl) = true
   <-> status cl = in_progress /\ Forall (fun it => completed it = true) (itemsOf cl))
  /\ (forall (p : PageState) (user : option User),
        checklist p = Some cl -> Details.completeOffered p user = true ->
        Details.canComplete (Some cl) = true)
  /\ (forall user, ChecklistsList.completeOffered user cl = true ->
        Details.canComplete (Some cl) = true)
  /\ (TodayTasks.completeOffered cl = true -> Details.canComplete (Some cl) = true)
  /\ ((exists it, In it (itemsOf cl) /\ completed it = false) ->
        Details.canComplete (Some cl) = false
        /\ exists e, SpecBackend.complete cl = inl e)
  /\ (itemsOf cl = [] -> status cl = in_progress -> Details.canComplete (Some cl) = true)
  /\ (Details.canComplete (Some cl) = true ->
        forall (checklistId : string) (p : PageState),
          checklist p = Some cl ->
          let w' := snd (run (Details.handleCompleteChecklist (H := Scenario.backend)
                                checklistId p) p cl) in
          calls w' = [CallCompleteChecklist (cl_id cl); CallGetChecklist checklistId]
          /\ checklist (page w') = Some (SpecBackend.withStatus completed_st cl)
          /\ server w' = SpecBackend.withStatus completed_st cl).
Proof.
  split; [apply canComplete_iff|]. split; [|split; [|split; [|split; [|split]]]].
  - intros p user Hcl Hoff. unfold Details.completeOffered, Details.view in Hoff.
    rewrite Hcl in Hoff. destruct (loading p); [discriminate|].
    apply andb_prop in Hoff as [Hc _]. exact Hc.
  - intros user Hoff. unfold ChecklistsList.completeOffered in Hoff.
    unfold Details.canComplete, Details.statusIs. exact Hoff.
  - intros Hoff. unfold TodayTasks.completeOffered in Hoff.
    apply andb_prop in Hoff as [Hoff _].
    unfold Details.canComplete, Details.statusIs. exact Hoff.
  - intros (it & Hin & Hopen).
    assert (~ Forall (fun it => completed it = true) (itemsOf cl)) as Hnot.
    { intros HF. rewrite Forall_forall in HF.
      apply list_elem_of_In in Hin. specialize (HF it Hin). congruence. }
    split.
    + apply not_true_is_false. rewrite canComplete_iff. tauto.
    + unfold SpecBackend.complete.
      destruct (status cl); eauto.
      destruct (forallb completed (itemsOf cl)) eqn:Hall; eauto.
      apply forallb_completed in Hall. contradiction.
  - intros Hnil Hst. apply canComplete_iff. rewrite Hnil. split; [exact Hst|constructor].
  - intros Hcan checklistId p Hcl. apply canComplete_iff in Hcan as [Hst Hall].
    apply forallb_completed in Hall.
    unfold Details.handleCompleteChecklist. rewrite Hcl.
    step_handler. unfold SpecBackend.commit, SpecBackend.complete.
    rewrite Hst, Hall. simpl. repeat split.
Qed.

(** When the completion request is refused the page keeps its checklist
    and shows the error. *)
Lemma complete_refused_keeps_checklist {S : Type} `{ApiService S}
    (checklistId : string) (p : PageState) (cl : Checklist) (s s1 : S) (e : ApiError) :
  checklist p = Some cl ->
  completeChecklist (cl_id cl) s = (Thrown e, s1) ->
  snd (run (Details.handleCompleteChecklist checklistId p) p s)
  = mkWorld (setError (JS.or_str (message e) (Some "Failed to complete checklist.")) p)
            s1 [CallCompleteChecklist (cl_id cl)].
Proof.
  intros Hcl Hc. unfold Details.handleCompleteChecklist. rewrite Hcl.
  step_handler. rewrite Hc. reflexivity.
Qed.

(** Scenario D of the specification, through the pages. *)
Example scenarioD :
  let c0 := Scenario.checklistDone in_progress None in
  let w1 := snd (run (Details.handleCompleteChecklist (H := Scenario.backend) "c1"
                        (Scenario.loaded c0)) (Scenario.loaded c0) c0) in
  let r0 := Review.handleRatingClick 4 (Scenario.reviewLoaded (server w1)) in
  let w2 := snd (run (Review.submitForm (H := Scenario.backend) r0) r0 (server w1)) in
  status (server w1) = completed_st
  /\ status (server w2) = reviewed /\ rating (server w2) = Some 4.
Proof. vm_compute. repeat split. Qed.

(** ** Starting a checklist *)

(** On the details page a start without a fix sets the location error and
    stops: no call is issued and the backend is not reached. *)
Lemma details_start_without_fix {S : Type} `{ApiService S} (checklistId : string)
    (p : PageState) (cl : Checklist) (nav : Details.Geolocation) (w : World PageState S) :
  checklist p = Some cl -> noFix nav ->
  Details.handleStartChecklist checklistId p nav w
  = (Returned tt, mkWorld (setError (locationError "this" nav) (page w)) (server w) (calls w)).
Proof.
  intros Hcl Hnav. unfold Details.handleStartChecklist. rewrite Hcl.
  destruct nav; [reflexivity | reflexivity | destruct Hnav].
Qed.

(** The today-tasks page behaves the same. *)
Lemma today_start_without_fix {S : Type} `{ApiService S} (checklistId : string)
    (nav : Details.Geolocation) (w : World TodayTasks.TodayState S) :
  noFix nav ->
  TodayTasks.handleStartChecklist nav checklistId w
  = (Returned tt,
     mkWorld (TodayTasks.setError (locationError "a" nav) (page w)) (server w) (calls w)).
Proof.
  intros Hnav. unfold TodayTasks.handleStartChecklist.
  destruct nav; [reflexivity | reflexivity | destruct Hnav].
Qed.

(** With a fix, both pages forward exactly the coordinates they obtained. *)
Lemma details_start_with_fix {S : Type} `{ApiService S} (checklistId : string)
    (p : PageState) (cl : Checklist) (coords : Coords) (w : World PageState S) :
  checklist p = Some cl ->
  exists rest,
    calls (snd (Details.handleStartChecklist checklistId p (Details.GeoPosition coords) w))
    = calls w ++ CallStartChecklist (cl_id cl) (Some coords) :: rest.
Proof.
  intros Hcl. unfold Details.handleStartChecklist. rewrite Hcl. step_handler.
  destruct (startChecklist (cl_id cl) (Some coords) (server w)) as [[u|e] s1]; simpl.
  - destruct (getChecklist checklistId s1) as [[d|e] s2]; simpl;
      rewrite <- app_assoc; eexists; reflexivity.
  - eexists. reflexivity.
Qed.

Lemma today_start_with_fix {S : Type} `{ApiService S} (checklistId : string)
    (coords : Coords) (w : World TodayTasks.TodayState S) :
  exists rest,
    calls (snd (TodayTasks.handleStartChecklist (Details.GeoPosition coords) checklistId w))
    = calls w ++ CallStartChecklist checklistId (Some coords) :: rest.
Proof.
  unfold TodayTasks.handleStartChecklist, TodayTasks.fetchTodayTasks. step_handler.
  destruct (startChecklist checklistId (Some coords) (server w)) as [[u|e] s1]; simpl.
  - destruct (getTodayTasks s1) as [[d|e] s2]; simpl;
      rewrite <- app_assoc; eexists; reflexivity.
  - eexists. reflexivity.
Qed.

(** C6 (the code departs from the claim). The Start button of the checklist
    list page asks for no location: whatever the geolocation service could
    give, its handler forwards a start request without coordinates to the
    backend as its first action. *)
Theorem list_page_start_forwards_without_location {S : Type} `{ApiService S}
    (st : ChecklistsList.ListState) (checklistId : string)
    (w : World ChecklistsList.ListState S) :
  exists rest,
    calls (snd (ChecklistsList.handleStartChecklist st checklistId w))
    = calls w ++ CallStartChecklist checklistId None :: rest.
Proof.
  unfold ChecklistsList.handleStartChecklist, ChecklistsList.fetchChecklists. step_handler.
  destruct (startChecklist checklistId None (server w)) as [[u|e] s1]; simpl.
  - destruct (getChecklists _ s1) as [[d|e] s2]; simpl;
      rewrite <- app_assoc; eexists; reflexivity.
  - eexists. reflexivity.
Qed.

(** Against the backend of the specification the request is answered with
    [LocationUnavailable], after the fact. *)
Example list_page_start_reaches_backend :
  let st := ChecklistsList.mkList [] false None "all" in
  let c := SpecBackend.withStatus pending Scenario.checklistB in
  let w' := snd (run (ChecklistsList.handleStartChecklist (H := Scenario.backend) st "c1")
                     st c) in
  calls w' = [CallStartChecklist "c1" None]
  /\ ChecklistsList.lp_error (page w') = Some "LocationUnavailable".
Proof. vm_compute. split; reflexivity. Qed.

(** ** Who is offered which transition *)

Lemma roleIs_true (r : Role) (user : option User) :
  Details.roleIs r user = true <-> exists u, user = Some u /\ role u = r.
Proof.
  unfold Details.roleIs. destruct user as [u|].
  - rewrite bool_decide_eq_true. split; [eauto|]. intros (u' & [= <-] & Hr). exact Hr.
  - split; [discriminate|]. intros (u & [=] & _).
Qed.

(** On the details page the three buttons are tied to the role. *)
Lemma details_buttons_by_role (p : PageState) (user : option User) :
  (Details.startOffered p user = true ->
     Details.roleIs housekeeper user = true /\ Details.statusIs pending (checklist p) = true)
  /\ (Details.completeOffered p user = true ->
     Details.roleIs housekeeper user = true /\ Details.canComplete (checklist p) = true)
  /\ (Details.reviewOffered p user = true ->
     (Details.roleIs admin user = true \/ Details.roleIs property_owner user = true)
     /\ Details.statusIs completed_st (checklist p) = true).
Proof.
  unfold Details.startOffered, Details.completeOffered, Details.reviewOffered, Details.view.
  destruct (loading p); [repeat split; discriminate|].
  destruct (checklist p) as [c|].
  - split; [|split]; intros Hoff.
    + apply andb_prop in Hoff as [Hst Hrole]. split; assumption.
    + apply andb_prop in Hoff as [Hcan Hrole]. split; assumption.
    + apply andb_prop in Hoff as [Hst Hrole]. apply andb_prop in Hst as [Hst _].
      apply orb_prop in Hrole. split; assumption.
  - destruct (JS.or_str (error p) None); repeat split; discriminate.
Qed.

(** C9 (the code departs from the claim). The cards of the checklist list
    page offer Start and Complete on the status conditions alone: the role of
    the signed-in user is not consulted, so an admin is offered the Start of
    a pending checklist and the Complete of a finished one. *)
Theorem list_page_offers_start_to_any_role :
  (forall (user : option User) (c : Checklist),
     ChecklistsList.startOffered user c = Details.canStart (Some c)
     /\ ChecklistsList.completeOffered user c = Details.canComplete (Some c))
  /\ ChecklistsList.startOffered Scenario.anAdmin
       (SpecBackend.withStatus pending Scenario.checklistB) = true
  /\ ChecklistsList.completeOffered Scenario.anAdmin
       (Scenario.checklistDone in_progress None) = true
  /\ Details.startOffered
       (Scenario.loaded (SpecBackend.withStatus pending Scenario.checklistB))
       Scenario.anAdmin = false.
Proof.
  split; [|repeat split; vm_compute; reflexivity].
  intros user c. split; reflexivity.
Qed.

(** ** Reviewing a checklist *)

Lemma review_view_form_iff (st : Review.ReviewState) (c : Checklist) :
  Review.rp_checklist st = Some c ->
  Review.rp_loading st = false ->
  (exists title disabled, Review.view st = Review.ViewForm title disabled)
  <-> status c = completed_st.
Proof.
  intros Hc Hl. unfold Review.view. rewrite Hl, Hc.
  destruct (bool_decide (status c = completed_st)) eqn:Hs.
  - apply bool_decide_eq_true in Hs. split; [auto|]. intros _. eauto.
  - apply bool_decide_eq_false in Hs. split; [|contradiction].
    intros (t & d & [=]).
Qed.

(** While the status is [completed] the review page shows its form, and a
    valid rating is sent with the notes; when the checklist already carries
    a rating the form is titled "Update Review". For any other status the
    page shows the "not ready" view and a submission sends nothing. *)
Lemma review_only_from_completed {S : Type} `{ApiService S}
    (st : Review.ReviewState) (c : Checklist) (w : World Review.ReviewState S) :
  Review.rp_checklist st = Some c ->
  Review.rp_loading st = false ->
  ((exists title disabled, Review.view st = Review.ViewForm title disabled)
   <-> status c = completed_st)
  /\ (status c <> completed_st ->
        Review.view st = Review.ViewNotReady
        /\ Review.submitForm st w = (Returned tt, w))
  /\ (status c = completed_st ->
        Review.rp_submitting st = false ->
        Review.rp_selectedRating st <> 0 ->
        Review.reviewSchema (Review.rp_formRating st) = true ->
        Review.view st
        = Review.ViewForm (if Details.noRating c then "Submit Review" else "Update Review")
                          false
        /\ calls (snd (Review.submitForm st w))
           = calls w ++ [CallReviewChecklist (cl_id c)
                           (mkReviewData (Review.rp_formRating st) (Review.rp_formNotes st))]).
Proof.
  intros Hc Hl. split; [apply review_view_form_iff; assumption|]. split.
  - intros Hs. unfold Review.submitForm, Review.view. rewrite Hl, Hc.
    rewrite bool_decide_eq_false_2 by exact Hs. split; reflexivity.
  - intros Hs Hsub Hsel Hschema.
    assert (Review.view st
            = Review.ViewForm (if Details.noRating c then "Submit Review" else "Update Review")
                              false) as Hv.
    { unfold Review.view. rewrite Hl, Hc, Hsub.
      rewrite bool_decide_eq_true_2 by exact Hs.
      apply Z.eqb_neq in Hsel. rewrite Hsel. reflexivity. }
    split; [exact Hv|].
    unfold Review.submitForm. rewrite Hv, Hschema.
    unfold Review.onSubmit. rewrite Hc. step_handler.
    destruct (reviewChecklist _ _ (server w)) as [[u|e] s1]; reflexivity.
Qed.

(** C7 (the code departs from the claim). A checklist in status [reviewed]
    cannot be reviewed again from the client. Loading it on the review page
    populates the form with the stored rating and notes, as for an update;
    but the page then renders "Checklist is not ready for review" in place
    of the form, and a submission sends no request and changes nothing,
    whatever rating and notes the form holds. Neither the details page nor
    the list page offers the Review link for it. *)
Theorem review_of_reviewed_not_accepted {S : Type} `{ApiService S} (checklistId : string)
    (p : Review.ReviewState) (s s1 : S) (data : Checklist) :
  getChecklist checklistId s = (Returned data, s1) ->
  status data = reviewed ->
  let st := page (snd (run (Review.fetchChecklist checklistId) p s)) in
  Review.rp_checklist st = Some data
  /\ (forall r : Z, rating data = Some r -> r <> 0 ->
        Review.rp_selectedRating st = r
        /\ Review.rp_formRating st = Some r
        /\ Review.rp_formNotes st = Some (default "" (JS.or_str (cl_notes data) None)))
  /\ Review.view st = Review.ViewNotReady
  /\ (forall w : World Review.ReviewState S, Review.submitForm st w = (Returned tt, w))
  /\ (forall (k : Z) (notes : option string) (w : World Review.ReviewState S),
        Review.submitForm (Review.setFormNotes notes (Review.handleRatingClick k st)) w
        = (Returned tt, w))
  /\ (forall (dp : PageState) (user : option User),
        checklist dp = Some data -> Details.reviewOffered dp user = false)
  /\ (forall user : option User, ChecklistsList.reviewOffered user data = false).
Proof.
  intros Hg Hst st.
  assert (bool_decide (status data = completed_st) = false) as Hnc.
  { apply bool_decide_eq_false_2. rewrite Hst. discriminate. }
  assert (Review.rp_checklist st = Some data /\ Review.rp_loading st = false) as [Hc Hl].
  { subst st. unfold Review.fetchChecklist. step_handler. rewrite Hg. simpl.
    destruct (Details.noRating data); simpl; split; reflexivity. }
  assert (forall st' : Review.ReviewState,
            Review.rp_checklist st' = Some data -> Review.rp_loading st' = false ->
            Review.view st' = Review.ViewNotReady) as Hview.
  { intros st' Hc' Hl'. unfold Review.view. rewrite Hl', Hc', Hnc. reflexivity. }
  split; [exact Hc|]. split.
  - intros r Hr Hr0.
    assert (Details.noRating data = false) as Hno.
    { unfold Details.noRating. rewrite Hr. apply Z.eqb_neq, Hr0. }
    subst st. unfold Review.fetchChecklist. step_handler. rewrite Hg. simpl.
    rewrite Hno. simpl. rewrite Hr. simpl. repeat split.
  - split; [apply Hview; assumption|].
    split; [intros w; unfold Review.submitForm; rewrite (Hview st Hc Hl); reflexivity|].
    split.
    + intros k notes w. unfold Review.submitForm.
      rewrite (Hview (Review.setFormNotes notes (Review.handleRatingClick k st)) Hc Hl).
      reflexivity.
    + split.
      * intros dp user Hdp. unfold Details.reviewOffered, Details.view. rewrite Hdp.
        destruct (loading dp); [reflexivity|]. rewrite Hnc. reflexivity.
      * intros user. unfold ChecklistsList.reviewOffered. rewrite Hnc. reflexivity.
Qed.

Lemma review_of_reviewed_not_accepted_witness :
  Review.rp_checklist (Scenario.reviewLoaded (Scenario.checklistDone reviewed (Some 4)))
  = Some (Scenario.checklistDone reviewed (Some 4))
  /\ (forall r : Z, rating (Scenario.checklistDone reviewed (Some 4)) = Some r -> r <> 0 ->
        Review.rp_selectedRating
          (Scenario.reviewLoaded (Scenario.checklistDone reviewed (Some 4))) = r
        /\ Review.rp_formRating
             (Scenario.reviewLoaded (Scenario.checklistDone reviewed (Some 4))) = Some r
        /\ Review.rp_formNotes
             (Scenario.reviewLoaded (Scenario.checklistDone reviewed (Some 4)))
           = Some (default ""
                     (JS.or_str (cl_notes (Scenario.checklistDone reviewed (Some 4))) None)))
  /\ Review.view (Scenario.reviewLoaded (Scenario.checklistDone reviewed (Some 4)))
     = Review.ViewNotReady
  /\ (forall w : World Review.ReviewState Checklist,
        Review.submitForm (H := Scenario.backend)
          (Scenario.reviewLoaded (Scenario.checklistDone reviewed (Some 4))) w
        = (Returned tt, w))
  /\ (forall (k : Z) (notes : option string) (w : World Review.ReviewState Checklist),
        Review.submitForm (H := Scenario.backend)
          (Review.setFormNotes notes
             (Review.handleRatingClick k
                (Scenario.reviewLoaded (Scenario.checklistDone reviewed (Some 4))))) w
        = (Returned tt, w))
  /\ (forall (dp : PageState) (user : option User),
        checklist dp = Some (Scenario.checklistDone reviewed (Some 4)) ->
        Details.reviewOffered dp user = false)
  /\ (forall user : option User,
        ChecklistsList.reviewOffered user (Scenario.checklistDone reviewed (Some 4)) = false).
Proof.
  apply (review_of_reviewed_not_accepted (H := Scenario.backend) "c1" Scenario.reviewInitial
           (Scenario.checklistDone reviewed (Some 4))
           (Scenario.checklistDone reviewed (Some 4))
           (Scenario.checklistDone reviewed (Some 4))).
  - reflexivity.
  - reflexivity.
Defined.

(** On the checklist of the example the stored rating 4 is in the form, the
    page shows no form, and pressing submit changes nothing. *)
Example review_of_reviewed_example :
  Review.rp_formRating (Scenario.reviewLoaded (Scenario.checklistDone reviewed (Some 4)))
  = Some 4
  /\ Review.rp_selectedRating
       (Scenario.reviewLoaded (Scenario.checklistDone reviewed (Some 4))) = 4
  /\ Review.view (Scenario.reviewLoaded (Scenario.checklistDone reviewed (Some 4)))
     = Review.ViewNotReady
  /\ run (Review.submitForm (H := Scenario.backend)
            (Scenario.reviewLoaded (Scenario.checklistDone reviewed (Some 4))))
         (Scenario.reviewLoaded (Scenario.checklistDone reviewed (Some 4)))
         (Scenario.checklistDone reviewed (Some 4))
     = (Returned tt,
        mkWorld (Scenario.reviewLoaded (Scenario.checklistDone reviewed (Some 4)))
                (Scenario.checklistDone reviewed (Some 4)) []).
Proof. vm_compute. repeat split. Qed.

(** A rated checklist that is still [completed] can have its review
    updated: the stored rating 3 is overwritten by 5. *)
Example review_update_while_completed :
  let c := Scenario.checklistDone completed_st (Some 3) in
  let st := Review.handleRatingClick 5 (Scenario.reviewLoaded c) in
  Review.view st = Review.ViewForm "Update Review" false
  /\ rating (server (snd (run (Review.submitForm (H := Scenario.backend) st) st c)))
     = Some 5.
Proof. vm_compute. split; reflexivity. Qed.

(** ** Entering the required photo count *)

Example parseInt_examples :
  Requirements.parseInt "7" = Int 7
  /\ Requirements.parseInt "12" = Int 12
  /\ Requirements.parseInt "007" = Int 7
  /\ Requirements.parseInt " 5x" = Int 5
  /\ Requirements.parseInt "-3" = Int (-3)
  /\ Requirements.parseInt "x" = NaN.
Proof. repeat split. Qed.

(** The dialog keeps a typed count within 1..10, or no count. *)
Lemma dialogCount_range (raw : string) (n : Z) :
  Requirements.dialogCountOnChange raw = Some n -> 1 <= n <= 10.
Proof.
  unfold Requirements.dialogCountOnChange.
  destruct (String.eqb raw ""); [discriminate|].
  destruct (Requirements.parseInt raw) as [|z]; simpl; [discriminate|].
  intros [= <-]. lia.
Qed.

Lemma dialogTypeCount_range (raw : string) (d : Requirements.DialogState) (n : Z) :
  Requirements.dialogCountDisabled d = false ->
  Requirements.photosRequiredCount (Requirements.dialogTypeCount raw d) = Some n ->
  1 <= n <= 10.
Proof.
  unfold Requirements.dialogTypeCount. intros ->. simpl. apply dialogCount_range.
Qed.

(** What the dialog saves after a count was typed is 0 (no count) or within
    1..10. *)
Lemma dialogSaved_range (raw : string) (d : Requirements.DialogState) :
  Requirements.dialogCountDisabled d = false ->
  let k := snd (Requirements.dialogSaved (Requirements.dialogTypeCount raw d)) in
  k = 0 \/ 1 <= k <= 10.
Proof.
  intros Hd. unfold Requirements.dialogSaved. simpl.
  destruct (Requirements.photosRequiredCount (Requirements.dialogTypeCount raw d))
    as [n|] eqn:Hn; simpl.
  - right. eapply dialogTypeCount_range; eauto.
  - left. reflexivity.
Qed.

(** The card keeps a typed count within 0..10. *)
Lemma cardCount_range (raw : string) (n : Z) :
  Requirements.cardCount raw = Int n -> 0 <= n <= 10.
Proof.
  unfold Requirements.cardCount.
  destruct (Requirements.parseInt raw) as [|z]; simpl; [discriminate|].
  intros [= <-]. lia.
Qed.

(** C8 (the code departs from the claim). The count input of the room
    selection card clamps to 0..10, not to 1..10: typing 0 sends the count 0
    to the backend and stores it on the pivot, where the dialog would have
    stored 1. *)
Theorem card_count_input_accepts_zero :
  Requirements.cardCount "0" = Int 0
  /\ Requirements.dialogCountOnChange "0" = Some 1
  /\ run (Requirements.cardCountOnChange (H := Scenario.backend) Scenario.bathB "0")
         Scenario.bathB Scenario.checklistB
     = (Returned tt,
        mkWorld (mkRoom "bath" "Bath" (Some (mkPivot (Some "p1") (Some true) (Some 0))))
                Scenario.checklistB
                [CallUpdateRoomRequirements (Some "p1") "bath" true (Int 0)]).
Proof. repeat split. Qed.

(** A stored count of 0, like an absent count, asks for no photo. *)
Lemma count_zero_is_no_requirement (r : Room) (its : list ChecklistItem) :
  pivotCount (Some r) = Some 0 \/ pivotCount (Some r) = None ->
  currentRoomOf [r] its = Some r
  /\ required (fetchProgress [r] its) = 0.
Proof.
  intros Hc.
  assert (currentRoomOf [r] its = Some r) as Hcur.
  { unfold currentRoomOf, firstPending. simpl.
    destruct (JS.some (pendingIn r) its); reflexivity. }
  split; [exact Hcur|].
  rewrite (fetchProgress_of_current _ _ _ Hcur). simpl.
  apply requiredOf_zero_or_absent. tauto.
Qed.

(** * Further properties of the pages *)

(** ** The pointer and the task list *)

Lemma firstPending_items_order (rs : list Room) (its its' : list ChecklistItem) :
  Permutation its its' -> firstPending rs its = firstPending rs its'.
Proof.
  intros HP. unfold firstPending.
  induction rs as [|a rs IH]; simpl; [reflexivity|].
  assert (JS.some (pendingIn a) its = JS.some (pendingIn a) its') as ->.
  { apply eq_true_iff_eq. rewrite !some_pendingIn_iff. unfold incomplete.
    split; intros (it & Hin & Hit); exists it; split; try exact Hit.
    - eapply Permutation_in; eauto.
    - eapply Permutation_in; [symmetry|]; eauto. }
  rewrite IH. reflexivity.
Qed.

Lemma roomPhotos_length_order (id : string) (its its' : list ChecklistItem) :
  Permutation its its' -> length (roomPhotos id its) = length (roomPhotos id its').
Proof.
  unfold roomPhotos, JS.flatMap.
  induction 1 as [|x l l' HP IH|x y l|l l' l'' HP1 IH1 HP2 IH2]; simpl.
  - reflexivity.
  - destruct (String.eqb (room_id x) id); simpl; rewrite ?length_app, IH; reflexivity.
  - destruct (String.eqb (room_id x) id), (String.eqb (room_id y) id); simpl;
      rewrite ?length_app; lia.
  - congruence.
Qed.

(** X1. Neither the pointer nor the photo progress of the current room
    depends on the order in which the backend lists the items. *)
Theorem current_room_ignores_item_order (rs : list Room) (its its' : list ChecklistItem) :
  Permutation its its' ->
  currentRoomIdOf rs its = currentRoomIdOf rs its'
  /\ currentRoomOf rs its = currentRoomOf rs its'
  /\ fetchProgress rs its = fetchProgress rs its'
  /\ submitProgress rs its = submitProgress rs its'.
Proof.
  intros HP.
  assert (currentRoomIdOf rs its = currentRoomIdOf rs its') as Hid
    by (unfold currentRoomIdOf; rewrite (firstPending_items_order rs its its' HP);
        reflexivity).
  assert (currentRoomOf rs its = currentRoomOf rs its') as Hroom
    by (unfold currentRoomOf; rewrite (firstPending_items_order rs its its' HP);
        reflexivity).
  split; [exact Hid|]. split; [exact Hroom|]. split.
  - unfold fetchProgress. rewrite Hroom.
    destruct (currentRoomOf rs its') as [r|]; [|reflexivity].
    rewrite (roomPhotos_length_order (r_id r) its its' HP). reflexivity.
  - unfold submitProgress. rewrite Hid.
    destruct (currentRoomIdOf rs its') as [cur|]; [|reflexivity].
    rewrite (roomPhotos_length_order cur its its' HP). reflexivity.
Qed.

Lemma current_room_ignores_item_order_witness :
  currentRoomIdOf [kitchen; bath] scenarioA_items
  = currentRoomIdOf [kitchen; bath] (rev scenarioA_items)
  /\ currentRoomOf [kitchen; bath] scenarioA_items
     = currentRoomOf [kitchen; bath] (rev scenarioA_items)
  /\ fetchProgress [kitchen; bath] scenarioA_items
     = fetchProgress [kitchen; bath] (rev scenarioA_items)
  /\ submitProgress [kitchen; bath] scenarioA_items
     = submitProgress [kitchen; bath] (rev scenarioA_items).
Proof.
  apply (current_room_ignores_item_order [kitchen; bath] scenarioA_items
           (rev scenarioA_items)).
  apply Permutation_rev.
Defined.

Lemma currentRoomIdOf_inv (rs : list Room) (its : list ChecklistItem) (cur : string) :
  currentRoomIdOf rs its = Some cur ->
  cur <> "" /\ exists r, In r rs /\ r_id r = cur.
Proof.
  unfold currentRoomIdOf, JS.or_str, JS.truthy.
  destruct (firstPending rs its) as [r|] eqn:Hf; simpl.
  - destruct (String.eqb (r_id r) "") eqn:Er; simpl.
    + destruct rs as [|a rs]; simpl; [discriminate|].
      destruct (String.eqb (r_id a) "") eqn:Ea; simpl; [discriminate|].
      intros [= <-]. apply String.eqb_neq in Ea. split; [exact Ea|].
      exists a. split; [left|]; reflexivity.
    + intros [= <-]. apply String.eqb_neq in Er. split; [exact Er|].
      exists r. split; [|reflexivity].
      unfold firstPending in Hf. apply find_some in Hf. tauto.
  - destruct rs as [|a rs]; simpl; [discriminate|].
    destruct (String.eqb (r_id a) "") eqn:Ea; simpl; [discriminate|].
    intros [= <-]. apply String.eqb_neq in Ea. split; [exact Ea|].
    exists a. split; [left|]; reflexivity.
Qed.

(** X2. The pointer is never the empty string and always names a room of
    the list it was computed from; when the rooms carry non-empty
    identifiers it is [null] only for an empty room list. *)
Theorem currentRoomId_names_a_room (rs : list Room) (its : list ChecklistItem) :
  (forall cur, currentRoomIdOf rs its = Some cur ->
     cur <> "" /\ exists r, In r rs /\ r_id r = cur)
  /\ (Forall (fun r => r_id r <> "") rs ->
      (currentRoomIdOf rs its = None <-> rs = [])).
Proof.
  split; [intros cur; apply currentRoomIdOf_inv|].
  intros Hids. rewrite (currentRoomIdOf_currentRoomOf _ _ Hids).
  unfold currentRoomOf. destruct (firstPending rs its) as [r|] eqn:Hf; simpl.
  - split; [discriminate|]. intros ->. discriminate.
  - destruct rs; simpl; split; intros; congruence.
Qed.

(** X3. With distinct, non-empty room identifiers, a successful submission
    leaves the pointer, the photo progress and the checklist of the page
    exactly as loading the refreshed checklist would. *)
Theorem submit_refreshes_like_a_reload {S : Type} `{ApiService S} (checklistId : string)
    (p : PageState) (cl : Checklist) (it : ChecklistItem) (s s1 s2 : S)
    (u : unit) (data : Checklist) :
  Forall (fun r => r_id r <> "") (orderedRooms data) ->
  List.NoDup (map r_id (orderedRooms data)) ->
  checklist p = Some cl ->
  completed it = false ->
  updateChecklistItem (cl_id cl) (it_id it)
    (mkItemUpdate true (default "" (itemNotesMap p !! it_id it))
                       (default [] (selectedPhotosMap p !! it_id it))) s
  = (Returned u, s1) ->
  getChecklist checklistId s1 = (Returned data, s2) ->
  let submitted := page (snd (run (Details.handleSubmit checklistId p it) p s)) in
  let reloaded := page (snd (run (Details.fetchChecklist checklistId) p s1)) in
  checklist submitted = checklist reloaded
  /\ currentRoomId submitted = currentRoomId reloaded
  /\ roomPhotoProgress submitted = roomPhotoProgress reloaded.
Proof.
  intros Hids Hnd Hcl Hopen Hu Hg submitted reloaded.
  destruct (handleSubmit_recomputes_room checklistId p cl it s s1 s2 u data
              Hcl Hopen Hu Hg) as (Hc1 & Hp1).
  destruct (fetchChecklist_loaded checklistId p s1 s2 data Hg) as (Hd2 & Hc2 & Hp2 & _).
  fold submitted in Hc1, Hp1. fold reloaded in Hd2, Hc2, Hp2.
  split; [|split].
  - rewrite Hd2. subst submitted. unfold Details.handleSubmit. rewrite Hcl, Hopen.
    step_handler. rewrite Hu. simpl. rewrite Hg. reflexivity.
  - congruence.
  - rewrite Hp1, Hp2. apply submitProgress_fetchProgress; assumption.
Qed.

Lemma submit_refreshes_like_a_reload_witness :
  let p := Scenario.pageB ["a.jpg"; "b.jpg"] in
  let after := mkChecklist "c1" in_progress None None
                 (Some (mkProperty (Some [Scenario.bathB])))
                 (Some [mkItem "i1" "bath" true (Some "")
                          (Some [mkPhoto "a.jpg" ""; mkPhoto "b.jpg" ""]) (Some "Mirror");
                        Scenario.floor]) in
  let submitted := page (snd (run (Details.handleSubmit (H := Scenario.backend) "c1" p
                                     Scenario.mirror) p Scenario.checklistB)) in
  let reloaded := page (snd (run (Details.fetchChecklist (H := Scenario.backend) "c1")
                                 p after)) in
  checklist submitted = checklist reloaded
  /\ currentRoomId submitted = currentRoomId reloaded
  /\ roomPhotoProgress submitted = roomPhotoProgress reloaded.
Proof.
  intros p after.
  apply (submit_refreshes_like_a_reload (H := Scenario.backend) "c1" p Scenario.checklistB
           Scenario.mirror Scenario.checklistB after after tt after).
  - repeat constructor. discriminate.
  - repeat constructor. intros [].
  - reflexivity.
  - reflexivity.
  - vm_compute. reflexivity.
  - reflexivity.
Defined.

Lemma itemListed_iff (p : PageState) (cur : string) (it : ChecklistItem) :
  currentRoomId p = Some cur -> cur <> "" ->
  Details.itemListed p it = true <-> room_id it = cur.
Proof.
  intros Hc Hne. unfold Details.itemListed. rewrite Hc. simpl.
  rewrite (truthy_nonempty _ Hne). apply String.eqb_eq.
Qed.

(** X4. When the property has rooms, an item whose room is none of them is
    never listed on the details page, so no form can submit it; while it is
    open the checklist cannot be completed from the page. *)
Theorem orphan_item_never_listed (data : Checklist) (p : PageState) (user : option User)
    (it : ChecklistItem) :
  orderedRooms data <> [] ->
  Forall (fun r => r_id r <> "") (orderedRooms data) ->
  (forall r, In r (orderedRooms data) -> r_id r <> room_id it) ->
  currentRoomId p = currentRoomIdOf (orderedRooms data) (itemsOf data) ->
  Details.itemListed p it = false
  /\ Details.updateFormShown p user it = false
  /\ (In it (itemsOf data) -> completed it = false ->
      Details.canComplete (Some data) = false).
Proof.
  intros Hne Hids Horphan Hcur.
  assert (Details.itemListed p it = false) as Hl.
  { destruct (currentRoomIdOf (orderedRooms data) (itemsOf data)) as [cur|] eqn:Hc.
    - destruct (currentRoomIdOf_inv _ _ _ Hc) as (Hn & r & Hin & Hr).
      apply not_true_is_false. rewrite (itemListed_iff p cur it Hcur Hn).
      intros E. apply (Horphan r Hin). congruence.
    - exfalso. rewrite (currentRoomIdOf_currentRoomOf _ _ Hids) in Hc.
      unfold currentRoomOf in Hc.
      destruct (firstPending (orderedRooms data) (itemsOf data)); [discriminate|].
      destruct (orderedRooms data); [congruence|discriminate]. }
  split; [exact Hl|]. split.
  - unfold Details.updateFormShown. rewrite Hl. destruct (Details.view p); reflexivity.
  - intros Hin Hopen. apply not_true_is_false. rewrite canComplete_iff.
    intros [_ HF]. rewrite Forall_forall in HF.
    apply list_elem_of_In in Hin. specialize (HF it Hin). congruence.
Qed.

Lemma orphan_item_never_listed_witness :
  let it := mkItem "i9" "attic" false None None None in
  Details.itemListed (Scenario.loaded Scenario.checklistB) it = false
  /\ Details.updateFormShown (Scenario.loaded Scenario.checklistB) Scenario.aHousekeeper it
     = false
  /\ (In it (itemsOf Scenario.checklistB) -> completed it = false ->
      Details.canComplete (Some Scenario.checklistB) = false).
Proof.
  apply (orphan_item_never_listed Scenario.checklistB (Scenario.loaded Scenario.checklistB)
           Scenario.aHousekeeper (mkItem "i9" "attic" false None None None)).
  - discriminate.
  - repeat constructor. discriminate.
  - intros r [<-|[]]. discriminate.
  - vm_compute. reflexivity.
Defined.

(** ** Staging photos *)

Lemma stagedCount_handlePhotoChange (preview : File -> string) (files : list File)
    (it : ChecklistItem) (p : PageState) :
  Details.stagedCount (Details.handlePhotoChange preview files (it_id it) p) it
  = Details.stagedCount p it + Z.of_nat (length files).
Proof.
  unfold Details.stagedCount, Details.handlePhotoChange. simpl.
  rewrite lookup_insert_eq. simpl. rewrite length_app. lia.
Qed.

(** X5. Choosing files stages exactly those files for the item, after the
    ones staged before; the photos staged for other items and the room
    progress are untouched, and a submit button the photo gate had enabled
    stays enabled. *)
Theorem staging_photos_only_adds (preview : File -> string) (files : list File)
    (it : ChecklistItem) (p : PageState) :
  let p' := Details.handlePhotoChange preview files (it_id it) p in
  selectedPhotosMap p' !! it_id it
  = Some (default [] (selectedPhotosMap p !! it_id it) ++ files)
  /\ (forall other, other <> it_id it ->
        selectedPhotosMap p' !! other = selectedPhotosMap p !! other
        /\ photoPreviewsMap p' !! other = photoPreviewsMap p !! other)
  /\ roomPhotoProgress p' = roomPhotoProgress p
  /\ (Details.photoGateBlocks p it = false -> Details.photoGateBlocks p' it = false).
Proof.
  intros p'. split; [|split; [|split]].
  - subst p'. unfold Details.handlePhotoChange. simpl. apply lookup_insert_eq.
  - intros other Hne. subst p'. unfold Details.handlePhotoChange. simpl.
    rewrite !lookup_insert_ne by congruence. split; reflexivity.
  - reflexivity.
  - intros Hfree.
    pose proof (stagedCount_handlePhotoChange preview files it p) as Hs.
    fold p' in Hs. unfold Details.photoGateBlocks in *.
    replace (roomPhotoProgress p') with (roomPhotoProgress p) by reflexivity.
    rewrite Hs. apply andb_false_iff in Hfree. apply andb_false_iff.
    destruct Hfree as [H0|H1]; [left; exact H0|right].
    apply Z.ltb_ge in H1. apply Z.ltb_ge. lia.
Qed.

Lemma filterIndexed_skip {A : Type} (ys : list A) (b k : nat) :
  (k < b)%nat ->
  StagedPhotos.filterIndexed (fun i => negb (Nat.eqb i k)) b ys = ys.
Proof.
  revert b. induction ys as [|y ys IH]; intros b Hlt; simpl; [reflexivity|].
  replace (Nat.eqb b k) with false by (symmetry; apply Nat.eqb_neq; lia).
  simpl. rewrite IH by lia. reflexivity.
Qed.

(** Filtering out one index is deleting the element at that index. *)
Lemma withoutIndex_from {A : Type} (xs : list A) (index base : nat) :
  StagedPhotos.filterIndexed (fun i => negb (Nat.eqb i (base + index))) base xs
  = delete index xs.
Proof.
  revert index base. induction xs as [|x xs IH]; intros index base; simpl.
  - destruct index; reflexivity.
  - destruct index as [|index]; simpl.
    + rewrite Nat.add_0_r, Nat.eqb_refl. simpl. apply filterIndexed_skip. lia.
    + replace (Nat.eqb base (base + S index)) with false
        by (symmetry; apply Nat.eqb_neq; lia).
      simpl. f_equal. replace (base + S index)%nat with (S base + index)%nat by lia.
      apply IH.
Qed.

Lemma withoutIndex_delete {A : Type} (index : nat) (entry : option (list A)) :
  StagedPhotos.withoutIndex index entry = delete index (default [] entry).
Proof.
  destruct entry as [xs|]; simpl.
  - apply (withoutIndex_from xs index 0).
  - destruct index; reflexivity.
Qed.

(** X6. The remove button of a preview takes exactly the photo at that
    position out of the staged photos of the item, and the preview at the
    same position out of its previews; positions past the end change
    nothing, and the entries of the other items are untouched. *)
Theorem remove_staged_photo_at_index (itemId : string) (index : nat) (p : PageState) :
  let p' := StagedPhotos.removeStagedPhoto itemId index p in
  selectedPhotosMap p' !! itemId
  = Some (delete index (default [] (selectedPhotosMap p !! itemId)))
  /\ photoPreviewsMap p' !! itemId
     = Some (delete index (default [] (photoPreviewsMap p !! itemId)))
  /\ (forall other, other <> itemId ->
        selectedPhotosMap p' !! other = selectedPhotosMap p !! other
        /\ photoPreviewsMap p' !! other = photoPreviewsMap p !! other)
  /\ ((index < length (default [] (selectedPhotosMap p !! itemId)))%nat ->
        S (length (default [] (selectedPhotosMap p' !! itemId)))
        = length (default [] (selectedPhotosMap p !! itemId)))
  /\ ((length (default [] (selectedPhotosMap p !! itemId)) <= index)%nat ->
        default [] (selectedPhotosMap p' !! itemId)
        = default [] (selectedPhotosMap p !! itemId)).
Proof.
  intros p'. subst p'. unfold StagedPhotos.removeStagedPhoto. simpl.
  rewrite !lookup_insert_eq, !withoutIndex_delete.
  split; [reflexivity|]. split; [reflexivity|]. split; [|split].
  - intros other Hne. rewrite !lookup_insert_ne by congruence. split; reflexivity.
  - intros Hlt. simpl. rewrite length_delete; [lia|].
    apply lookup_lt_is_Some. exact Hlt.
  - intros Hge. simpl. rewrite delete_take_drop.
    rewrite take_ge by lia. rewrite drop_ge by lia. apply app_nil_r.
Qed.

(** Staging two photos and removing the first leaves the second. *)
Example stage_then_remove :
  selectedPhotosMap
    (StagedPhotos.removeStagedPhoto "i1" 0 (Scenario.pageB ["a.jpg"; "b.jpg"])) !! "i1"
  = Some ["b.jpg"]
  /\ Details.submitDisabled
       (StagedPhotos.removeStagedPhoto "i1" 0 (Scenario.pageB ["a.jpg"; "b.jpg"]))
       Scenario.mirror = true.
Proof. vm_compute. split; reflexivity. Qed.

(** ** Submitting, starting and loading on the details page *)

(** X7. A submission sends, as its first call, the update of that item with
    [completed: true], the draft notes and the staged photos of the item;
    whatever the backend answers, the staged photos, previews and notes of
    every other item are left as they were. *)
Theorem submit_sends_staged_and_spares_others {S : Type} `{ApiService S}
    (checklistId : string) (p : PageState) (cl : Checklist) (it : ChecklistItem) (s : S) :
  checklist p = Some cl ->
  completed it = false ->
  let w' := snd (run (Details.handleSubmit checklistId p it) p s) in
  (exists rest,
     calls w'
     = CallUpdateChecklistItem (cl_id cl) (it_id it)
         (mkItemUpdate true (default "" (itemNotesMap p !! it_id it))
                            (default [] (selectedPhotosMap p !! it_id it))) :: rest)
  /\ (forall other, other <> it_id it ->
        selectedPhotosMap (page w') !! other = selectedPhotosMap p !! other
        /\ photoPreviewsMap (page w') !! other = photoPreviewsMap p !! other
        /\ itemNotesMap (page w') !! other = itemNotesMap p !! other).
Proof.
  intros Hcl Hopen w'. subst w'. unfold Details.handleSubmit. rewrite Hcl, Hopen.
  step_handler.
  destruct (updateChecklistItem _ _ _ s) as [[u|e] s1]; simpl.
  - destruct (getChecklist checklistId s1) as [[d|e] s2]; simpl.
    + split; [eexists; reflexivity|]. intros other Hne.
      rewrite !lookup_insert_ne by congruence. repeat split.
    + split; [eexists; reflexivity|]. intros other Hne. repeat split.
  - split; [eexists; reflexivity|]. intros other Hne. repeat split.
Qed.

Lemma submit_sends_staged_and_spares_others_witness :
  let p := Details.handlePhotoChange (fun f => f) ["c.jpg"] "i2"
             (Scenario.pageB ["a.jpg"; "b.jpg"]) in
  let w' := snd (run (Details.handleSubmit (H := Scenario.backend) "c1" p Scenario.mirror)
                     p Scenario.checklistB) in
  (exists rest,
     calls w'
     = CallUpdateChecklistItem "c1" "i1"
         (mkItemUpdate true (default "" (itemNotesMap p !! "i1"))
                            (default [] (selectedPhotosMap p !! "i1"))) :: rest)
  /\ (forall other, other <> "i1" ->
        selectedPhotosMap (page w') !! other = selectedPhotosMap p !! other
        /\ photoPreviewsMap (page w') !! other = photoPreviewsMap p !! other
        /\ itemNotesMap (page w') !! other = itemNotesMap p !! other).
Proof.
  intros p w'.
  apply (submit_sends_staged_and_spares_others (H := Scenario.backend) "c1"
           (Details.handlePhotoChange (fun f => f) ["c.jpg"] "i2"
              (Scenario.pageB ["a.jpg"; "b.jpg"]))
           Scenario.checklistB Scenario.mirror Scenario.checklistB).
  - reflexivity.
  - reflexivity.
Defined.

Lemma append_nil_r (s : string) : s +:+ "" = s.
Proof.
  induction s as [|c s IH]; [reflexivity|].
  change (String c (s +:+ "") = String c s). f_equal. exact IH.
Qed.

(** X8. A start the backend refuses leaves the checklist of the page as it
    was and asks for no refresh: the only effect is the error message, which
    is the message of the error followed, when the refusal carries a
    distance, by the distance and the allowed radius. *)
Theorem refused_start_shows_diagnostics {S : Type} `{ApiService S}
    (checklistId : string) (p : PageState) (cl : Checklist) (coords : Coords)
    (s s1 : S) (e : Http.RequestError Checklist) :
  checklist p = Some cl ->
  startChecklist (cl_id cl) (Some coords) s = (Thrown (Http.toApiError e), s1) ->
  Http.e_message e <> "" ->
  let w' := snd (run (Details.handleStartChecklist checklistId p (Details.GeoPosition coords))
                     p s) in
  calls w' = [CallStartChecklist (cl_id cl) (Some coords)]
  /\ checklist (page w') = Some cl
  /\ (forall bd d a,
        Http.e_data e = Some bd -> Http.b_distance_meters bd = Some d ->
        Http.b_allowed_meters bd = Some a ->
        error (page w')
        = Some (Http.e_message e +:+ " (You are ~" +:+ Z_to_string d
                +:+ "m away; allowed " +:+ Z_to_string a +:+ "m)"))
  /\ ((Http.e_data e = None
       \/ exists bd, Http.e_data e = Some bd /\ Http.b_distance_meters bd = None) ->
      error (page w') = Some (Http.e_message e)).
Proof.
  intros Hcl Hstart Hmsg w'. subst w'.
  unfold Details.handleStartChecklist. rewrite Hcl. step_handler. rewrite Hstart. simpl.
  rewrite (truthy_nonempty _ Hmsg). simpl.
  split; [reflexivity|]. split; [exact Hcl|]. split.
  - intros bd d a Hd Hdist Hall. unfold Details.startErrorExtra. simpl.
    rewrite Hd. simpl. rewrite Hdist, Hall. reflexivity.
  - intros [Hd | (bd & Hd & Hdist)]; unfold Details.startErrorExtra; simpl; rewrite Hd; simpl.
    + rewrite append_nil_r. reflexivity.
    + rewrite Hdist, append_nil_r. reflexivity.
Qed.

(** Scenario C of the specification: the checklist stays pending and the
    error carries both numbers. *)
Lemma refused_start_shows_diagnostics_witness :
  let p := Scenario.loaded Scenario2.pendingB in
  let w' := snd (run (Details.handleStartChecklist (H := Scenario2.farBackend) "c1" p
                        (Details.GeoPosition Scenario2.here)) p Scenario2.pendingB) in
  calls w' = [CallStartChecklist "c1" (Some Scenario2.here)]
  /\ checklist (page w') = Some Scenario2.pendingB
  /\ error (page w') = Some "OutOfRange (You are ~120m away; allowed 50m)".
Proof.
  intros p w'.
  destruct (refused_start_shows_diagnostics (H := Scenario2.farBackend) "c1"
              (Scenario.loaded Scenario2.pendingB) Scenario2.pendingB Scenario2.here
              Scenario2.pendingB Scenario2.pendingB Scenario2.outOfRange)
    as (Hcalls & Hcl & Herr & _).
  - reflexivity.
  - reflexivity.
  - discriminate.
  - split; [exact Hcalls|]. split; [exact Hcl|].
    apply (Herr (Http.mkBody (Some "OutOfRange") None (Some 120) (Some 50)) 120 50);
      reflexivity.
Defined.

(** X9. On the details page and on the today-tasks page a start without a
    location fix (no geolocation service, permission denied, timeout) stops
    at the location error: no call is issued, the backend is not reached and
    nothing else on the page changes. With a fix, the first call is the
    start request carrying exactly the coordinates obtained. *)
Theorem guarded_start_needs_a_fix {S : Type} `{ApiService S} (checklistId : string)
    (p : PageState) (cl : Checklist) (nav : Details.Geolocation)
    (w : World PageState S) (wt : World TodayTasks.TodayState S) :
  checklist p = Some cl ->
  (noFix nav ->
     Details.handleStartChecklist checklistId p nav w
     = (Returned tt,
        mkWorld (setError (locationError "this" nav) (page w)) (server w) (calls w))
     /\ TodayTasks.handleStartChecklist nav checklistId wt
        = (Returned tt,
           mkWorld (TodayTasks.setError (locationError "a" nav) (page wt))
                   (server wt) (calls wt)))
  /\ (forall coords, nav = Details.GeoPosition coords ->
        (exists rest,
           calls (snd (Details.handleStartChecklist checklistId p nav w))
           = calls w ++ CallStartChecklist (cl_id cl) (Some coords) :: rest)
        /\ (exists rest,
              calls (snd (TodayTasks.handleStartChecklist nav checklistId wt))
              = calls wt ++ CallStartChecklist checklistId (Some coords) :: rest)).
Proof.
  intros Hcl. split.
  - intros Hnav. split.
    + apply (details_start_without_fix checklistId p cl nav w Hcl Hnav).
    + apply today_start_without_fix; assumption.
  - intros coords ->. split.
    + apply (details_start_with_fix checklistId p cl coords w Hcl).
    + apply today_start_with_fix.
Qed.

Lemma guarded_start_needs_a_fix_witness :
  let p := Scenario.loaded Scenario2.pendingB in
  let w := mkWorld p Scenario2.pendingB [] in
  let wt := mkWorld Scenario2.todayInitial Scenario2.pendingB [] in
  Details.handleStartChecklist (H := Scenario.backend) "c1" p Details.GeoFailed w
  = (Returned tt, mkWorld (setError (locationError "this" Details.GeoFailed) p)
                          Scenario2.pendingB [])
  /\ TodayTasks.handleStartChecklist (H := Scenario.backend) Details.GeoFailed "c1" wt
     = (Returned tt,
        mkWorld (TodayTasks.setError (locationError "a" Details.GeoFailed)
                   Scenario2.todayInitial)
                Scenario2.pendingB []).
Proof.
  intros p w wt.
  apply (guarded_start_needs_a_fix (H := Scenario.backend) "c1" p Scenario2.pendingB
           Details.GeoFailed w wt).
  - reflexivity.
  - exact I.
Defined.

Lemma or_str_default_truthy (m : option string) (dflt : string) :
  dflt <> "" -> exists msg, JS.or_str m (Some dflt) = Some msg /\ msg <> "".
Proof.
  intros Hd. unfold JS.or_str. destruct m as [s|].
  - destruct (JS.truthy s) eqn:Es.
    + exists s. split; [reflexivity|]. intros ->. discriminate.
    + eauto.
  - eauto.
Qed.

(** X10. When loading the checklist fails, the page leaves its loading
    state with a non-empty error message: opened afresh it shows the error
    view, and a page that already held a checklist keeps showing it. *)
Theorem failed_load_shows_error {S : Type} `{ApiService S} (checklistId : string)
    (p : PageState) (s s1 : S) (e : ApiError) :
  getChecklist checklistId s = (Thrown e, s1) ->
  let p' := page (snd (run (Details.fetchChecklist checklistId) p s)) in
  loading p' = false
  /\ checklist p' = checklist p
  /\ (exists msg, error p' = Some msg /\ msg <> "")
  /\ (checklist p = None -> Details.view p' = Details.ViewError)
  /\ (forall c, checklist p = Some c -> Details.view p' = Details.ViewMain c).
Proof.
  intros Hg p'. subst p'. unfold Details.fetchChecklist. step_handler. rewrite Hg. simpl.
  destruct (or_str_default_truthy (message e) "Failed to load checklist details.")
    as (msg & Hm & Hne); [discriminate|].
  split; [reflexivity|]. split; [reflexivity|]. split; [eauto|]. split.
  - intros Hnone. unfold Details.view. simpl. rewrite Hnone, Hm. simpl.
    rewrite (truthy_nonempty _ Hne). reflexivity.
  - intros c Hc. unfold Details.view. simpl. rewrite Hc. reflexivity.
Qed.

Lemma failed_load_shows_error_witness :
  let p' := page (snd (run (Details.fetchChecklist (H := Scenario2.failing) "c1")
                           initialPage tt)) in
  loading p' = false
  /\ checklist p' = checklist initialPage
  /\ (exists msg, error p' = Some msg /\ msg <> "")
  /\ (checklist initialPage = None -> Details.view p' = Details.ViewError)
  /\ (forall c, checklist initialPage = Some c -> Details.view p' = Details.ViewMain c).
Proof.
  apply (failed_load_shows_error (H := Scenario2.failing) "c1" initialPage tt tt
           Scenario2.down).
  reflexivity.
Defined.

(** X11. No handler of the details page lets an error of the backend
    escape: loading, submitting, starting and completing all return
    normally whatever the backend answers, loading always ends with the
    loading flag down, and a submission that reached the backend always ends
    with the spinner of the item off. *)
Theorem details_handlers_catch_every_error {S : Type} `{ApiService S}
    (checklistId : string) (p : PageState) (it : ChecklistItem)
    (nav : Details.Geolocation) (w : World PageState S) :
  fst (Details.fetchChecklist checklistId w) = Returned tt
  /\ fst (Details.handleSubmit checklistId p it w) = Returned tt
  /\ fst (Details.handleStartChecklist checklistId p nav w) = Returned tt
  /\ fst (Details.handleCompleteChecklist checklistId p w) = Returned tt
  /\ loading (page (snd (Details.fetchChecklist checklistId w))) = false
  /\ (calls (snd (Details.handleSubmit checklistId p it w)) <> calls w ->
      updating (page (snd (Details.handleSubmit checklistId p it w))) = None).
Proof.
  split; [|split; [|split; [|split; [|split]]]].
  - unfold Details.fetchChecklist. step_handler.
    destruct (getChecklist checklistId (server w)) as [[d|e] s1]; reflexivity.
  - unfold Details.handleSubmit. destruct (checklist p) as [cl|]; [|reflexivity].
    destruct (completed it); [reflexivity|]. step_handler.
    destruct (updateChecklistItem _ _ _ (server w)) as [[u|e] s1]; simpl; [|reflexivity].
    destruct (getChecklist checklistId s1) as [[d|e] s2]; reflexivity.
  - unfold Details.handleStartChecklist. destruct (checklist p) as [cl|]; [|reflexivity].
    destruct nav as [| |coords]; [reflexivity|reflexivity|]. step_handler.
    destruct (startChecklist _ _ (server w)) as [[u|e] s1]; simpl; [|reflexivity].
    destruct (getChecklist checklistId s1) as [[d|e] s2]; reflexivity.
  - unfold Details.handleCompleteChecklist. destruct (checklist p) as [cl|]; [|reflexivity].
    step_handler.
    destruct (completeChecklist _ (server w)) as [[u|e] s1]; simpl; [|reflexivity].
    destruct (getChecklist checklistId s1) as [[d|e] s2]; reflexivity.
  - unfold Details.fetchChecklist. step_handler.
    destruct (getChecklist checklistId (server w)) as [[d|e] s1]; reflexivity.
  - unfold Details.handleSubmit.
    destruct (checklist p) as [cl|]; [|intros Hn; exfalso; apply Hn; reflexivity].
    destruct (completed it); [intros Hn; exfalso; apply Hn; reflexivity|].
    step_handler. intros _.
    destruct (updateChecklistItem _ _ _ (server w)) as [[u|e] s1]; simpl; [|reflexivity].
    destruct (getChecklist checklistId s1) as [[d|e] s2]; reflexivity.
Qed.

(** X12. The same holds on the other pages: the handlers of the list page,
    of the today-tasks page and of the review page return normally whatever
    the backend answers, and the review page always ends a submission with
    its submitting flag down. *)
Theorem other_handlers_catch_every_error {S : Type} `{ApiService S}
    (checklistId : string) (nav : Details.Geolocation)
    (ls : ChecklistsList.ListState) (wl : World ChecklistsList.ListState S)
    (wt : World TodayTasks.TodayState S)
    (rs : Review.ReviewState) (d : ReviewData) (wr : World Review.ReviewState S) :
  fst (ChecklistsList.fetchChecklists checklistId wl) = Returned tt
  /\ fst (ChecklistsList.handleStartChecklist ls checklistId wl) = Returned tt
  /\ fst (ChecklistsList.handleCompleteChecklist ls checklistId wl) = Returned tt
  /\ fst (TodayTasks.fetchTodayTasks wt) = Returned tt
  /\ fst (TodayTasks.handleStartChecklist nav checklistId wt) = Returned tt
  /\ fst (Review.fetchChecklist checklistId wr) = Returned tt
  /\ fst (Review.onSubmit rs d wr) = Returned tt
  /\ fst (Review.submitForm rs wr) = Returned tt
  /\ (calls (snd (Review.onSubmit rs d wr)) <> calls wr ->
      Review.rp_submitting (page (snd (Review.onSubmit rs d wr))) = false).
Proof.
  assert (forall f (w : World ChecklistsList.ListState S),
            fst (ChecklistsList.fetchChecklists f w) = Returned tt) as Hfetch.
  { intros f w. unfold ChecklistsList.fetchChecklists. step_handler.
    destruct (getChecklists _ (server w)) as [[r|e] s1]; reflexivity. }
  assert (forall (w : World TodayTasks.TodayState S),
            fst (TodayTasks.fetchTodayTasks w) = Returned tt) as Htoday.
  { intros w. unfold TodayTasks.fetchTodayTasks. step_handler.
    destruct (getTodayTasks (server w)) as [[r|e] s1]; reflexivity. }
  assert (forall st dd (w : World Review.ReviewState S),
            fst (Review.onSubmit st dd w) = Returned tt) as Hsub.
  { intros st dd w. unfold Review.onSubmit. destruct (Review.rp_checklist st); [|reflexivity].
    step_handler. destruct (reviewChecklist _ _ (server w)) as [[u|e] s1]; reflexivity. }
  split; [apply Hfetch|]. split; [|split; [|split; [|split; [|split; [|split; [|split]]]]]].
  - unfold ChecklistsList.handleStartChecklist, try_catch, bind, await.
    destruct (startChecklist checklistId None (server wl)) as [[u|e] s1]; simpl; [|reflexivity].
    match goal with |- fst (match ?x with _ => _ end) = _ =>
      pose proof (Hfetch (ChecklistsList.lp_activeFilter ls)
                    (mkWorld (page wl) s1 (calls wl ++ [CallStartChecklist checklistId None])))
        as Hf; destruct x as [[u'|e'] w'] end; simpl in *; [exact Hf|discriminate].
  - unfold ChecklistsList.handleCompleteChecklist, try_catch, bind, await.
    destruct (completeChecklist checklistId (server wl)) as [[u|e] s1]; simpl; [|reflexivity].
    match goal with |- fst (match ?x with _ => _ end) = _ =>
      pose proof (Hfetch (ChecklistsList.lp_activeFilter ls)
                    (mkWorld (page wl) s1 (calls wl ++ [CallCompleteChecklist checklistId])))
        as Hf; destruct x as [[u'|e'] w'] end; simpl in *; [exact Hf|discriminate].
  - apply Htoday.
  - unfold TodayTasks.handleStartChecklist.
    destruct nav as [| |coords]; [reflexivity|reflexivity|].
    unfold try_catch, bind, await.
    destruct (startChecklist checklistId (Some coords) (server wt)) as [[u|e] s1]; simpl;
      [|reflexivity].
    match goal with |- fst (match ?x with _ => _ end) = _ =>
      pose proof (Htoday
                    (mkWorld (page wt) s1
                       (calls wt ++ [CallStartChecklist checklistId (Some coords)])))
        as Hf; destruct x as [[u'|e'] w'] end; simpl in *; [exact Hf|discriminate].
  - unfold Review.fetchChecklist. step_handler.
    destruct (getChecklist checklistId (server wr)) as [[c|e] s1]; simpl; [|reflexivity].
    destruct (Details.noRating c); reflexivity.
  - apply Hsub.
  - unfold Review.submitForm. destruct (Review.view rs) as [| | | |t [|]]; try reflexivity.
    destruct (Review.reviewSchema (Review.rp_formRating rs)); [apply Hsub|reflexivity].
  - unfold Review.onSubmit.
    destruct (Review.rp_checklist rs); [|intros Hn; exfalso; apply Hn; reflexivity].
    step_handler. intros _.
    destruct (reviewChecklist _ _ (server wr)) as [[u|e] s1]; reflexivity.
Qed.

(** ** The review form *)

(** X13. Whatever the state of the review page, pressing submit sends at
    most one request, and only when the page is loaded on a checklist whose
    status is completed, no submission is in flight and a star was chosen;
    the rating it sends is the one of the form and lies between 1 and 5. *)
Theorem review_sends_only_valid_ratings {S : Type} `{ApiService S}
    (st : Review.ReviewState) (w : World Review.ReviewState S) :
  let w' := snd (Review.submitForm st w) in
  calls w' = calls w
  \/ exists c r,
       Review.rp_checklist st = Some c /\ status c = completed_st
       /\ Review.rp_loading st = false /\ Review.rp_submitting st = false
       /\ Review.rp_selectedRating st <> 0
       /\ Review.rp_formRating st = Some r /\ 1 <= r <= 5
       /\ calls w' = calls w ++ [CallReviewChecklist (cl_id c)
                                   (mkReviewData (Some r) (Review.rp_formNotes st))].
Proof.
  intros w'. subst w'. unfold Review.submitForm, Review.view.
  destruct (Review.rp_loading st) eqn:Hl; [left; reflexivity|].
  destruct (Review.rp_checklist st) as [c|] eqn:Hc.
  - destruct (bool_decide (status c = completed_st)) eqn:Hs; [|left; reflexivity].
    apply bool_decide_eq_true in Hs.
    destruct (Review.rp_submitting st) eqn:Hsub; simpl; [left; reflexivity|].
    destruct (Z.eqb (Review.rp_selectedRating st) 0) eqn:Hsel; [left; reflexivity|].
    apply Z.eqb_neq in Hsel.
    destruct (Review.rp_formRating st) as [r|] eqn:Hr; simpl; [|left; reflexivity].
    destruct ((1 <=? r) && (r <=? 5)) eqn:Hrange; [|left; reflexivity].
    apply andb_prop in Hrange as [H1 H5]. apply Z.leb_le in H1. apply Z.leb_le in H5.
    right. exists c, r. repeat split; try assumption.
    unfold Review.onSubmit. rewrite Hc. step_handler.
    destruct (reviewChecklist _ _ (server w)) as [[u|e] s1]; reflexivity.
  - left. destruct (JS.or_str (Review.rp_error st) None); reflexivity.
Qed.

(** X14. Loading the review page on a checklist that carries a rating puts
    that rating in the stars and in the form, with the stored notes; a
    checklist without rating leaves the form alone. Opened afresh on a
    completed checklist the page therefore shows "Update Review" with the
    button enabled when a rating exists, and "Submit Review" with the button
    disabled until a star is chosen when none does. *)
Theorem review_page_prefills_rating {S : Type} `{ApiService S} (checklistId : string)
    (p : Review.ReviewState) (s s1 : S) (data : Checklist) :
  getChecklist checklistId s = (Returned data, s1) ->
  let p' := page (snd (run (Review.fetchChecklist checklistId) p s)) in
  Review.rp_checklist p' = Some data
  /\ Review.rp_loading p' = false
  /\ (forall r, rating data = Some r -> r <> 0 ->
        Review.rp_selectedRating p' = r
        /\ Review.rp_formRating p' = Some r
        /\ Review.rp_formNotes p' = Some (default "" (JS.or_str (cl_notes data) None))
        /\ (status data = completed_st -> Review.rp_submitting p = false ->
            Review.view p' = Review.ViewForm "Update Review" false))
  /\ (Details.noRating data = true ->
        Review.rp_selectedRating p' = Review.rp_selectedRating p
        /\ Review.rp_formRating p' = Review.rp_formRating p
        /\ Review.rp_formNotes p' = Review.rp_formNotes p
        /\ (status data = completed_st -> Review.rp_selectedRating p = 0 ->
            exists disabled, Review.view p' = Review.ViewForm "Submit Review" disabled
                             /\ disabled = true)).
Proof.
  intros Hg p'. subst p'. unfold Review.fetchChecklist. step_handler. rewrite Hg. simpl.
  destruct (Details.noRating data) eqn:Hn; simpl.
  - split; [reflexivity|]. split; [reflexivity|]. split.
    + intros r Hr Hr0. exfalso. unfold Details.noRating in Hn. rewrite Hr in Hn.
      apply Z.eqb_eq in Hn. contradiction.
    + intros _. repeat split.
      intros Hst Hsel. unfold Review.view. simpl.
      rewrite bool_decide_eq_true_2 by exact Hst. rewrite Hn, Hsel. simpl.
      rewrite orb_true_r. eauto.
  - split; [reflexivity|]. split; [reflexivity|]. split.
    + intros r Hr Hr0. rewrite Hr. simpl. repeat split.
      intros Hst Hsub. unfold Review.view. simpl.
      rewrite bool_decide_eq_true_2 by exact Hst. rewrite Hn, Hsub. simpl.
      apply Z.eqb_neq in Hr0. rewrite Hr0. reflexivity.
    + discriminate.
Qed.

Lemma review_page_prefills_rating_witness :
  let data := Scenario.checklistDone completed_st (Some 3) in
  let p' := page (snd (run (Review.fetchChecklist (H := Scenario.backend) "c1")
                           Scenario.reviewInitial data)) in
  Review.rp_selectedRating p' = 3
  /\ Review.rp_formRating p' = Some 3
  /\ Review.rp_formNotes p' = Some ""
  /\ Review.view p' = Review.ViewForm "Update Review" false.
Proof.
  intros data p'.
  destruct (review_page_prefills_rating (H := Scenario.backend) "c1" Scenario.reviewInitial
              (Scenario.checklistDone completed_st (Some 3))
              (Scenario.checklistDone completed_st (Some 3))
              (Scenario.checklistDone completed_st (Some 3)))
    as (_ & _ & Hrated & _).
  - reflexivity.
  - destruct (Hrated 3) as (H1 & H2 & H3 & H4); [reflexivity|discriminate|].
    split; [exact H1|]. split; [exact H2|]. split; [exact H3|].
    apply H4; reflexivity.
Defined.

(** ** The count inputs *)

Lemma digit_is_plain (c : ascii) :
  CountInput.isDigit c = true ->
  Requirements.isWhiteSpace c = false
  /\ Ascii.eqb c "-" = false /\ Ascii.eqb c "+" = false.
Proof.
  destruct c as [[] [] [] [] [] [] [] []]; vm_compute; intros Hd;
    try discriminate Hd; repeat split.
Qed.

Lemma digitValue_range (c : ascii) (d : Z) :
  Requirements.digitValue c = Some d -> 0 <= d <= 9.
Proof.
  unfold Requirements.digitValue.
  destruct ((48 <=? Z.of_nat (nat_of_ascii c)) && (Z.of_nat (nat_of_ascii c) <=? 57)) eqn:E;
    [|discriminate].
  intros [= <-]. apply andb_prop in E as [E1 E2].
  apply Z.leb_le in E1. apply Z.leb_le in E2. lia.
Qed.

Lemma digitsFrom_nonneg (s : string) (acc : Z) :
  0 <= acc -> 0 <= Requirements.digitsFrom s acc.
Proof.
  revert acc. induction s as [|c s IH]; intros acc Hacc; simpl; [exact Hacc|].
  destruct (Requirements.digitValue c) as [d|] eqn:Hd; [|exact Hacc].
  apply IH. pose proof (digitValue_range _ _ Hd). lia.
Qed.

(** A non-empty string of digits always parses, to the value of its digits. *)
Lemma parseInt_digits (raw : string) :
  raw <> "" -> CountInput.allDigits raw = true ->
  Requirements.parseInt raw = Int (Requirements.digitsFrom raw 0).
Proof.
  intros Hne Hall. destruct raw as [|c rest]; [contradiction|].
  simpl in Hall. apply andb_prop in Hall as [Hc _].
  destruct (digit_is_plain c Hc) as (Hw & Hm & Hp).
  unfold Requirements.parseInt. simpl. rewrite Hw, Hm, Hp.
  unfold Requirements.parseDigits. unfold CountInput.isDigit in Hc.
  destruct (Requirements.digitValue c); [reflexivity|discriminate].
Qed.

(** X15. Whatever is typed in a count input, the count that is kept is
    bounded: the dialog keeps a count between 1 and 10 or none, the card a
    count between 0 and 10 or none. For the strings the key and paste
    filters let through (non-empty, digits only) a count is always kept: the
    value of the digits, brought into the range of the input. *)
Theorem typed_count_is_clamped (raw : string) :
  (forall n, Requirements.dialogCountOnChange raw = Some n -> 1 <= n <= 10)
  /\ (forall n, Requirements.cardCount raw = Int n -> 0 <= n <= 10)
  /\ (raw <> "" -> CountInput.allDigits raw = true ->
        0 <= Requirements.digitsFrom raw 0
        /\ Requirements.dialogCountOnChange raw
           = Some (Z.max 1 (Z.min 10 (Requirements.digitsFrom raw 0)))
        /\ Requirements.cardCount raw
           = Int (Z.max 0 (Z.min 10 (Requirements.digitsFrom raw 0)))).
Proof.
  split; [intros n; apply dialogCount_range|].
  split; [intros n; apply cardCount_range|].
  intros Hne Hall. split; [apply digitsFrom_nonneg; lia|].
  unfold Requirements.dialogCountOnChange, Requirements.cardCount.
  rewrite (parseInt_digits raw Hne Hall).
  replace (String.eqb raw "") with false
    by (symmetry; apply String.eqb_neq; exact Hne).
  split; reflexivity.
Qed.

Example typed_counts :
  Requirements.dialogCountOnChange "3" = Some 3
  /\ Requirements.dialogCountOnChange "25" = Some 10
  /\ Requirements.dialogCountOnChange "x" = None
  /\ Requirements.cardCount "25" = Int 10
  /\ Requirements.cardCount "x" = NaN.
Proof. repeat split. Qed.

(** X16. Opening the dialog on a room and saving without touching the
    requirement controls sends back the flag of the pivot and its count as
    stored (an absent, zero or negative count as 0), whatever the flag and
    however large the count; once the switch is turned off, the dialog saves
    the count 0 whatever is typed afterwards. *)
Theorem dialog_reopen_and_switch_off (r : Room) (d : Requirements.DialogState)
    (raw : string) :
  Requirements.dialogSaved (Requirements.dialogOpen Requirements.edit (Some r))
  = (Requirements.pivotRequires r, Z.max 0 (JS.or_zero (pivotCount (Some r))))
  /\ Requirements.dialogSaved
       (Requirements.dialogTypeCount raw (Requirements.dialogSetRequires false d))
     = (false, 0).
Proof.
  split.
  - unfold Requirements.dialogSaved, Requirements.dialogOpen, Requirements.pivotRequires.
    remember (pivotCount (Some r)) as c eqn:Ec. simpl. f_equal.
    destruct c as [k|]; simpl; [|reflexivity].
    destruct (0 <? k) eqn:Hk; simpl.
    + apply Z.ltb_lt in Hk. lia.
    + apply Z.ltb_ge in Hk. lia.
  - unfold Requirements.dialogTypeCount, Requirements.dialogCountDisabled,
      Requirements.dialogSetRequires. simpl.
    destruct (Requirements.mode d); reflexivity.
Qed.

(** X17. Typing in the count input of a room card sends one request with
    the flag of the pivot and the computed count. The handler never throws:
    if the request fails the room is left as it was; if it succeeds only the
    count of the pivot changes. *)
Theorem card_count_change_is_contained {S : Type} `{ApiService S}
    (room : Room) (raw : string) (s : S) :
  let count := if String.eqb raw "" then Int 0 else Requirements.cardCount raw in
  let stored := if String.eqb raw "" then None
                else Requirements.finiteOrUndefined (Requirements.cardCount raw) in
  let answer := updateRoomRequirements (Requirements.pivotProperty room) (r_id room)
                  (Requirements.pivotRequires room) count s in
  let result := run (Requirements.cardCountOnChange room raw) room s in
  fst result = Returned tt
  /\ calls (snd result)
     = [CallUpdateRoomRequirements (Requirements.pivotProperty room) (r_id room)
          (Requirements.pivotRequires room) count]
  /\ (forall e s1, answer = (Thrown e, s1) -> page (snd result) = room)
  /\ (forall u s1, answer = (Returned u, s1) ->
        page (snd result) = Requirements.setPivotCount stored room
        /\ r_id (page (snd result)) = r_id room
        /\ Requirements.pivotRequires (page (snd result)) = Requirements.pivotRequires room
        /\ Requirements.pivotProperty (page (snd result)) = Requirements.pivotProperty room
        /\ pivotCount (Some (page (snd result))) = stored).
Proof.
  intros count stored answer result. subst count stored answer result.
  unfold Requirements.cardCountOnChange.
  destruct (String.eqb raw ""); step_handler;
    destruct (updateRoomRequirements _ _ _ _ s) as [[u|e] s1]; simpl;
    (split; [reflexivity|]); (split; [reflexivity|]); split;
    try (intros ? ? [=]); try (intros ? ? _);
    try reflexivity;
    try (split; [reflexivity|]; split; [reflexivity|];
         unfold Requirements.setPivotCount, Requirements.pivotRequires,
           Requirements.pivotProperty; simpl; destruct (pivot room); repeat split).
Qed.

Example card_count_refused :
  run (Requirements.cardCountOnChange (H := Scenario2.failing) Scenario.bathB "7")
      Scenario.bathB tt
  = (Returned tt,
     mkWorld Scenario.bathB tt [CallUpdateRoomRequirements (Some "p1") "bath" true (Int 7)]).
Proof. reflexivity. Qed.

(** ** The tag input *)

Lemma isSelected_In (value : list TagInput.TagInputOption) (o : TagInput.TagInputOption) :
  TagInput.isSelected value o = true <-> In (TagInput.id o) (map TagInput.id value).
Proof.
  unfold TagInput.isSelected, JS.some. rewrite existsb_exists, in_map_iff. split.
  - intros (t & Hin & He). apply String.eqb_eq in He. eauto.
  - intros (t & He & Hin). exists t. split; [exact Hin|]. apply String.eqb_eq, He.
Qed.

Lemma atLimit_false_room (maxTags : option nat) (value : list TagInput.TagInputOption)
    (m : nat) :
  TagInput.atLimit maxTags value = false -> maxTags = Some m -> m <> 0%nat ->
  (length value < m)%nat.
Proof.
  intros Hl -> Hm. unfold TagInput.atLimit in Hl.
  apply andb_false_iff in Hl as [Hl|Hl].
  - apply negb_false_iff, Nat.eqb_eq in Hl. contradiction.
  - apply Nat.leb_gt in Hl. exact Hl.
Qed.

Lemma handleAddTag_distinct (maxTags : option nat) (value : list TagInput.TagInputOption)
    (inputValue : string) (o : TagInput.TagInputOption) :
  List.NoDup (map TagInput.id value) ->
  List.NoDup (map TagInput.id
                (TagInput.valueAfter value (TagInput.handleAddTag maxTags value inputValue o))).
Proof.
  intros Hnd. unfold TagInput.handleAddTag, TagInput.valueAfter.
  destruct (TagInput.atLimit maxTags value); [exact Hnd|].
  destruct (TagInput.isSelected value o) eqn:Hs; simpl; [exact Hnd|].
  rewrite map_app. simpl. apply List.NoDup_app.
  - exact Hnd.
  - constructor; [intros []|constructor].
  - intros x Hx [<-|[]]. apply isSelected_In in Hx. congruence.
Qed.

Lemma handleAddTag_bounded (maxTags : option nat) (value : list TagInput.TagInputOption)
    (inputValue : string) (o : TagInput.TagInputOption) (m : nat) :
  maxTags = Some m -> m <> 0%nat -> (length value <= m)%nat ->
  (length (TagInput.valueAfter value (TagInput.handleAddTag maxTags value inputValue o))
   <= m)%nat.
Proof.
  intros Hm Hm0 Hlen. unfold TagInput.handleAddTag, TagInput.valueAfter.
  destruct (TagInput.atLimit maxTags value) eqn:Hl; [exact Hlen|].
  pose proof (atLimit_false_room _ _ _ Hl Hm Hm0).
  destruct (TagInput.isSelected value o); simpl; [exact Hlen|].
  rewrite length_app. simpl. lia.
Qed.

Lemma handleAddTag_within (maxTags : option nat) (value : list TagInput.TagInputOption)
    (inputValue : string) (o t : TagInput.TagInputOption) :
  In t (TagInput.valueAfter value (TagInput.handleAddTag maxTags value inputValue o)) ->
  In t value \/ t = o.
Proof.
  unfold TagInput.handleAddTag, TagInput.valueAfter.
  destruct (TagInput.atLimit maxTags value); [auto|].
  destruct (TagInput.isSelected value o); simpl; [auto|].
  rewrite in_app_iff. simpl. intuition.
Qed.

(** X18. Adding a tag never selects the same id twice and never goes past a
    (non-zero) tag limit; below the limit the id of the option is selected
    afterwards, and the value either stays or gains the option at its end.
    A limit of 0 is no limit. *)
Theorem add_tag_keeps_selection_wellformed (maxTags : option nat)
    (value : list TagInput.TagInputOption) (inputValue : string)
    (o : TagInput.TagInputOption) :
  let e := TagInput.handleAddTag maxTags value inputValue o in
  (List.NoDup (map TagInput.id value) ->
     List.NoDup (map TagInput.id (TagInput.valueAfter value e)))
  /\ (forall m, maxTags = Some m -> m <> 0%nat -> (length value <= m)%nat ->
        (length (TagInput.valueAfter value e) <= m)%nat)
  /\ (TagInput.atLimit maxTags value = false ->
        TagInput.isSelected (TagInput.valueAfter value e) o = true
        /\ TagInput.input e = "")
  /\ (TagInput.changed e = None \/ TagInput.changed e = Some (value ++ [o]))
  /\ TagInput.atLimit (Some 0%nat) value = false.
Proof.
  intros e. subst e. split; [apply handleAddTag_distinct|].
  split; [intros m; apply handleAddTag_bounded|]. split; [|split].
  - intros Hl. unfold TagInput.handleAddTag, TagInput.valueAfter. rewrite Hl.
    destruct (TagInput.isSelected value o) eqn:Hs; simpl; [auto|].
    split; [|reflexivity]. apply isSelected_In. rewrite map_app, in_app_iff.
    right. left. reflexivity.
  - unfold TagInput.handleAddTag.
    destruct (TagInput.atLimit maxTags value); [left; reflexivity|].
    destruct (TagInput.isSelected value o); [left|right]; reflexivity.
  - reflexivity.
Qed.

Lemma handleRemoveTag_In (value : list TagInput.TagInputOption) (tagId : string)
    (t : TagInput.TagInputOption) :
  In t (TagInput.handleRemoveTag value tagId) <-> In t value /\ TagInput.id t <> tagId.
Proof.
  unfold TagInput.handleRemoveTag. rewrite filter_In, negb_true_iff.
  split; intros [Hin Hne]; (split; [exact Hin|]).
  - apply String.eqb_neq, Hne.
  - apply String.eqb_neq, Hne.
Qed.

Lemma handleRemoveTag_absent (value : list TagInput.TagInputOption) (tagId : string) :
  ~ In tagId (map TagInput.id value) -> TagInput.handleRemoveTag value tagId = value.
Proof.
  intros Hn. unfold TagInput.handleRemoveTag.
  induction value as [|t value IH]; simpl; [reflexivity|].
  simpl in Hn. destruct (String.eqb (TagInput.id t) tagId) eqn:E; simpl.
  - apply String.eqb_eq in E. exfalso. apply Hn. left. exact E.
  - f_equal. apply IH. intros Hin. apply Hn. right. exact Hin.
Qed.

Lemma handleRemoveTag_app (v1 v2 : list TagInput.TagInputOption) (tagId : string) :
  TagInput.handleRemoveTag (v1 ++ v2) tagId
  = TagInput.handleRemoveTag v1 tagId ++ TagInput.handleRemoveTag v2 tagId.
Proof. unfold TagInput.handleRemoveTag. apply List.filter_app. Qed.

(** X19. Removing a tag takes out every selected tag with that id and
    nothing else, keeping the order of the others; removing the option that
    was just added gives the earlier selection back. *)
Theorem remove_tag_removes_exactly_that_id (value : list TagInput.TagInputOption)
    (tagId : string) :
  (forall t, In t (TagInput.handleRemoveTag value tagId)
             <-> In t value /\ TagInput.id t <> tagId)
  /\ ~ In tagId (map TagInput.id (TagInput.handleRemoveTag value tagId))
  /\ (forall v1 v2, value = v1 ++ v2 ->
        TagInput.handleRemoveTag value tagId
        = TagInput.handleRemoveTag v1 tagId ++ TagInput.handleRemoveTag v2 tagId)
  /\ (forall maxTags inputValue o,
        TagInput.id o = tagId ->
        TagInput.isSelected value o = false ->
        TagInput.atLimit maxTags value = false ->
        TagInput.handleRemoveTag
          (TagInput.valueAfter value (TagInput.handleAddTag maxTags value inputValue o))
          tagId
        = value).
Proof.
  split; [intros t; apply handleRemoveTag_In|]. split; [|split].
  - rewrite in_map_iff. intros (t & He & Hin). apply handleRemoveTag_In in Hin. tauto.
  - intros v1 v2 ->. apply handleRemoveTag_app.
  - intros maxTags inputValue o Hid Hsel Hlim.
    unfold TagInput.handleAddTag, TagInput.valueAfter. rewrite Hlim, Hsel. simpl.
    rewrite handleRemoveTag_app. rewrite handleRemoveTag_absent.
    + unfold TagInput.handleRemoveTag. simpl. rewrite Hid, String.eqb_refl. simpl.
      apply app_nil_r.
    + rewrite <- Hid. intros Hin. apply isSelected_In in Hin. congruence.
Qed.

Lemma moveTag_spec (from to : nat) (value : list TagInput.TagInputOption)
    (moved : TagInput.TagInputOption) :
  value !! from = Some moved -> (to < length value)%nat ->
  Permutation value (TagInput.moveTag from to value)
  /\ length (TagInput.moveTag from to value) = length value
  /\ TagInput.moveTag from to value !! to = Some moved
  /\ delete to (TagInput.moveTag from to value) = delete from value.
Proof.
  intros Hf Hto. unfold TagInput.moveTag. rewrite Hf.
  assert (length (delete from value) = pred (length value)) as Hlen.
  { rewrite length_delete; [lia|]. eauto. }
  assert (length (take to (delete from value)) = to) as Htake.
  { rewrite length_take. lia. }
  split; [|split; [|split]].
  - rewrite (delete_Permutation value from moved Hf) at 1.
    rewrite <- Permutation_middle. constructor.
    rewrite take_drop. reflexivity.
  - rewrite length_app. simpl. rewrite length_take, length_drop. lia.
  - rewrite lookup_app_r; rewrite length_take; [|lia].
    replace (to - to `min` length (delete from value))%nat with 0%nat by lia.
    reflexivity.
  - replace (delete to (take to (delete from value) ++ moved :: drop to (delete from value)))
      with (delete (length (take to (delete from value)))
              (take to (delete from value) ++ moved :: drop to (delete from value)))
      by (rewrite Htake; reflexivity).
    rewrite delete_middle. apply take_drop.
Qed.

(** X20. A drop that is accepted on the tag at position [to] moves the
    dragged tag, the one at the position the drag data parses to, to
    position [to]: that position differs from [to] and lies within the
    selection, the tag found there stands at [to] afterwards, the other tags
    keep their order (removing the moved tag from the new and from the old
    value gives the same list), and the new value is a permutation of the
    old one, of the same length. *)
Theorem drop_reorders_selection (enableSort : bool) (value : list TagInput.TagInputOption)
    (data : string) (to : nat) (next : list TagInput.TagInputOption) :
  TagInput.onDrop enableSort value data to = Some next ->
  (to < length value)%nat ->
  exists (from : nat) (moved : TagInput.TagInputOption),
    Requirements.parseInt data = Int (Z.of_nat from)
    /\ from <> to
    /\ value !! from = Some moved
    /\ next !! to = Some moved
    /\ delete to next = delete from value
    /\ Permutation value next
    /\ length next = length value.
Proof.
  unfold TagInput.onDrop. destruct enableSort; [|discriminate].
  change (negb true) with false. cbv iota.
  destruct (JS.truthy data) eqn:Hdata.
  - replace (default "-1" (JS.or_str (Some data) None)) with data
      by (unfold JS.or_str; rewrite Hdata; reflexivity).
    destruct (Requirements.parseInt data) as [|from] eqn:Hparse; [discriminate|].
    destruct ((from =? Z.of_nat to) || (from <? 0) || (Z.of_nat (length value) <=? from))
      eqn:Hguard; [discriminate|].
    apply orb_false_iff in Hguard as [Hguard Hge].
    apply orb_false_iff in Hguard as [Heq Hlt].
    apply Z.eqb_neq in Heq. apply Z.ltb_ge in Hlt. apply Z.leb_gt in Hge.
    intros [= <-] Hto.
    assert (Z.to_nat from < length value)%nat as Hfrom by lia.
    destruct (lookup_lt_is_Some_2 value (Z.to_nat from) Hfrom) as [moved Hm].
    destruct (moveTag_spec (Z.to_nat from) to value moved Hm Hto) as (HP & HL & Hat & Hrest).
    exists (Z.to_nat from), moved.
    split; [rewrite Z2Nat.id by lia; reflexivity|].
    split; [lia|]. split; [exact Hm|]. split; [exact Hat|]. split; [exact Hrest|].
    split; [exact HP | exact HL].
  - replace (default "-1" (JS.or_str (Some data) None)) with "-1"
      by (unfold JS.or_str; rewrite Hdata; reflexivity).
    change (Requirements.parseInt "-1") with (Int (-1)). cbv iota beta.
    replace (-1 <? 0) with true by reflexivity.
    rewrite orb_true_r. simpl. discriminate.
Qed.

Lemma drop_reorders_selection_witness :
  let a := TagInput.mkOption "1" "Dust" None in
  let b := TagInput.mkOption "2" "Mop" None in
  let c := TagInput.mkOption "3" "Wipe" None in
  exists (from : nat) (moved : TagInput.TagInputOption),
    Requirements.parseInt "0" = Int (Z.of_nat from)
    /\ from <> 2%nat
    /\ [a; b; c] !! from = Some moved
    /\ [b; c; a] !! 2%nat = Some moved
    /\ delete 2%nat [b; c; a] = delete from [a; b; c]
    /\ Permutation [a; b; c] [b; c; a]
    /\ length [b; c; a] = length [a; b; c].
Proof.
  intros a b c.
  apply (drop_reorders_selection true [a; b; c] "0" 2 [b; c; a]).
  - reflexivity.
  - simpl. lia.
Defined.

Lemma NoDup_map_filter {A B : Type} (f : A -> B) (keep : A -> bool) (l : list A) :
  List.NoDup (map f l) -> List.NoDup (map f (List.filter keep l)).
Proof.
  induction l as [|a l IH]; simpl; [auto|].
  intros Hnd. apply NoDup_cons_iff in Hnd as [Hn Hnd].
  destruct (keep a); simpl; [|auto].
  constructor; [|auto]. intros Hin. apply Hn.
  apply in_map_iff in Hin as (x & Hx & Hin). apply filter_In in Hin as [Hin _].
  apply in_map_iff. eauto.
Qed.

(** X21. Whatever key is pressed in the input, and whatever the case
    folding and trimming of the platform do, every tag selected afterwards
    was selected before or is one of the options; the ids stay distinct and
    a (non-zero) tag limit is respected. With distinct ids, Backspace on an
    empty input removes exactly the last tag. *)
Theorem key_press_keeps_selection_wellformed (toLowerCase trim : string -> string)
    (maxTags : option nat) (ghost : bool) (options value : list TagInput.TagInputOption)
    (inputValue : string) (key : TagInput.Key) :
  let e := TagInput.handleInputKeyDown toLowerCase trim maxTags ghost options value
             inputValue key in
  (forall t, In t (TagInput.valueAfter value e) -> In t value \/ In t options)
  /\ (List.NoDup (map TagInput.id value) ->
        List.NoDup (map TagInput.id (TagInput.valueAfter value e)))
  /\ (forall m, maxTags = Some m -> m <> 0%nat -> (length value <= m)%nat ->
        (length (TagInput.valueAfter value e) <= m)%nat)
  /\ (key = TagInput.Backspace -> inputValue = "" ->
        List.NoDup (map TagInput.id value) ->
        TagInput.valueAfter value e = removelast value).
Proof.
  intros e. subst e.
  assert (forall o, TagInput.bestOption toLowerCase trim inputValue options = Some o ->
                    In o options) as Hbest.
  { intros o. unfold TagInput.bestOption.
    destruct (String.eqb _ ""); [discriminate|].
    destruct (List.find _ options) as [x|] eqn:Hf1; simpl.
    - intros [= <-]. apply find_some in Hf1. tauto.
    - intros Hf2. apply find_some in Hf2. tauto. }
  unfold TagInput.handleInputKeyDown.
  destruct key.
  - (* Enter *)
    destruct (JS.truthy (trim inputValue));
      [|repeat split; simpl; auto; discriminate].
    destruct (List.find _ options) as [exact|] eqn:Hex.
    + apply find_some in Hex as [Hex _].
      split; [|split; [|split]].
      * intros t Ht. apply handleAddTag_within in Ht as [Ht| ->]; auto.
      * apply handleAddTag_distinct.
      * intros m. apply handleAddTag_bounded.
      * discriminate.
    + destruct (TagInput.bestOption toLowerCase trim inputValue options) as [best|] eqn:Hb.
      * specialize (Hbest best eq_refl).
        split; [|split; [|split]].
        -- intros t Ht. apply handleAddTag_within in Ht as [Ht| ->]; auto.
        -- apply handleAddTag_distinct.
        -- intros m. apply handleAddTag_bounded.
        -- discriminate.
      * repeat split; simpl; auto; discriminate.
  - destruct ghost, (TagInput.bestOption toLowerCase trim inputValue options);
      repeat split; simpl; auto; discriminate.
  - destruct ghost, (TagInput.bestOption toLowerCase trim inputValue options);
      repeat split; simpl; auto; discriminate.
  - (* Backspace *)
    destruct (negb (JS.truthy inputValue)) eqn:Hempty;
      [|split; [|split; [|split]]; simpl; auto;
        intros _ ->; discriminate].
    destruct (last value) as [lastTag|] eqn:Hlast.
    + split; [|split; [|split]]; unfold TagInput.valueAfter; simpl.
      * intros t Ht. apply handleRemoveTag_In in Ht. tauto.
      * unfold TagInput.handleRemoveTag. apply NoDup_map_filter.
      * intros m _ _ Hlen. unfold TagInput.handleRemoveTag.
        pose proof (List.filter_length_le
                      (fun tag => negb (String.eqb (TagInput.id tag) (TagInput.id lastTag)))
                      value). lia.
      * intros _ _ Hnd.
        apply last_Some in Hlast as [init ->].
        rewrite removelast_last, handleRemoveTag_app.
        rewrite map_app in Hnd. simpl in Hnd. apply NoDup_remove_2 in Hnd.
        rewrite app_nil_r in Hnd.
        rewrite handleRemoveTag_absent by exact Hnd.
        unfold TagInput.handleRemoveTag. simpl. rewrite String.eqb_refl. simpl.
        apply app_nil_r.
    + split; [|split; [|split]]; simpl; auto.
      intros _ _ _. apply last_None in Hlast. subst value. reflexivity.
  - repeat split; simpl; auto; discriminate.
Qed.

(** ** Selecting rooms *)

Lemma includesId_In (selected : list string) (roomId : string) :
  RoomSelection.includesId selected roomId = true <-> In roomId selected.
Proof.
  unfold RoomSelection.includesId, JS.some. rewrite existsb_exists. split.
  - intros (x & Hin & He). apply String.eqb_eq in He. subst. exact Hin.
  - intros Hin. exists roomId. split; [exact Hin|]. apply String.eqb_refl.
Qed.

Lemma includesId_eq (l1 l2 : list string) (x : string) :
  (In x l1 <-> In x l2) -> RoomSelection.includesId l1 x = RoomSelection.includesId l2 x.
Proof.
  intros Hiff. apply eq_true_iff_eq. rewrite !includesId_In. exact Hiff.
Qed.

(** X22. Toggling a room flips the selection of that room and of no other;
    with default rooms locked, a default room of the list cannot be
    toggled. *)
Theorem toggle_flips_one_room (lock : bool) (rooms : list RoomSelection.ListedRoom)
    (selected : list string) (roomId : string) :
  (forall next,
     RoomSelection.handleRoomToggle lock rooms selected roomId = Some next ->
     RoomSelection.includesId next roomId
     = negb (RoomSelection.includesId selected roomId)
     /\ (forall other, other <> roomId ->
           RoomSelection.includesId next other = RoomSelection.includesId selected other))
  /\ (RoomSelection.handleRoomToggle lock rooms selected roomId = None
      <-> lock = true
          /\ RoomSelection.isDefaultRoom
               (List.find (fun r => String.eqb (RoomSelection.lr_id r) roomId) rooms) = true).
Proof.
  unfold RoomSelection.handleRoomToggle. split.
  - intros next.
    destruct (lock && RoomSelection.isDefaultRoom _); [discriminate|].
    intros [= <-].
    destruct (RoomSelection.includesId selected roomId) eqn:Hsel; simpl.
    + split.
      * apply not_true_is_false. rewrite includesId_In, filter_In, negb_true_iff.
        intros [_ Hne]. rewrite String.eqb_refl in Hne. discriminate.
      * intros other Hne. apply includesId_eq.
        rewrite filter_In, negb_true_iff. split; [tauto|].
        intros Hin. split; [exact Hin|]. apply String.eqb_neq. exact Hne.
    + split.
      * apply includesId_In. rewrite in_app_iff. right. left. reflexivity.
      * intros other Hne. apply includesId_eq. rewrite in_app_iff. simpl.
        split; [|tauto]. intros [H|[H|[]]]; [exact H|]. congruence.
  - destruct lock; simpl.
    + destruct (RoomSelection.isDefaultRoom _); split; try discriminate; auto.
      intros [_ H]. discriminate.
    + split; [discriminate|]. intros [H _]. discriminate.
Qed.

(** X23. "Select all" compares the sizes only: when as many ids are
    selected as the list shows rooms the selection is emptied, otherwise it
    becomes the ids of the rooms shown, in their order. Either way no id of
    a room outside the list stays selected, and the checkbox is never left
    indeterminate. *)
Theorem select_all_replaces_selection (rooms : list RoomSelection.ListedRoom)
    (selected : list string) :
  let next := RoomSelection.handleSelectAll rooms selected in
  (length selected = length rooms -> next = [])
  /\ (length selected <> length rooms ->
        next = map RoomSelection.lr_id rooms
        /\ RoomSelection.isAllSelected rooms next = negb (Nat.eqb (length rooms) 0))
  /\ (forall i, In i next -> exists r, In r rooms /\ RoomSelection.lr_id r = i)
  /\ RoomSelection.isIndeterminate rooms next = false.
Proof.
  intros next. subst next. unfold RoomSelection.handleSelectAll.
  rewrite length_map.
  destruct (Nat.eqb (length selected) (length rooms)) eqn:E.
  - apply Nat.eqb_eq in E. split; [reflexivity|]. split; [contradiction|].
    split; [intros i []|reflexivity].
  - apply Nat.eqb_neq in E. split; [contradiction|]. split; [|split].
    + intros _. split; [reflexivity|].
      unfold RoomSelection.isAllSelected. rewrite length_map, Nat.eqb_refl, andb_true_r.
      destruct rooms; reflexivity.
    + intros i Hin. apply in_map_iff in Hin as (r & Hr & Hin). eauto.
    + unfold RoomSelection.isIndeterminate. rewrite length_map.
      rewrite Nat.ltb_irrefl. apply andb_false_r.
Qed.

(** The selection of two rooms from another page is emptied by "select
    all" on a page of two rooms. *)
Example select_all_same_size :
  RoomSelection.handleSelectAll
    [RoomSelection.mkListed "r1" None None; RoomSelection.mkListed "r2" None None]
    ["r8"; "r9"] = [].
Proof. reflexivity. Qed.

(** ** Pagination *)

(** X24. [changePage] accepts exactly the pages from 1 to [totalPages]: an
    accepted page becomes the current page, any other request changes
    nothing; neither it nor [resetPagination] touches the other fields, and
    a current page within range stays within range. *)
Theorem change_page_stays_in_range (page : Z) (h : Paging.Hook) :
  let h' := Paging.changePage page h in
  (1 <= page <= Paging.totalPages (Paging.pagination h) ->
     Paging.currentPage (Paging.pagination h') = page)
  /\ (page < 1 \/ Paging.totalPages (Paging.pagination h) < page -> h' = h)
  /\ Paging.totalPages (Paging.pagination h') = Paging.totalPages (Paging.pagination h)
  /\ Paging.totalItems (Paging.pagination h') = Paging.totalItems (Paging.pagination h)
  /\ (1 <= Paging.currentPage (Paging.pagination h) <= Paging.totalPages (Paging.pagination h)
      -> 1 <= Paging.currentPage (Paging.pagination h')
         <= Paging.totalPages (Paging.pagination h'))
  /\ Paging.currentPage (Paging.pagination (Paging.resetPagination h)) = 1
  /\ Paging.pageParam (Paging.resetPagination h) = None.
Proof.
  intros h'. subst h'. unfold Paging.changePage.
  destruct ((page <? 1) || (Paging.totalPages (Paging.pagination h) <? page)) eqn:G.
  - apply orb_true_iff in G. rewrite Z.ltb_lt, Z.ltb_lt in G.
    repeat split; try reflexivity; try tauto; lia.
  - apply orb_false_iff in G as [G1 G2]. apply Z.ltb_ge in G1. apply Z.ltb_ge in G2.
    repeat split; simpl; try reflexivity; try lia.
Qed.

(** X25. After the hook took the page fields of a response whose current
    page lies between 1 and the last page, the Next and Previous buttons move
    by exactly one page and stop at the ends; while loading they do nothing.
    The component is shown only when there is more than one page. *)
Theorem pagination_buttons_move_one_page (d : Paging.PageData) (h : Paging.Hook)
    (isLoading : bool) :
  1 <= Paging.current_page d <= Paging.last_page d ->
  let h0 := Paging.updatePagination d h in
  let after t := Paging.currentPage (Paging.pagination (Paging.press t h0)) in
  after (Paging.handleNext isLoading (Paging.pagination h0))
  = (if isLoading then Paging.current_page d
     else Z.min (Paging.current_page d + 1) (Paging.last_page d))
  /\ after (Paging.handlePrevious isLoading (Paging.pagination h0))
     = (if isLoading then Paging.current_page d
        else Z.max (Paging.current_page d - 1) 1)
  /\ (Paging.rendered (Paging.pagination h0) = true <-> 1 < Paging.last_page d).
Proof.
  intros Hr h0 after. subst h0 after.
  unfold Paging.handleNext, Paging.handlePrevious, Paging.press, Paging.updatePagination,
    Paging.rendered. simpl. split; [|split].
  - destruct (Paging.current_page d <? Paging.last_page d) eqn:Hn; simpl.
    + apply Z.ltb_lt in Hn. destruct isLoading; simpl; [reflexivity|].
      unfold Paging.changePage. simpl.
      replace ((Paging.current_page d + 1 <? 1)
               || (Paging.last_page d <? Paging.current_page d + 1)) with false.
      * simpl. lia.
      * symmetry. apply orb_false_iff. rewrite !Z.ltb_ge. lia.
    + apply Z.ltb_ge in Hn. simpl. destruct isLoading; lia.
  - destruct (1 <? Paging.current_page d) eqn:Hp; simpl.
    + apply Z.ltb_lt in Hp. destruct isLoading; simpl; [reflexivity|].
      unfold Paging.changePage. simpl.
      replace ((Paging.current_page d - 1 <? 1)
               || (Paging.last_page d <? Paging.current_page d - 1)) with false.
      * simpl. lia.
      * symmetry. apply orb_false_iff. rewrite !Z.ltb_ge. lia.
    + apply Z.ltb_ge in Hp. simpl. destruct isLoading; lia.
  - apply Z.ltb_lt.
Qed.

Lemma pagination_buttons_move_one_page_witness :
  let d := Paging.mkPageData 2 3 45 20 in
  let h0 := Paging.updatePagination d (Paging.mkHook (Paging.initial 1 20) None) in
  let after t := Paging.currentPage (Paging.pagination (Paging.press t h0)) in
  after (Paging.handleNext false (Paging.pagination h0)) = Z.min (2 + 1) 3
  /\ after (Paging.handlePrevious false (Paging.pagination h0)) = Z.max (2 - 1) 1
  /\ (Paging.rendered (Paging.pagination h0) = true <-> 1 < 3).
Proof.
  apply (pagination_buttons_move_one_page (Paging.mkPageData 2 3 45 20)
           (Paging.mkHook (Paging.initial 1 20) None) false).
  simpl. lia.
Defined.

Ltac digit_code :=
  match goal with
  | |- context [Z.of_nat (nat_of_ascii ?c)] =>
      let v := eval vm_compute in (Z.of_nat (nat_of_ascii c)) in
      change (Z.of_nat (nat_of_ascii c)) with v
  end.

Lemma digitsFrom_of_uint_acc (d : Decimal.uint) (acc : positive) :
  Requirements.digitsFrom (NilEmpty.string_of_uint d) (Zpos acc)
  = Zpos (Pos.of_uint_acc d acc).
Proof.
  revert acc. induction d; intros acc; simpl; try reflexivity;
    cbn [Requirements.digitValue]; simpl; rewrite <- IHd; f_equal; digit_code; lia.
Qed.

Lemma digitsFrom_of_uint (d : Decimal.uint) :
  Requirements.digitsFrom (NilEmpty.string_of_uint d) 0 = Z.of_N (Pos.of_uint d).
Proof.
  induction d; simpl; try reflexivity;
    cbn [Requirements.digitValue]; simpl; digit_code;
    first [exact IHd | apply (digitsFrom_of_uint_acc d)].
Qed.

Lemma parseInt_of_uint (d : Decimal.uint) :
  d <> Decimal.Nil ->
  Requirements.parseInt (NilEmpty.string_of_uint d) = Int (Z.of_N (Pos.of_uint d))
  /\ Requirements.parseDigits (NilEmpty.string_of_uint d) = Int (Z.of_N (Pos.of_uint d))
  /\ NilEmpty.string_of_uint d <> "".
Proof.
  intros Hd. rewrite <- digitsFrom_of_uint.
  destruct d; [contradiction| | | | | | | | | |];
    (split; [reflexivity|split; [reflexivity|discriminate]]).
Qed.

(** Printing an integer and parsing it back gives the integer. *)
Lemma parseInt_Z_to_string (z : Z) :
  Requirements.parseInt (Z_to_string z) = Int z /\ Z_to_string z <> "".
Proof.
  destruct z as [|p|p].
  - split; [reflexivity|discriminate].
  - unfold Z_to_string. simpl.
    pose proof (DecimalPos.Unsigned.to_uint_nonnil p) as Hn.
    destruct (parseInt_of_uint (Pos.to_uint p) Hn) as (Hp & _ & Hne).
    rewrite DecimalPos.Unsigned.of_to in Hp. simpl in Hp.
    unfold NilZero.string_of_uint.
    destruct (Pos.to_uint p); [contradiction| | | | | | | | | |]; split; assumption.
  - unfold Z_to_string. simpl.
    pose proof (DecimalPos.Unsigned.to_uint_nonnil p) as Hn.
    destruct (parseInt_of_uint (Pos.to_uint p) Hn) as (_ & Hp & _).
    rewrite DecimalPos.Unsigned.of_to in Hp. simpl in Hp.
    split; [|discriminate].
    unfold NilZero.string_of_uint.
    assert (Requirements.parseInt
              (String "-" (NilEmpty.string_of_uint (Pos.to_uint p)))
            = Requirements.negate
                (Requirements.parseDigits (NilEmpty.string_of_uint (Pos.to_uint p))))
      as E by reflexivity.
    destruct (Pos.to_uint p); [contradiction| | | | | | | | | |];
      rewrite E, Hp; reflexivity.
Qed.

(** X26. The page written to the URL by an accepted [changePage] is read
    back by the effect of the hook as the same page: page 1 removes the
    parameter, any other page is written in decimal, and running the effect
    afterwards leaves the hook as it is. *)
Theorem page_parameter_round_trip (page : Z) (h : Paging.Hook) :
  1 <= page <= Paging.totalPages (Paging.pagination h) ->
  Paging.pageParam (Paging.changePage page h)
  = (if page =? 1 then None else Some (Z_to_string page))
  /\ Paging.initFromUrl (Paging.changePage page h) = Paging.changePage page h.
Proof.
  intros Hr. unfold Paging.changePage.
  replace ((page <? 1) || (Paging.totalPages (Paging.pagination h) <? page)) with false
    by (symmetry; apply orb_false_iff; rewrite !Z.ltb_ge; lia).
  split; [reflexivity|].
  unfold Paging.initFromUrl. simpl.
  destruct (page =? 1) eqn:E1; simpl.
  - apply Z.eqb_eq in E1. subst page. reflexivity.
  - destruct (parseInt_Z_to_string page) as [Hp Hne].
    rewrite (truthy_nonempty _ Hne). simpl. rewrite Hp.
    replace (0 <? page) with true by (symmetry; apply Z.ltb_lt; lia).
    reflexivity.
Qed.

Lemma page_parameter_round_trip_witness :
  let h := Paging.updatePagination (Paging.mkPageData 1 12 230 20)
             (Paging.mkHook (Paging.initial 1 20) None) in
  Paging.pageParam (Paging.changePage 11 h) = Some "11"
  /\ Paging.initFromUrl (Paging.changePage 11 h) = Paging.changePage 11 h.
Proof.
  apply (page_parameter_round_trip 11
           (Paging.updatePagination (Paging.mkPageData 1 12 230 20)
              (Paging.mkHook (Paging.initial 1 20) None))).
  simpl. lia.
Defined.

(** ** The request of the API service *)

Lemma append_cons (c : ascii) (s t : string) :
  String c s +:+ t = String c (s +:+ t).
Proof. reflexivity. Qed.

Lemma prefix_iff (q s : string) :
  String.prefix q s = true <-> exists post, s = q +:+ post.
Proof.
  revert s. induction q as [|c q IH]; intros s.
  - split; [intros _; exists s; reflexivity | intros _; destruct s; reflexivity].
  - destruct s as [|d s].
    + split; [discriminate | intros (post & E); rewrite append_cons in E; discriminate].
    + simpl. destruct (ascii_dec c d) as [->|Hne].
      * rewrite IH. split; intros (post & E); exists post.
        -- rewrite append_cons, E. reflexivity.
        -- rewrite append_cons in E. injection E as E. exact E.
      * split; [discriminate|]. intros (post & E). rewrite append_cons in E.
        injection E as E _. congruence.
Qed.

(** [includes] finds a string exactly when it occurs in the other. *)
Lemma includes_iff (s q : string) :
  TagInput.includes s q = true <-> exists pre post, s = pre +:+ q +:+ post.
Proof.
  induction s as [|c s IH].
  - change (TagInput.includes "" q) with (String.prefix q "" || false).
    rewrite orb_false_r, prefix_iff. split.
    + intros (post & E). exists "", post. exact E.
    + intros (pre & post & E). exists post. destruct pre as [|c pre].
      * exact E.
      * rewrite append_cons in E. discriminate.
  - change (TagInput.includes (String c s) q)
      with (String.prefix q (String c s) || TagInput.includes s q).
    rewrite orb_true_iff, prefix_iff, IH. split.
    + intros [(post & E) | (pre & post & E)].
      * exists "", post. exact E.
      * exists (String c pre), post. rewrite append_cons, E. reflexivity.
    + intros (pre & post & E). destruct pre as [|d pre].
      * left. exists post. exact E.
      * right. rewrite append_cons in E. injection E as _ E. exists pre, post. exact E.
Qed.

(** X27. [request] returns for a status from 200 to 299 and throws for
    every other status. What it returns carries the status, the message of
    the body and, as data, the [data] field of the body when that field is
    truthy, the whole body when the field is missing or falsy, and nothing
    when there is no body. The error it throws carries the status and the
    parsed body; its message is the message of the body when there is a
    non-empty one and "HTTP error! status: N" otherwise, so it is never
    empty. The body is what the JSON parser gives when the content type
    contains "application/json", and absent for any other or no content
    type. Apart from a 401, the browser is left alone; a failure of [fetch]
    itself is passed on as it is. *)
Theorem request_throws_unless_ok {D : Type} (truthy : D -> bool) (r : Http.Response D)
    (b : Http.Browser) :
  let res := Http.request truthy (Http.Fetched r) b in
  (Http.ok r = true <-> 200 <= Http.r_status r <= 299)
  /\ (Http.ok r = true ->
     exists a, fst res = inr a
       /\ Http.a_status a = Http.r_status r
       /\ Http.a_message a = (Http.bodyOf r ≫= Http.b_message)
       /\ (forall bd d, Http.bodyOf r = Some bd -> Http.b_data bd = Some d ->
             truthy d = true -> Http.a_data a = Http.DataField d)
       /\ (forall bd d, Http.bodyOf r = Some bd -> Http.b_data bd = Some d ->
             truthy d = false -> Http.a_data a = Http.WholeBody bd)
       /\ (forall bd, Http.bodyOf r = Some bd -> Http.b_data bd = None ->
             Http.a_data a = Http.WholeBody bd)
       /\ (Http.bodyOf r = None -> Http.a_data a = Http.NoBody))
  /\ (Http.ok r = false ->
        exists e, fst res = inl e
          /\ Http.e_status e = Some (Http.r_status r)
          /\ Http.e_data e = Http.bodyOf r
          /\ Http.e_message e <> ""
          /\ (forall m, (Http.bodyOf r ≫= Http.b_message) = Some m -> m <> "" ->
                Http.e_message e = m)
          /\ ((Http.bodyOf r ≫= Http.b_message) = None
              \/ (Http.bodyOf r ≫= Http.b_message) = Some "" ->
              Http.e_message e = "HTTP error! status: " +:+ Z_to_string (Http.r_status r)))
  /\ (forall ct pre post,
        Http.r_contentType r = Some ct -> ct = pre +:+ "application/json" +:+ post ->
        Http.bodyOf r = Http.r_json r)
  /\ (Http.r_contentType r = None
      \/ (exists ct, Http.r_contentType r = Some ct
                     /\ forall pre post, ct <> pre +:+ "application/json" +:+ post) ->
      Http.bodyOf r = None)
  /\ (Http.r_status r <> 401 -> snd res = b)
  /\ (forall reason,
        Http.request truthy (Http.Rejected reason) b
        = (inl (Http.mkRequestError reason None None), b)).
Proof.
  intros res. subst res. unfold Http.request.
  split; [|split; [|split; [|split; [|split; [|split]]]]].
  - unfold Http.ok. rewrite andb_true_iff, !Z.leb_le. reflexivity.
  - intros Hok. rewrite Hok. simpl. eexists. split; [reflexivity|].
    simpl. split; [reflexivity|]. split; [reflexivity|]. split; [|split; [|split]].
    + intros bd d -> Hd Ht. simpl. rewrite Hd, Ht. reflexivity.
    + intros bd d -> Hd Ht. simpl. rewrite Hd, Ht. reflexivity.
    + intros bd -> Hd. simpl. rewrite Hd. reflexivity.
    + intros ->. reflexivity.
  - intros Hok. rewrite Hok. simpl. eexists. split; [reflexivity|].
    simpl. split; [reflexivity|]. split; [reflexivity|].
    destruct (Http.bodyOf r ≫= Http.b_message) as [m|]; simpl.
    + destruct (JS.truthy m) eqn:Hm; simpl.
      * split; [intros ->; discriminate|]. split; [intros ? [= <-] _; reflexivity|].
        intros [H|[= ->]]; discriminate.
      * split; [discriminate|]. split; [|reflexivity].
        intros m' [= <-] Hne. rewrite (truthy_nonempty _ Hne) in Hm. discriminate.
    + split; [discriminate|]. split; [discriminate|reflexivity].
  - intros ct pre post Hct E. unfold Http.bodyOf, Http.isJson. rewrite Hct.
    replace (TagInput.includes ct "application/json") with true; [reflexivity|].
    symmetry. apply includes_iff. eauto.
  - intros Hct. unfold Http.bodyOf, Http.isJson.
    destruct Hct as [-> | (ct & -> & Hno)]; [reflexivity|].
    destruct (TagInput.includes ct "application/json") eqn:Hi; [|reflexivity].
    apply includes_iff in Hi as (pre & post & E). exfalso. exact (Hno pre post E).
  - intros Hs. apply Z.eqb_neq in Hs. rewrite Hs. simpl.
    destruct (negb (Http.ok r)); reflexivity.
  - reflexivity.
Qed.

(** A stored count of zero is falsy: a body [{data: 0, message: 'none'}] is
    returned whole, where a count of 3 is returned as the data. *)
Example request_falsy_data :
  let truthy := fun k : Z => negb (k =? 0) in
  let answer := fun k =>
    Http.mkResponse 200 (Some "application/json; charset=utf-8")
      (Some (Http.mkBody (Some "none") (Some k) None None)) in
  let b := Http.mkBrowser true ∅ "/rooms" in
  (Http.a_data <$> (match fst (Http.request truthy (Http.Fetched (answer 0)) b) with
                    | inr a => Some a
                    | inl _ => None
                    end))
  = Some (Http.WholeBody (Http.mkBody (Some "none") (Some 0) None None))
  /\ (Http.a_data <$> (match fst (Http.request truthy (Http.Fetched (answer 3)) b) with
                       | inr a => Some a
                       | inl _ => None
                       end))
     = Some (Http.DataField 3).
Proof. split; reflexivity. Qed.

Lemma removeAuthToken_clears (b : Http.Browser) :
  Http.hasWindow b = true ->
  Http.localStorage (Http.removeAuthToken b) !! Http.TOKEN_KEY = None
  /\ Http.localStorage (Http.removeAuthToken b) !! Http.USER_KEY = None
  /\ (forall k, k <> Http.TOKEN_KEY -> k <> Http.USER_KEY ->
        Http.localStorage (Http.removeAuthToken b) !! k = Http.localStorage b !! k).
Proof.
  intros Hw. unfold Http.removeAuthToken. rewrite Hw. simpl. split; [|split].
  - rewrite lookup_delete_ne by discriminate. apply lookup_delete_eq.
  - apply lookup_delete_eq.
  - intros k Hk1 Hk2. rewrite !lookup_delete_ne by congruence. reflexivity.
Qed.

(** X28. A response with status 401 received in the browser signs the user
    out before the error is thrown: the stored token and user data are
    removed, every other key of the local storage is kept, the page is sent
    to "/login", and from then on the client is not authenticated and its
    requests carry no Authorization header. *)
Theorem unauthorized_response_signs_out {D : Type} (truthy : D -> bool)
    (r : Http.Response D) (b : Http.Browser) :
  Http.r_status r = 401 ->
  Http.hasWindow b = true ->
  let res := Http.request truthy (Http.Fetched r) b in
  (exists e, fst res = inl e /\ Http.e_status e = Some 401)
  /\ Http.getAuthToken (snd res) = None
  /\ Http.localStorage (snd res) !! Http.USER_KEY = None
  /\ (forall k, k <> Http.TOKEN_KEY -> k <> Http.USER_KEY ->
        Http.localStorage (snd res) !! k = Http.localStorage b !! k)
  /\ Http.location (snd res) = "/login"
  /\ Http.isAuthenticated (snd res) = false
  /\ Http.getAuthHeaders (snd res) !! "Authorization" = None.
Proof.
  intros Hs Hw res. subst res. unfold Http.request.
  assert (Http.ok r = false) as Hok by (unfold Http.ok; rewrite Hs; reflexivity).
  rewrite Hok, Hs, Hw. simpl.
  destruct (removeAuthToken_clears b Hw) as (Ht & Hu & Hk).
  assert (Http.getAuthToken
            (Http.mkBrowser true (Http.localStorage (Http.removeAuthToken b)) "/login")
          = None) as Hg by exact Ht.
  split; [eexists; split; reflexivity|].
  split; [exact Hg|]. split; [exact Hu|]. split; [exact Hk|]. split; [reflexivity|].
  split.
  - unfold Http.isAuthenticated. rewrite Hg. reflexivity.
  - unfold Http.getAuthHeaders. rewrite Hg. simpl.
    rewrite !lookup_insert_ne by discriminate. apply lookup_empty.
Qed.

Lemma unauthorized_response_signs_out_witness :
  let b := Http.setAuthToken "t0k3n" (Http.mkBrowser true (<["theme" := "dark"]> ∅) "/checklists") in
  let r := Http.mkResponse (D := Checklist) 401 (Some "application/json")
             (Some (Http.mkBody (Some "Unauthenticated.") None None None)) in
  let res := Http.request (fun _ => true) (Http.Fetched r) b in
  (exists e, fst res = inl e /\ Http.e_status e = Some 401)
  /\ Http.getAuthToken (snd res) = None
  /\ Http.localStorage (snd res) !! Http.USER_KEY = None
  /\ (forall k, k <> Http.TOKEN_KEY -> k <> Http.USER_KEY ->
        Http.localStorage (snd res) !! k = Http.localStorage b !! k)
  /\ Http.location (snd res) = "/login"
  /\ Http.isAuthenticated (snd res) = false
  /\ Http.getAuthHeaders (snd res) !! "Authorization" = None.
Proof.
  intros b r.
  apply (unauthorized_response_signs_out (fun _ => true) r b).
  - reflexivity.
  - reflexivity.
Defined.

(** X29. In the browser a stored token is read back as it was stored and
    sent as "Bearer <token>"; the client counts as authenticated exactly
    when the stored token is not the empty string; removing the token ends
    both. Without a window nothing is stored and no token is ever read. *)
Theorem stored_token_round_trip (token : string) (b : Http.Browser) :
  (Http.hasWindow b = true ->
     Http.getAuthToken (Http.setAuthToken token b) = Some token
     /\ Http.isAuthenticated (Http.setAuthToken token b) = JS.truthy token
     /\ (token <> "" ->
           Http.getAuthHeaders (Http.setAuthToken token b) !! "Authorization"
           = Some ("Bearer " +:+ token))
     /\ Http.getAuthToken (Http.removeAuthToken (Http.setAuthToken token b)) = None
     /\ Http.isAuthenticated (Http.removeAuthToken (Http.setAuthToken token b)) = false)
  /\ (Http.hasWindow b = false ->
        Http.setAuthToken token b = b
        /\ Http.getAuthToken b = None
        /\ Http.isAuthenticated b = false
        /\ Http.getAuthHeaders b !! "Authorization" = None).
Proof.
  split; intros Hw.
  - assert (Http.getAuthToken (Http.setAuthToken token b) = Some token) as Hg.
    { unfold Http.getAuthToken, Http.setAuthToken. rewrite Hw. simpl.
      apply lookup_insert_eq. }
    assert (Http.getAuthToken (Http.removeAuthToken (Http.setAuthToken token b)) = None)
      as Hr.
    { unfold Http.getAuthToken, Http.removeAuthToken, Http.setAuthToken. rewrite Hw. simpl.
      rewrite lookup_delete_ne by discriminate. apply lookup_delete_eq. }
    split; [exact Hg|]. split; [|split; [|split]].
    + unfold Http.isAuthenticated. rewrite Hg. simpl. destruct (JS.truthy token); reflexivity.
    + intros Hne. unfold Http.getAuthHeaders. rewrite Hg. simpl.
      rewrite (truthy_nonempty _ Hne). apply lookup_insert_eq.
    + exact Hr.
    + unfold Http.isAuthenticated. rewrite Hr. reflexivity.
  - unfold Http.setAuthToken, Http.isAuthenticated, Http.getAuthHeaders, Http.getAuthToken.
    rewrite Hw. simpl. repeat split.
Qed.
